(** * Learning dashboard: the analytics core of [page.tsx]

    A shallow embedding of the [analytics] memo of
    [src/components/LearningDashboard/page.tsx] (the function the
    specification calls [computeAnalytics]) and of the delta column of the
    CSV export, followed by the properties the specification states about
    them.

    Conventions of the embedding.
    - A JavaScript [number] holding a completion percentage is a rational
      ([Q]): finite values with exact arithmetic.  On such values
      [parseFloat(String(x)) || 0] is the identity.
    - A learner id is a natural number ([N]); per-snapshot averages, being
      results of [Math.round], are integers ([Z]).
    - A JavaScript object used as a map from ids is an association list
      whose keys are kept in ascending order, the order in which
      [Object.keys] and [Object.values] enumerate integer keys.
    - A JavaScript [Set] is a duplicate-free list in insertion order.
    - An optional field ([week1Avg?]) is an [option]; [null] entries of
      [recentAvgs] are [None]. *)

From Stdlib Require Import List Bool Arith ZArith NArith QArith Qround Lia.
From Stdlib Require Import String Ascii DecimalString.
From Stdlib Require Import Sorted Permutation Lqa.
Import ListNotations.

Set Implicit Arguments.

(** ** JavaScript primitives *)

Module Js.

(** [Math.round]: the nearest integer, ties towards +infinity. *)
Definition Math_round (x : Q) : Z := Qfloor (x + (1 # 2)).

(** [parseFloat(String(x)) || 0] on a finite number. *)
Definition parseFloat_or_0 (x : Q) : Q := x.

Definition Qltb (x y : Q) : bool := negb (Qle_bool y x).

(** Template-literal rendering of an integer and of an id. *)
Definition String_of_Z (z : Z) : string := NilZero.string_of_int (Z.to_int z).
Definition String_of_N (n : N) : string := NilZero.string_of_uint (N.to_uint n).
Definition String_of_nat (n : nat) : string := NilZero.string_of_uint (Nat.to_uint n).

(** [new Set(xs)]: insertion order, first occurrence kept. *)
Definition Set_has (s : list N) (x : N) : bool := existsb (N.eqb x) s.
Definition Set_add (s : list N) (x : N) : list N :=
  if Set_has s x then s else s ++ [x].
Definition Set_of (xs : list N) : list N := fold_left Set_add xs [].

(** [a.reduce((s, v) => s + v, 0)] *)
Definition Qsum (xs : list Q) : Q := fold_left Qplus xs 0%Q.
Definition Zsum (xs : list Z) : Z := fold_left Z.add xs 0%Z.

End Js.

(** ** Objects keyed by learner id *)

Module JsObject.

Definition t (A : Type) : Type := list (N * A).

Definition empty {A} : t A := [].

(** [m[k]] *)
Fixpoint get {A} (m : t A) (k : N) : option A :=
  match m with
  | [] => None
  | (k', v) :: m' => if N.eqb k k' then Some v else get m' k
  end.

(** [if (!m[k]) m[k] = d; m[k] = f(m[k])] *)
Fixpoint upsert {A} (k : N) (d : A) (f : A -> A) (m : t A) : t A :=
  match m with
  | [] => [(k, f d)]
  | (k', v) :: m' =>
      if N.eqb k k' then (k', f v) :: m'
      else if N.ltb k k' then (k, f d) :: (k', v) :: m'
      else (k', v) :: upsert k d f m'
  end.

(** [m[k] = v] *)
Definition set {A} (k : N) (v : A) (m : t A) : t A :=
  upsert k v (fun _ => v) m.

Definition keys {A} (m : t A) : list N := map fst m.
Definition values {A} (m : t A) : list A := map snd m.

(** [m[k] ?? d] *)
Definition get_or {A} (m : t A) (k : N) (d : A) : A :=
  match get m k with Some v => v | None => d end.

(** Keys in strictly ascending order, as an object enumerates them. *)
Fixpoint ordered {A} (m : t A) : Prop :=
  match m with
  | [] => True
  | (k, _) :: m' => Forall (N.lt k) (keys m') /\ ordered m'
  end.

End JsObject.

(** ** Data model (the interfaces of [page.tsx]) *)

Module ExcelRow.
Record t : Type := mk {
  User_ID : N;
  User_First_Name : string;
  User_Last_Name : string;
  User_Email : string;
  District : string;
  User_Status : string;
  User_Creation_Date : string;
  User_last_access_date : string;
  Curriculum_Title : string;
  Transcript_Status_Group : string;
  Curriculum_Completion_Percentage : Q
}.
End ExcelRow.

Module Course.
Record t : Type := mk {
  title : string;
  completion : Q;
  status : string
}.
End Course.

Module LearnerProgress.
Record t : Type := mk {
  id : N;
  name : string;
  email : string;
  district : string;
  courses : list Course.t;
  totalCompletion : Q;
  completed : nat;
  inProgress : nat;
  notStarted : nat
}.
End LearnerProgress.

Module Learner.
Record t : Type := mk {
  id : N;
  name : string;
  email : string;
  district : string;
  courses : list Course.t;
  totalCompletion : Q;
  completed : nat;
  inProgress : nat;
  notStarted : nat;
  avgCompletion : Z;
  level : string;
  week1Avg : option Z;
  week2Avg : option Z;
  recentAvgs : option (list (option Z))
}.
End Learner.

Module MonthlyData.
Record t : Type := mk {
  month : string;
  learners : nat;
  avg : Z;
  completed : nat;
  inProgress : nat;
  notStarted : nat
}.
End MonthlyData.

Module Snapshot.
Record t : Type := mk {
  name : string;
  rows : list ExcelRow.t
}.
End Snapshot.

Module Analytics.
Record t : Type := mk {
  totalLearners : nat;
  improvedLearners : nat;
  supportNeeded : list Learner.t;
  improvedList : list Learner.t;
  supportList : list Learner.t;
  failedStudents : list Learner.t;
  finishedStudents : list Learner.t;
  consistentCompleters : list Learner.t;
  averageCompletion : Z;
  learners : list Learner.t;
  monthlyData : list MonthlyData.t
}.
End Analytics.

(** ** The analytics memo *)

Module Dashboard.
Import Js.

Local Open Scope string_scope.

(** The value read from a row:
    [parseFloat(String(row['Curriculum Completion Percentage'])) || 0]. *)
Definition completionOf (row : ExcelRow.t) : Q :=
  parseFloat_or_0 (ExcelRow.Curriculum_Completion_Percentage row).

(** *** Row aggregation over the last snapshot *)

(** The record created when [learnerProgress[userId]] is absent. *)
Definition newLearnerProgress (row : ExcelRow.t) : LearnerProgress.t :=
  LearnerProgress.mk
    (ExcelRow.User_ID row)
    (ExcelRow.User_First_Name row ++ " " ++ ExcelRow.User_Last_Name row)
    (ExcelRow.User_Email row)
    (ExcelRow.District row)
    [] 0%Q 0%nat 0%nat 0%nat.

(** The updates made to [learnerProgress[userId]] for one row: push the
    course, add to the running sum, bump one bucket counter. *)
Definition addCourse (row : ExcelRow.t) (lp : LearnerProgress.t)
  : LearnerProgress.t :=
  let completion := completionOf row in
  let courses :=
    (LearnerProgress.courses lp ++
      [Course.mk (ExcelRow.Curriculum_Title row) completion
                 (ExcelRow.Transcript_Status_Group row)])%list in
  let totalCompletion := (LearnerProgress.totalCompletion lp + completion)%Q in
  let mk' := LearnerProgress.mk (LearnerProgress.id lp) (LearnerProgress.name lp)
               (LearnerProgress.email lp) (LearnerProgress.district lp)
               courses totalCompletion in
  if Qle_bool 100 completion then
    mk' (S (LearnerProgress.completed lp)) (LearnerProgress.inProgress lp)
        (LearnerProgress.notStarted lp)
  else if Qle_bool 1 completion && Qltb completion 100 then
    mk' (LearnerProgress.completed lp) (S (LearnerProgress.inProgress lp))
        (LearnerProgress.notStarted lp)
  else
    mk' (LearnerProgress.completed lp) (LearnerProgress.inProgress lp)
        (S (LearnerProgress.notStarted lp)).

(** The body of [last.forEach(row => ...)]. *)
Definition aggregateRow (learnerProgress : JsObject.t LearnerProgress.t)
    (row : ExcelRow.t) : JsObject.t LearnerProgress.t :=
  JsObject.upsert (ExcelRow.User_ID row) (newLearnerProgress row)
    (addCourse row) learnerProgress.

Definition learnerProgress (last : list ExcelRow.t)
  : JsObject.t LearnerProgress.t :=
  fold_left aggregateRow last JsObject.empty.

(** The callback of [Object.values(learnerProgress).map(...)]. *)
Definition toLearner (learner : LearnerProgress.t) : Learner.t :=
  Learner.mk
    (LearnerProgress.id learner) (LearnerProgress.name learner)
    (LearnerProgress.email learner) (LearnerProgress.district learner)
    (LearnerProgress.courses learner)
    (LearnerProgress.totalCompletion learner)
    (LearnerProgress.completed learner)
    (LearnerProgress.inProgress learner)
    (LearnerProgress.notStarted learner)
    (if Nat.ltb 0 (List.length (LearnerProgress.courses learner))
     then Math_round (LearnerProgress.totalCompletion learner /
            inject_Z (Z.of_nat (List.length (LearnerProgress.courses learner))))
     else 0%Z)
    (if Nat.leb 3 (LearnerProgress.completed learner) then "Advanced"
     else if Nat.leb 1 (LearnerProgress.completed learner) then "Intermediate"
     else "Beginner")
    None None None.

Definition learners (last : list ExcelRow.t) : list Learner.t :=
  map toLearner (JsObject.values (learnerProgress last)).

(** *** Per-snapshot average maps *)

Record TotalCount : Type := mkTotalCount { total : Q; count : nat }.

Definition accumulate (val : Q) (e : TotalCount) : TotalCount :=
  mkTotalCount (total e + val)%Q (count e + 1)%nat.

(** [Math.round(e.total / Math.max(1, e.count))] *)
Definition roundedAverage (e : TotalCount) : Z :=
  Math_round (total e / inject_Z (Z.of_nat (Nat.max 1 (count e)))).

(** The first loop of [avgMap]: totals and counts per id. *)
Definition totalsOf (arr : list ExcelRow.t) : JsObject.t TotalCount :=
  fold_left
    (fun map r =>
       JsObject.upsert (ExcelRow.User_ID r) (mkTotalCount 0%Q 0%nat)
         (accumulate (completionOf r)) map)
    arr JsObject.empty.

(** [avgMap], local to the two-snapshot comparison. *)
Definition avgMap (arr : list ExcelRow.t) : JsObject.t Z :=
  let map := totalsOf arr in
  fold_left
    (fun avg kv => JsObject.set (fst kv) (roundedAverage (snd kv)) avg)
    map JsObject.empty.

(** The callback of [avgMapsAll = snapshots.map(snap => ...)]: the same
    computation, written out a second time in the source. *)
Definition avgMapOfSnapshot (snap : Snapshot.t) : JsObject.t Z :=
  let tmp :=
    fold_left
      (fun tmp r =>
         JsObject.upsert (ExcelRow.User_ID r) (mkTotalCount 0%Q 0%nat)
           (accumulate (completionOf r)) tmp)
      (Snapshot.rows snap) JsObject.empty in
  fold_left
    (fun m kv => JsObject.set (fst kv) (roundedAverage (snd kv)) m)
    tmp JsObject.empty.

Definition avgMapsAll (snapshots : list Snapshot.t) : list (JsObject.t Z) :=
  map avgMapOfSnapshot snapshots.

(** *** Comparison of the two most recent snapshots *)

Definition noSnapshot : Snapshot.t := Snapshot.mk "" [].

(** [snapshots[i].rows] *)
Definition rowsAt (snapshots : list Snapshot.t) (i : nat) : list ExcelRow.t :=
  Snapshot.rows (nth i snapshots noSnapshot).

Definition snap1 (snapshots : list Snapshot.t) : list ExcelRow.t :=
  rowsAt snapshots (List.length snapshots - 2).
Definition snap2 (snapshots : list Snapshot.t) : list ExcelRow.t :=
  rowsAt snapshots (List.length snapshots - 1).

Definition avgMaps (snapshots : list Snapshot.t) : list (JsObject.t Z) :=
  map (fun s => avgMap (Snapshot.rows s)) snapshots.

Definition a1 (snapshots : list Snapshot.t) : JsObject.t Z :=
  avgMap (snap1 snapshots).
Definition a2 (snapshots : list Snapshot.t) : JsObject.t Z :=
  avgMap (snap2 snapshots).

(** [new Set(avgMaps.flatMap(m => Object.keys(m).map(Number)))] *)
Definition allIds (snapshots : list Snapshot.t) : list N :=
  Set_of (flat_map (fun m => JsObject.keys m) (avgMaps snapshots)).

Definition hasId (searchId : N) (rr : ExcelRow.t) : bool :=
  N.eqb (ExcelRow.User_ID rr) searchId.

(** The loop of [findRowAcrossSnapshots], over the snapshots newest first. *)
Fixpoint findRowNewestFirst (newestFirst : list Snapshot.t) (searchId : N)
  : option ExcelRow.t :=
  match newestFirst with
  | [] => None
  | s :: older =>
      match find (hasId searchId) (Snapshot.rows s) with
      | Some r => Some r
      | None => findRowNewestFirst older searchId
      end
  end.

Definition findRowAcrossSnapshots (snapshots : list Snapshot.t) (searchId : N)
  : option ExcelRow.t :=
  findRowNewestFirst (rev snapshots) searchId.

Definition v1 (snapshots : list Snapshot.t) (id : N) : Z :=
  JsObject.get_or (a1 snapshots) id 0%Z.
Definition v2 (snapshots : list Snapshot.t) (id : N) : Z :=
  JsObject.get_or (a2 snapshots) id 0%Z.

(** The loop filling [recentAvgs]. *)
Definition recentAvgs (snapshots : list Snapshot.t) (id : N)
  : list (option Z) :=
  let startIdx := Nat.max 0 (List.length snapshots - 4) in
  map (fun i => JsObject.get (nth i (avgMaps snapshots) JsObject.empty) id)
      (seq startIdx (List.length snapshots - startIdx)).

(** [{ ...existing, week1Avg: v1, week2Avg: v2, avgCompletion: v2, recentAvgs }] *)
Definition enriched (existing : Learner.t) (v1 v2 : Z)
    (recentAvgs : list (option Z)) : Learner.t :=
  Learner.mk
    (Learner.id existing) (Learner.name existing) (Learner.email existing)
    (Learner.district existing) (Learner.courses existing)
    (Learner.totalCompletion existing) (Learner.completed existing)
    (Learner.inProgress existing) (Learner.notStarted existing)
    v2 (Learner.level existing) (Some v1) (Some v2) (Some recentAvgs).

Definition courseOfRow (r : ExcelRow.t) : Course.t :=
  Course.mk (ExcelRow.Curriculum_Title r) (completionOf r)
            (ExcelRow.Transcript_Status_Group r).

(** The fallback learner built from the rows of the two snapshots. *)
Definition base (snapshots : list Snapshot.t) (id : N) (v1 v2 : Z)
    (recentAvgs : list (option Z)) : Learner.t :=
  let rowSource := findRowAcrossSnapshots snapshots id in
  let rowsForId :=
    (filter (hasId id) (snap2 snapshots) ++
     filter (hasId id) (snap1 snapshots))%list in
  let courses := map courseOfRow rowsForId in
  let totalCompletion := Qsum (map Course.completion courses) in
  let completed :=
    List.length (filter (fun c => Qle_bool 100 (Course.completion c)) courses) in
  let inProgress :=
    List.length (filter (fun c => Qle_bool 1 (Course.completion c) &&
                             Qltb (Course.completion c) 100) courses) in
  let notStarted :=
    List.length (filter (fun c => Qltb (Course.completion c) 1) courses) in
  Learner.mk id
    (match rowSource with
     | Some r => ExcelRow.User_First_Name r ++ " " ++ ExcelRow.User_Last_Name r
     | None => String_of_N id
     end)
    (match rowSource with Some r => ExcelRow.User_Email r | None => "" end)
    (match rowSource with Some r => ExcelRow.District r | None => "" end)
    courses totalCompletion completed inProgress notStarted
    v2 "" (Some v1) (Some v2) (Some recentAvgs).

(** The body of [allIds.forEach(id => ...)], threading the two lists. *)
Definition compareId (snapshots : list Snapshot.t) (learners : list Learner.t)
    (lists : list Learner.t * list Learner.t) (id : N)
  : list Learner.t * list Learner.t :=
  let '(improvedList, supportList) := lists in
  let v1 := v1 snapshots id in
  let v2 := v2 snapshots id in
  let recentAvgs := recentAvgs snapshots id in
  match find (fun l => N.eqb (Learner.id l) id) learners with
  | Some existing =>
      let enriched := enriched existing v1 v2 recentAvgs in
      if Z.ltb v1 v2 then ((improvedList ++ [enriched])%list, supportList)
      else if Z.eqb v1 v2 then (improvedList, (supportList ++ [enriched])%list)
      else (improvedList, supportList)
  | None =>
      let base := base snapshots id v1 v2 recentAvgs in
      if Z.ltb v1 v2 then ((improvedList ++ [base])%list, supportList)
      else if Z.eqb v1 v2 then (improvedList, (supportList ++ [base])%list)
      else (improvedList, supportList)
  end.

(** [improvedList] and [supportList] as they stand after the block
    guarded by [snapshots.length >= 2]. *)
Definition twoSnapshotComparison (snapshots : list Snapshot.t)
    (learners : list Learner.t) : list Learner.t * list Learner.t :=
  if Nat.leb 2 (List.length snapshots)
  then fold_left (compareId snapshots learners) (allIds snapshots) ([], [])
  else ([], []).

(** *** Population figures of the last snapshot *)

Definition failedStudents (learners : list Learner.t) : list Learner.t :=
  filter (fun l => Z.ltb (Learner.avgCompletion l) 25 &&
                   Nat.ltb 0 (Learner.inProgress l)) learners.

Definition averageCompletion (learners : list Learner.t) : Z :=
  if Nat.ltb 0 (List.length learners)
  then Math_round (inject_Z (Zsum (map Learner.avgCompletion learners)) /
                   inject_Z (Z.of_nat (List.length learners)))
  else 0%Z.

(** *** Finished learners *)

(** [for (const m of avgMapsAll) if ((m[id] ?? 0) >= 100) count100++] *)
Definition count100 (avgMapsAll : list (JsObject.t Z)) (id : N) : nat :=
  fold_left
    (fun count100 m =>
       if Z.leb 100 (JsObject.get_or m id 0%Z) then S count100 else count100)
    avgMapsAll 0%nat.

(** The body of [learnerIds.forEach(id => ...)], threading
    [finishedStudents] and [consistentCompleters]. *)
Definition finishId (avgMapsAll : list (JsObject.t Z))
    (learners : list Learner.t)
    (lists : list Learner.t * list Learner.t) (id : N)
  : list Learner.t * list Learner.t :=
  let '(finishedStudents, consistentCompleters) := lists in
  if Nat.leb 2 (count100 avgMapsAll id) then
    match find (fun l => N.eqb (Learner.id l) id) learners with
    | Some existing =>
        ((finishedStudents ++ [existing])%list,
         (consistentCompleters ++ [existing])%list)
    | None => (finishedStudents, consistentCompleters)
    end
  else (finishedStudents, consistentCompleters).

Definition finishedScan (snapshots : list Snapshot.t)
    (learners : list Learner.t) : list Learner.t * list Learner.t :=
  if Nat.ltb 0 (List.length snapshots) then
    let learnerIds := Set_of (map Learner.id learners) in
    fold_left (finishId (avgMapsAll snapshots) learners) learnerIds ([], [])
  else ([], []).

(** [supportList] after the block guarded by [snapshots.length > 0]. *)
Definition excludeFinished (snapshots : list Snapshot.t)
    (finishedStudents supportList : list Learner.t) : list Learner.t :=
  if Nat.ltb 0 (List.length snapshots) then
    if Nat.ltb 0 (List.length finishedStudents) then
      let finishedIds := Set_of (map Learner.id finishedStudents) in
      filter (fun s => negb (Set_has finishedIds (Learner.id s))) supportList
    else supportList
  else supportList.

(** *** Per-report summaries *)

Record Counts : Type :=
  mkCounts { c_completed : nat; c_inProgress : nat; c_notStarted : nat }.

Definition countAvg (counts : Counts) (avg : Z) : Counts :=
  if Z.leb 100 avg then
    mkCounts (S (c_completed counts)) (c_inProgress counts) (c_notStarted counts)
  else if Z.leb 1 avg && Z.ltb avg 100 then
    mkCounts (c_completed counts) (S (c_inProgress counts)) (c_notStarted counts)
  else
    mkCounts (c_completed counts) (c_inProgress counts) (S (c_notStarted counts)).

Definition monthlyDatum (idx : nat) (snap : Snapshot.t) : MonthlyData.t :=
  let perLearner :=
    fold_left
      (fun perLearner r =>
         JsObject.upsert (ExcelRow.User_ID r) (mkTotalCount 0%Q 0%nat)
           (accumulate (completionOf r)) perLearner)
      (Snapshot.rows snap) JsObject.empty in
  let learnerAvgs := map roundedAverage (JsObject.values perLearner) in
  let counts := fold_left countAvg learnerAvgs (mkCounts 0 0 0) in
  let avg :=
    if Nat.ltb 0 (List.length learnerAvgs)
    then Math_round (inject_Z (Zsum learnerAvgs) /
                     inject_Z (Z.of_nat (List.length learnerAvgs)))
    else 0%Z in
  let label :=
    if String.eqb (Snapshot.name snap) "" then "Week " ++ String_of_nat (idx + 1)
    else Snapshot.name snap in
  MonthlyData.mk label (List.length learnerAvgs) avg
    (c_completed counts) (c_inProgress counts) (c_notStarted counts).

Definition monthlyData (snapshots : list Snapshot.t) : list MonthlyData.t :=
  map (fun p => monthlyDatum (fst p) (snd p))
      (combine (seq 0 (List.length snapshots)) snapshots).

(** *** The memo itself *)

Definition computeAnalytics (snapshots : list Snapshot.t)
  : option Analytics.t :=
  if Nat.eqb (List.length snapshots) 0 then None
  else
    let last := rowsAt snapshots (List.length snapshots - 1) in
    let totalLearners :=
      List.length (Set_of (map ExcelRow.User_ID last)) in
    let learners := learners last in
    let '(improvedList, supportList) :=
      twoSnapshotComparison snapshots learners in
    let improvedLearners := List.length improvedList in
    let supportNeeded := supportList in
    let failedStudents := failedStudents learners in
    let averageCompletion := averageCompletion learners in
    let '(finishedStudents, consistentCompleters) :=
      finishedScan snapshots learners in
    let supportList := excludeFinished snapshots finishedStudents supportList in
    let monthlyData := monthlyData snapshots in
    Some (Analytics.mk totalLearners improvedLearners supportNeeded
            improvedList supportList failedStudents finishedStudents
            consistentCompleters averageCompletion learners monthlyData).

End Dashboard.

(** ** The delta column of the CSV export *)

Module CsvExport.
Import Js.
Local Open Scope string_scope.

(** [for (let v of recent) if (v != null) { first = v; break; }] *)
Fixpoint first (recent : list (option Z)) : option Z :=
  match recent with
  | [] => None
  | Some v :: _ => Some v
  | None :: rest => first rest
  end.

(** The backward loop, from [recent.length - 1] down to 0. *)
Definition last (recent : list (option Z)) : option Z := first (rev recent).

(** [rowBase['Δ']] *)
Definition delta (l : Learner.t) : string :=
  let recent :=
    match Learner.recentAvgs l with Some r => r | None => [] end in
  match first recent, last recent with
  | Some first, Some last => String_of_Z (last - first) ++ "%"
  | _, _ => ""
  end.

(** The cell of the recent column [i]. *)
Definition recentCell (l : Learner.t) (i : nat) : string :=
  match Learner.recentAvgs l with
  | Some r =>
      match nth_error r i with
      | Some (Some val) => String_of_Z val ++ "%"
      | _ => ""
      end
  | None => ""
  end.

End CsvExport.

(** ** Vocabulary of the specification *)

Module Spec.
Import Js Dashboard.

(** The three completion buckets. *)
Inductive Bucket : Type := Completed | InProgress | NotStarted.

(** ">=100 completed; >=1 and <100 in-progress; otherwise not-started" *)
Definition bucketOf (completion : Q) : Bucket :=
  if Qle_bool 100 completion then Completed
  else if Qle_bool 1 completion && Qltb completion 100 then InProgress
  else NotStarted.

Definition Bucket_eqb (a b : Bucket) : bool :=
  match a, b with
  | Completed, Completed | InProgress, InProgress
  | NotStarted, NotStarted => true
  | _, _ => false
  end.

(** How many of the courses fall into a bucket. *)
Definition inBucket (b : Bucket) (courses : list Course.t) : nat :=
  List.length
    (filter (fun c => Bucket_eqb (bucketOf (Course.completion c)) b) courses).


(** [z] is [q] rounded to the nearest integer, a half going up. *)
Definition roundsHalfUp (q : Q) (z : Z) : Prop :=
  (inject_Z z - (1 # 2) <= q)%Q /\ (q < inject_Z z + (1 # 2))%Q.

(** A running record agrees with the courses pushed onto it so far. *)
Definition aggregated (lp : LearnerProgress.t) : Prop :=
  LearnerProgress.completed lp = inBucket Completed (LearnerProgress.courses lp) /\
  LearnerProgress.inProgress lp = inBucket InProgress (LearnerProgress.courses lp) /\
  LearnerProgress.notStarted lp = inBucket NotStarted (LearnerProgress.courses lp) /\
  LearnerProgress.totalCompletion lp =
    Qsum (map Course.completion (LearnerProgress.courses lp)).

(** The learner ids occurring in the rows of a snapshot. *)
Definition idsOf (s : Snapshot.t) : list N :=
  map ExcelRow.User_ID (Snapshot.rows s).

(** The ids of a list of learners. *)
Definition ids (ls : list Learner.t) : list N := map Learner.id ls.

(** The per-snapshot average of a learner, [None] when absent. *)
Definition averageIn (s : Snapshot.t) (id : N) : option Z :=
  JsObject.get (avgMap (Snapshot.rows s)) id.

(** The rows of a learner, and the rounded mean of their completions. *)
Definition rowsOf (id : N) (arr : list ExcelRow.t) : list ExcelRow.t :=
  filter (hasId id) arr.

Definition averageOfRows (rs : list ExcelRow.t) : Z :=
  Math_round (Qsum (map completionOf rs) /
              inject_Z (Z.of_nat (List.length rs))).

(** The running total and count after the rows [rs] of one learner. *)
Definition totalCountOf (rs : list ExcelRow.t) : TotalCount :=
  mkTotalCount (Qsum (map completionOf rs)) (List.length rs).

(** The number of snapshots in which the learner's average is at least
    100 (an absent learner counting as 0). *)
Definition snapshotsAt100 (snapshots : list Snapshot.t) (id : N) : nat :=
  List.length
    (filter (fun s => Z.leb 100 (JsObject.get_or (avgMapOfSnapshot s) id 0%Z))
            snapshots).

(** The learner pushed for [id] by the two-snapshot comparison. *)
Definition enrichedFor (snapshots : list Snapshot.t)
    (learners : list Learner.t) (id : N) : Learner.t :=
  match find (fun l => N.eqb (Learner.id l) id) learners with
  | Some existing =>
      enriched existing (v1 snapshots id) (v2 snapshots id)
        (recentAvgs snapshots id)
  | None =>
      base snapshots id (v1 snapshots id) (v2 snapshots id)
        (recentAvgs snapshots id)
  end.

(** What [finishId] pushes for [id]. *)
Definition finishedFor (avgMapsAll : list (JsObject.t Z))
    (learners : list Learner.t) (id : N) : list Learner.t :=
  if Nat.leb 2 (count100 avgMapsAll id) then
    match find (fun l => N.eqb (Learner.id l) id) learners with
    | Some existing => [existing]
    | None => []
    end
  else [].

(** [l1] is obtained from [l2] by deleting elements. *)
Inductive sublist {A : Type} : list A -> list A -> Prop :=
| sublist_nil : sublist [] []
| sublist_skip : forall x l1 l2, sublist l1 l2 -> sublist l1 (x :: l2)
| sublist_keep : forall x l1 l2, sublist l1 l2 -> sublist (x :: l1) (x :: l2).

(** The delta column as the specification words it: a leading [+] on a
    positive difference. *)
Definition signedDelta (l : Learner.t) : string :=
  let recent :=
    match Learner.recentAvgs l with Some r => r | None => [] end in
  match CsvExport.first recent, CsvExport.last recent with
  | Some first, Some last =>
      ((if Z.ltb 0 (last - first) then "+" else "") ++
       String_of_Z (last - first) ++ "%")%string
  | _, _ => ""%string
  end.

(** Sample rows and snapshots used to exercise the statements. *)
Definition row (id : N) (first : string) (completion : Q) : ExcelRow.t :=
  ExcelRow.mk id first "Doe" "" "" "Active" "" "" "Math" "" completion.

Definition snapshotA : Snapshot.t :=
  Snapshot.mk "A" [row 1 "Alice" 40; row 2 "Bob" 100].
Definition snapshotB : Snapshot.t :=
  Snapshot.mk "B" [row 1 "Alice" 60; row 2 "Bob" 100].
Definition snapshotOld : Snapshot.t :=
  Snapshot.mk "Old" [row 7 "Zed" 30].
Definition snapshotRegress : Snapshot.t :=
  Snapshot.mk "C" [row 1 "Alice" 50; row 2 "Bob" 100].

Definition snapshotsAB : list Snapshot.t := [snapshotA; snapshotB].
Definition snapshotsOAB : list Snapshot.t := [snapshotOld; snapshotA; snapshotB].
Definition snapshotsABC : list Snapshot.t :=
  [snapshotA; snapshotB; snapshotRegress].


(** The result of the memo, for a sequence known not to be empty. *)
Definition resultOf (snapshots : list Snapshot.t) : Analytics.t :=
  match computeAnalytics snapshots with
  | Some a => a
  | None => Analytics.mk 0 0 [] [] [] [] [] [] 0%Z [] []
  end.

(** Three courses of one learner, one in each bucket. *)
Definition rowsEve : list ExcelRow.t :=
  [row 5 "Eve" 50; row 5 "Eve" (1 # 2); row 5 "Eve" 100].

(** A learner with the given recent averages, for the export. *)
Definition learnerWithRecent (recent : list (option Z)) : Learner.t :=
  Learner.mk 1 "Alice Doe" "" "" [] 0%Q 0 0 0 0%Z "Beginner"
    None None (Some recent).

(** The first learner of a list known not to be empty. *)
Definition firstOf (ls : list Learner.t) : Learner.t :=
  nth 0 ls (learnerWithRecent []).

End Spec.

(** ** Report management: import and deletion *)

Module Reports.
Import Js.
Local Open Scope string_scope.

(** [setSnapshots(prev => prev.filter((_, i) => i !== idx))] *)
Definition deleteReport (idx : nat) (prev : list Snapshot.t)
  : list Snapshot.t :=
  map snd
    (filter (fun p => negb (Nat.eqb (fst p) idx))
            (combine (seq 0 (List.length prev)) prev)).

Definition isDot (c : ascii) : bool := Ascii.eqb c "."%char.

Fixpoint hasDot (s : string) : bool :=
  match s with
  | EmptyString => false
  | String c rest => isDot c || hasDot rest
  end.

(** [name.replace(/\.[^.]+$/, '')]: the match starts at a dot followed
    by at least one character and by no further dot, and runs to the end. *)
Fixpoint stripExtension (s : string) : string :=
  match s with
  | EmptyString => EmptyString
  | String c rest =>
      if isDot c && negb (hasDot rest) && negb (String.eqb rest "")
      then EmptyString
      else String c (stripExtension rest)
  end.

(** An uploaded file once decoded by the spreadsheet reader and passed
    through [normalizeRow]. *)
Record File : Type := mkFile { file_name : string; jsonData : list ExcelRow.t }.

(** [file.name ? file.name.replace(...) : `Report ${newSnapshots.length + 1}`] *)
Definition baseName (file : File) (newSnapshots : list Snapshot.t) : string :=
  if String.eqb (file_name file) ""
  then "Report " ++ String_of_nat (List.length newSnapshots + 1)
  else stripExtension (file_name file).

(** One round of the loop over the files: [newSnapshots.push(...)]. *)
Definition pushFile (newSnapshots : list Snapshot.t) (file : File)
  : list Snapshot.t :=
  (newSnapshots ++ [Snapshot.mk (baseName file newSnapshots) (jsonData file)])%list.

Record ImportSummary : Type :=
  mkImportSummary { files : nat; rowsAdded : nat; totalRows : nat }.

Record Imported : Type := mkImported {
  newSnapshots : list Snapshot.t;
  newData : list ExcelRow.t;
  importSummary : ImportSummary
}.

(** The state written by [handleFileImport]; [None] when the handler
    returns at once on an empty file list. *)
Definition handleFileImport (snapshots : list Snapshot.t)
    (fileList : list File) : option Imported :=
  if Nat.eqb (List.length fileList) 0 then None
  else
    let combinedRows := flat_map jsonData fileList in
    let newSnapshots := fold_left pushFile fileList snapshots in
    let newData := flat_map Snapshot.rows newSnapshots in
    Some (mkImported newSnapshots newData
            (mkImportSummary (List.length fileList)
               (List.length combinedRows) (List.length newData))).

End Reports.

(** ** The charts and their range of reports *)

Module Charts.

Inductive ChartMode : Type := all | range | single.

(** [Math.max(0, Math.min(x, monthlyData.length - 1))] *)
Definition clampIndex (x : Z) (len : nat) : Z :=
  Z.max 0 (Z.min x (Z.of_nat len - 1)).

(** A relative index of [Array.prototype.slice]. *)
Definition relativeIndex (k len : Z) : Z :=
  if Z.ltb k 0 then Z.max (len + k) 0 else Z.min k len.

(** [l.slice(start, end)] *)
Definition slice {A} (start end_ : Z) (l : list A) : list A :=
  let len := Z.of_nat (List.length l) in
  let from := relativeIndex start len in
  let final := relativeIndex end_ len in
  firstn (Z.to_nat (final - from)) (skipn (Z.to_nat from) l).

(** The reports shown, [visible]; [None] when the list holds
    [undefined], on which the datasets cannot be built. *)
Definition visible (chartMode : ChartMode) (monthFrom monthTo singleMonth : Z)
    (monthlyData : list MonthlyData.t) : option (list MonthlyData.t) :=
  match chartMode with
  | single =>
      let idx := clampIndex singleMonth (List.length monthlyData) in
      match nth_error monthlyData (Z.to_nat idx) with
      | Some m => Some [m]
      | None => None
      end
  | range =>
      let a := clampIndex monthFrom (List.length monthlyData) in
      let b := clampIndex monthTo (List.length monthlyData) in
      let start := Z.min a b in
      let end_ := Z.max a b in
      Some (slice start (end_ + 1) monthlyData)
  | all => Some monthlyData
  end.

Record ChartData : Type := mkChartData {
  labels : list string;
  avgDataset : list Z;
  completedDataset : list nat;
  inProgressDataset : list nat;
  notStartedDataset : list nat
}.

(** The data of [chartsWithRange]. *)
Definition chartsWithRange (analytics : option Analytics.t)
    (chartMode : ChartMode) (monthFrom monthTo singleMonth : Z)
  : option ChartData :=
  match analytics with
  | None => None
  | Some analytics =>
      match visible chartMode monthFrom monthTo singleMonth
              (Analytics.monthlyData analytics) with
      | None => None
      | Some visible =>
          Some (mkChartData
                  (map MonthlyData.month visible)
                  (map MonthlyData.avg visible)
                  (map MonthlyData.completed visible)
                  (map MonthlyData.inProgress visible)
                  (map MonthlyData.notStarted visible))
      end
  end.

End Charts.

(** ** The learner table and the CSV export *)

Module ListModal.
Import Js.
Local Open Scope string_scope.

Inductive ListModalType : Type :=
  improved | support | total | average | failed | finished | reports | none.

(** [[...learners].sort((a, b) => b.avgCompletion - a.avgCompletion)]: the
    sort is stable, so it is the insertion of each learner after the
    learners whose average is at least its own. *)
Fixpoint insertByAvg (l : Learner.t) (sorted : list Learner.t)
  : list Learner.t :=
  match sorted with
  | [] => [l]
  | x :: rest =>
      if Z.ltb (Learner.avgCompletion x) (Learner.avgCompletion l)
      then l :: x :: rest
      else x :: insertByAvg l rest
  end.

Definition sortByAvgDesc (ls : list Learner.t) : list Learner.t :=
  fold_left (fun sorted l => insertByAvg l sorted) ls [].

(** [selectedIds.includes(id)] *)
Definition includes (selectedIds : list N) (id : N) : bool :=
  existsb (N.eqb id) selectedIds.

(** The learners handed to the export. *)
Definition exportList (analytics : option Analytics.t)
    (listModalType : ListModalType) (selectedIds : list N)
  : list Learner.t :=
  match analytics with
  | None => []
  | Some analytics =>
      let list :=
        match listModalType with
        | improved => Analytics.improvedList analytics
        | support => Analytics.supportList analytics
        | total => Analytics.learners analytics
        | average => sortByAvgDesc (Analytics.learners analytics)
        | failed => Analytics.failedStudents analytics
        | _ => []
        end in
      if Nat.ltb 0 (List.length selectedIds)
      then filter (fun l => includes selectedIds (Learner.id l)) list
      else list
  end.

(** The names of the four recent report columns. *)
Definition recentNames (snapshots : list Snapshot.t) : list string :=
  let start := Nat.max 0 (List.length snapshots - 4) in
  map (fun i =>
         match nth_error snapshots (start + i) with
         | Some s => Snapshot.name s
         | None => "Report " ++ String_of_nat (start + i + 1)
         end)
      (seq 0 4).

(** The values assigned to a learner's row by the loop over the recent
    names, one per round. *)
Definition recentCells (snapshots : list Snapshot.t) (l : Learner.t)
  : list string :=
  map (CsvExport.recentCell l) (seq 0 (List.length (recentNames snapshots))).

Definition dquote : ascii := Ascii.ascii_of_nat 34.

(** The global [replace] of the export: every double quote of the text is
    written twice. *)
Fixpoint doubleQuotes (s : string) : string :=
  match s with
  | EmptyString => EmptyString
  | String c rest =>
      if Ascii.eqb c dquote
      then String dquote (String dquote (doubleQuotes rest))
      else String c (doubleQuotes rest)
  end.

(** One field of the file: the doubled text between two quotes. *)
Definition csvField (s : string) : string :=
  String dquote (doubleQuotes s ++ String dquote EmptyString).

(** The delta cell of the on-screen table: its value and its text. *)
Definition screenDelta (learner : Learner.t) : option Z :=
  let week2 :=
    match Learner.week2Avg learner with
    | Some w => w
    | None => Learner.avgCompletion learner
    end in
  match Learner.week1Avg learner with
  | Some week1 => Some (week2 - week1)%Z
  | None => None
  end.

Definition screenDeltaText (learner : Learner.t) : string :=
  match screenDelta learner with
  | Some delta =>
      (if Z.ltb 0 delta then "+" else "") ++ String_of_Z delta ++ "%"
  | None => "-"
  end.

(** One line of the file: [fields.map(quote).join(',')]. *)
Definition csvLine (fields : list string) : string :=
  String.concat "," (map csvField fields).

End ListModal.

(** ** A reader for the exported lines *)

Module CsvReader.
Import ListModal.

(** The text of a quoted field whose opening quote has been read, and
    what follows its closing quote. *)
Fixpoint readQuoted (s : string) : option (string * string) :=
  match s with
  | EmptyString => None
  | String c rest =>
      if Ascii.eqb c dquote then
        match rest with
        | String c' rest' =>
            if Ascii.eqb c' dquote
            then option_map (fun p => (String dquote (fst p), snd p))
                            (readQuoted rest')
            else Some (EmptyString, rest)
        | EmptyString => Some (EmptyString, EmptyString)
        end
      else option_map (fun p => (String c (fst p), snd p)) (readQuoted rest)
  end.

(** The fields of a line of quoted fields separated by commas; [fuel]
    bounds the number of fields. *)
Fixpoint readLine (fuel : nat) (s : string) : option (list string) :=
  match fuel with
  | O => None
  | S fuel =>
      match s with
      | String c rest =>
          if Ascii.eqb c dquote then
            match readQuoted rest with
            | Some (field, EmptyString) => Some [field]
            | Some (field, String c' more) =>
                if Ascii.eqb c' ","%char
                then option_map (cons field) (readLine fuel more)
                else None
            | None => None
            end
          else None
      | EmptyString => None
      end
  end.

End CsvReader.

(** ** Sample inputs for the further properties *)

Module Samples.
Import Spec.

(** Two rows of one learner under two first names. *)
Definition rowsDan : list ExcelRow.t := [row 4 "Dan" 10; row 4 "Daniel" 90].

(** A learner seen in the previous snapshot only. *)
Definition snapshotGone : Snapshot.t := Snapshot.mk "D" [row 2 "Bob" 100].
Definition snapshotsAG : list Snapshot.t := [snapshotA; snapshotGone].

Definition snapshotNoName : Snapshot.t := Snapshot.mk "" [row 1 "Alice" 70].

(** A learner well behind on two courses it has begun. *)
Definition snapshotsFay : list Snapshot.t :=
  [Snapshot.mk "F" [row 6 "Fay" 10; row 6 "Fay" 20]].

(** A learner at 0% who then leaves, and the learner found for it. *)
Definition snapshotIdle : Snapshot.t :=
  Snapshot.mk "P" [row 9 "Ivy" 0; row 2 "Bob" 100].
Definition snapshotsIG : list Snapshot.t := [snapshotIdle; snapshotGone].
(** A learner seen in the first and third of three reports only. *)
Definition learnerGapped : Learner.t :=
  learnerWithRecent [None; Some 40%Z; None; Some 60%Z; None]%list.

Definition learnerIvy : Learner.t :=
  nth 1 (Analytics.supportNeeded (resultOf snapshotsIG)) (learnerWithRecent []).

End Samples.

(** * Properties *)

(** ** Facts about the JavaScript primitives *)

Module JsFacts.
Import Js.

Lemma Set_has_In (s : list N) (x : N) : Set_has s x = true <-> In x s.
Proof.
  unfold Set_has. rewrite existsb_exists. split.
  - intros [y [Hy Heq]]. apply N.eqb_eq in Heq. now subst.
  - intros H. exists x. split; [assumption | apply N.eqb_refl].
Qed.

Lemma In_Set_add (s : list N) (x y : N) :
  In y (Set_add s x) <-> In y s \/ y = x.
Proof.
  unfold Set_add. destruct (Set_has s x) eqn:E.
  - apply Set_has_In in E. split; [now left | intros [H | ->]; assumption].
  - rewrite in_app_iff. simpl. intuition.
Qed.

Lemma In_fold_Set_add (xs s : list N) (y : N) :
  In y (fold_left Set_add xs s) <-> In y s \/ In y xs.
Proof.
  revert s. induction xs as [| x xs IH]; intros s; simpl.
  - intuition.
  - rewrite IH, In_Set_add. intuition.
Qed.

Lemma In_Set_of (xs : list N) (y : N) : In y (Set_of xs) <-> In y xs.
Proof.
  unfold Set_of. rewrite In_fold_Set_add. simpl. intuition.
Qed.

Lemma Math_round_lower (q : Q) : (inject_Z (Math_round q) - (1 # 2) <= q)%Q.
Proof.
  unfold Math_round.
  pose proof (Qfloor_le (q + (1 # 2))) as H.
  apply (Qplus_le_l _ _ (1 # 2)). ring_simplify. ring_simplify in H.
  exact H.
Qed.

Lemma Math_round_upper (q : Q) : (q < inject_Z (Math_round q) + (1 # 2))%Q.
Proof.
  unfold Math_round.
  pose proof (Qlt_floor (q + (1 # 2))) as H.
  rewrite inject_Z_plus in H.
  apply (Qplus_lt_l _ _ (1 # 2)).
  eapply Qlt_le_trans; [exact H |].
  apply Qle_lteq. right. ring.
Qed.

Lemma Math_round_Qeq (p q : Q) : (p == q)%Q -> Math_round p = Math_round q.
Proof.
  intros H. unfold Math_round. apply Qfloor_comp. now rewrite H.
Qed.

Lemma Qsum_snoc (xs : list Q) (x : Q) : Qsum (xs ++ [x]) = (Qsum xs + x)%Q.
Proof. unfold Qsum. now rewrite fold_left_app. Qed.

End JsFacts.

(** ** Facts about objects keyed by id *)

Module JsObjectFacts.
Import JsObject.

Section Upsert.
Context {A : Type}.
Variables (d : A) (f : A -> A).

Lemma In_keys_upsert (k k' : N) (m : t A) :
  In k (keys (upsert k' d f m)) <-> k = k' \/ In k (keys m).
Proof.
  induction m as [| [k0 v0] m IH]; simpl.
  - intuition.
  - destruct (N.eqb k' k0) eqn:E; simpl.
    + apply N.eqb_eq in E. subst. intuition.
    + destruct (N.ltb k' k0); simpl; [intuition |].
      unfold keys in IH. rewrite IH. intuition.
Qed.

Lemma Forall_values_upsert (P : A -> Prop) (k : N) (m : t A) :
  P (f d) -> (forall v, P v -> P (f v)) ->
  Forall P (values m) -> Forall P (values (upsert k d f m)).
Proof.
  intros Hd Hf. induction m as [| [k0 v0] m IH]; simpl; intros H.
  - constructor; [assumption | constructor].
  - inversion H as [| ? ? Hv Hm]; subst.
    destruct (N.eqb k k0); simpl.
    + constructor; auto.
    + destruct (N.ltb k k0); simpl.
      * constructor; [assumption | constructor; assumption].
      * constructor; [assumption | now apply IH].
Qed.
End Upsert.

Lemma get_None_keys {A} (m : t A) (k : N) :
  get m k = None <-> ~ In k (keys m).
Proof.
  induction m as [| [k0 v0] m IH]; simpl.
  - intuition.
  - destruct (N.eqb k k0) eqn:E.
    + apply N.eqb_eq in E. subst. split; [discriminate | intuition].
    + apply N.eqb_neq in E. rewrite IH. unfold keys. intuition.
Qed.

Lemma get_or_absent {A} (m : t A) (k : N) (d : A) :
  ~ In k (keys m) -> get_or m k d = d.
Proof.
  intros H. apply get_None_keys in H. unfold get_or. now rewrite H.
Qed.

(** Keys after a loop of [upsert]s, one per element of [xs]. *)
Lemma In_keys_fold_upsert {A B} (key : B -> N) (d : B -> A)
    (f : B -> A -> A) (xs : list B) (m : t A) (k : N) :
  In k (keys (fold_left (fun m x => upsert (key x) (d x) (f x) m) xs m)) <->
  In k (keys m) \/ In k (map key xs).
Proof.
  revert m. induction xs as [| x xs IH]; intros m; simpl.
  - intuition.
  - rewrite IH, In_keys_upsert. intuition.
Qed.

(** Values after such a loop. *)
Lemma Forall_values_fold_upsert {A B} (P : A -> Prop) (key : B -> N)
    (d : B -> A) (f : B -> A -> A) (xs : list B) (m : t A) :
  (forall x, In x xs -> P (f x (d x))) ->
  (forall x v, In x xs -> P v -> P (f x v)) ->
  Forall P (values m) ->
  Forall P (values (fold_left (fun m x => upsert (key x) (d x) (f x) m) xs m)).
Proof.
  revert m. induction xs as [| x xs IH]; intros m Hd Hf Hm; simpl.
  - assumption.
  - apply IH.
    + intros y Hy. apply Hd. now right.
    + intros y v Hy. apply Hf. now right.
    + apply Forall_values_upsert; [apply Hd | intros v; apply Hf | assumption];
        now left.
Qed.

End JsObjectFacts.

(** ** The row aggregator *)

Module AggregatorFacts.
Import Js JsFacts JsObject JsObjectFacts Dashboard Spec.

Lemma bucketOf_Completed (c : Q) : bucketOf c = Completed <-> (100 <= c)%Q.
Proof.
  unfold bucketOf. destruct (Qle_bool 100 c) eqn:E.
  - apply Qle_bool_iff in E. tauto.
  - split; [| intros H; apply Qle_bool_iff in H; congruence].
    destruct (Qle_bool 1 c && Qltb c 100); discriminate.
Qed.

Lemma Qltb_lt (x y : Q) : Qltb x y = true <-> (x < y)%Q.
Proof.
  unfold Qltb. rewrite negb_true_iff. split.
  - intros H. apply Qnot_le_lt. intros Hle.
    apply Qle_bool_iff in Hle. congruence.
  - intros H. destruct (Qle_bool y x) eqn:E; [| reflexivity].
    apply Qle_bool_iff in E. exfalso. exact (Qlt_not_le _ _ H E).
Qed.

Lemma bucketOf_InProgress (c : Q) :
  bucketOf c = InProgress <-> (1 <= c)%Q /\ (c < 100)%Q.
Proof.
  unfold bucketOf. destruct (Qle_bool 100 c) eqn:E.
  - apply Qle_bool_iff in E. split; [discriminate |].
    intros [_ H]. exfalso. exact (Qlt_not_le _ _ H E).
  - destruct (Qle_bool 1 c && Qltb c 100) eqn:F.
    + apply andb_true_iff in F. destruct F as [F1 F2].
      apply Qle_bool_iff in F1. apply Qltb_lt in F2. tauto.
    + split; [discriminate |]. intros [H1 H2].
      apply Qle_bool_iff in H1. apply Qltb_lt in H2.
      rewrite H1, H2 in F. discriminate.
Qed.

Lemma bucketOf_NotStarted (c : Q) : bucketOf c = NotStarted <-> (c < 1)%Q.
Proof.
  unfold bucketOf. destruct (Qle_bool 100 c) eqn:E.
  - apply Qle_bool_iff in E. split; [discriminate |].
    intros H. exfalso. apply (Qlt_not_le _ _ H).
    eapply Qle_trans; [| exact E]. discriminate.
  - destruct (Qle_bool 1 c) eqn:F1; simpl.
    + apply Qle_bool_iff in F1.
      assert (F2 : Qltb c 100 = true).
      { unfold Qltb. now rewrite E. }
      rewrite F2. split; [discriminate |].
      intros H. exfalso. exact (Qlt_not_le _ _ H F1).
    + split; [| reflexivity]. intros _. apply Qnot_le_lt. intros H.
      apply Qle_bool_iff in H. congruence.
Qed.

Lemma inBucket_snoc (b : Bucket) (cs : list Course.t) (c : Course.t) :
  inBucket b (cs ++ [c]) =
  (inBucket b cs +
   (if Bucket_eqb (bucketOf (Course.completion c)) b then 1 else 0))%nat.
Proof.
  unfold inBucket. rewrite filter_app, length_app. simpl.
  now destruct (Bucket_eqb (bucketOf (Course.completion c)) b).
Qed.

Lemma inBucket_partition (cs : list Course.t) :
  (inBucket Completed cs + inBucket InProgress cs + inBucket NotStarted cs
   = List.length cs)%nat.
Proof.
  unfold inBucket. induction cs as [| c cs IH]; simpl; [reflexivity |].
  destruct (bucketOf (Course.completion c)); simpl; lia.
Qed.

Lemma aggregated_new (row : ExcelRow.t) : aggregated (newLearnerProgress row).
Proof. repeat split. Qed.

Lemma aggregated_addCourse (row : ExcelRow.t) (lp : LearnerProgress.t) :
  aggregated lp -> aggregated (addCourse row lp).
Proof.
  intros (Hc & Hi & Hn & Ht).
  unfold aggregated, addCourse.
  pose proof (inBucket_snoc Completed (LearnerProgress.courses lp)
    (Course.mk (ExcelRow.Curriculum_Title row) (completionOf row)
       (ExcelRow.Transcript_Status_Group row))) as Sc.
  pose proof (inBucket_snoc InProgress (LearnerProgress.courses lp)
    (Course.mk (ExcelRow.Curriculum_Title row) (completionOf row)
       (ExcelRow.Transcript_Status_Group row))) as Si.
  pose proof (inBucket_snoc NotStarted (LearnerProgress.courses lp)
    (Course.mk (ExcelRow.Curriculum_Title row) (completionOf row)
       (ExcelRow.Transcript_Status_Group row))) as Sn.
  simpl in Sc, Si, Sn. unfold bucketOf in Sc, Si, Sn.
  destruct (Qle_bool 100 (completionOf row)); simpl in *;
    [| destruct (Qle_bool 1 (completionOf row) && Qltb (completionOf row) 100);
       simpl in *];
    rewrite Sc, Si, Sn, map_app; cbn [map Course.completion];
    rewrite Qsum_snoc, <- Ht; repeat split; lia.
Qed.

Lemma addCourse_id (row : ExcelRow.t) (lp : LearnerProgress.t) :
  LearnerProgress.id (addCourse row lp) = LearnerProgress.id lp.
Proof.
  unfold addCourse.
  destruct (Qle_bool 100 (completionOf row)); [reflexivity |].
  now destruct (Qle_bool 1 (completionOf row) && Qltb (completionOf row) 100).
Qed.

Lemma addCourse_courses (row : ExcelRow.t) (lp : LearnerProgress.t) :
  LearnerProgress.courses (addCourse row lp) =
  LearnerProgress.courses lp ++
    [Course.mk (ExcelRow.Curriculum_Title row) (completionOf row)
       (ExcelRow.Transcript_Status_Group row)].
Proof.
  unfold addCourse.
  destruct (Qle_bool 100 (completionOf row)); [reflexivity |].
  now destruct (Qle_bool 1 (completionOf row) && Qltb (completionOf row) 100).
Qed.

(** What holds of every record the aggregation loop leaves in
    [learnerProgress]. *)
Lemma learnerProgress_values (last : list ExcelRow.t) :
  Forall
    (fun lp =>
       aggregated lp /\ LearnerProgress.courses lp <> [] /\
       In (LearnerProgress.id lp) (map ExcelRow.User_ID last))
    (values (learnerProgress last)).
Proof.
  unfold learnerProgress.
  change aggregateRow with
    (fun m x => upsert (ExcelRow.User_ID x) (newLearnerProgress x)
                  (addCourse x) m).
  apply Forall_values_fold_upsert.
  - intros x Hx. split; [| split].
    + apply aggregated_addCourse, aggregated_new.
    + rewrite addCourse_courses. intros H. now apply app_eq_nil in H.
    + rewrite addCourse_id. simpl. now apply in_map.
  - intros x v Hx (Ha & Hc & Hi). split; [| split].
    + now apply aggregated_addCourse.
    + rewrite addCourse_courses. intros H. now apply app_eq_nil in H.
    + now rewrite addCourse_id.
  - constructor.
Qed.

Lemma In_learners (last : list ExcelRow.t) (l : Learner.t) :
  In l (learners last) ->
  exists lp, l = toLearner lp /\ aggregated lp /\
             LearnerProgress.courses lp <> [] /\
             In (LearnerProgress.id lp) (map ExcelRow.User_ID last).
Proof.
  unfold learners. intros H. apply in_map_iff in H.
  destruct H as [lp [<- Hlp]]. exists lp. split; [reflexivity |].
  pose proof (learnerProgress_values last) as F.
  rewrite Forall_forall in F. now apply F.
Qed.

Lemma learners_ids_in_rows (last : list ExcelRow.t) (id : N) :
  In id (ids (learners last)) -> In id (map ExcelRow.User_ID last).
Proof.
  unfold ids. intros H. apply in_map_iff in H. destruct H as [l [<- Hl]].
  apply In_learners in Hl. destruct Hl as [lp [-> (_ & _ & H)]]. exact H.
Qed.

End AggregatorFacts.

(** ** Lookups in ordered objects *)

Module OrderedFacts.
Import JsObject JsObjectFacts.

Lemma get_below {A} (m : t A) (k : N) :
  Forall (N.lt k) (keys m) -> get m k = None.
Proof.
  intros H. apply get_None_keys. intros Hin.
  rewrite Forall_forall in H. specialize (H k Hin). lia.
Qed.

Section Upsert.
Context {A : Type}.
Variables (d : A) (f : A -> A).

Lemma get_upsert_other (k k' : N) (m : t A) :
  k' <> k -> get (upsert k d f m) k' = get m k'.
Proof.
  intros Hne. induction m as [| [k0 v0] m IH]; simpl.
  - apply N.eqb_neq in Hne. now rewrite Hne.
  - destruct (N.eqb_spec k k0) as [-> | Hk]; simpl.
    + apply N.eqb_neq in Hne. now rewrite Hne.
    + destruct (N.ltb k k0); simpl.
      * apply N.eqb_neq in Hne. now rewrite Hne.
      * now rewrite IH.
Qed.

Lemma get_upsert_same (k : N) (m : t A) :
  ordered m -> get (upsert k d f m) k = Some (f (get_or m k d)).
Proof.
  unfold get_or. induction m as [| [k0 v0] m IH]; simpl; intros Ho.
  - now rewrite N.eqb_refl.
  - destruct Ho as [Hb Ho].
    destruct (N.eqb_spec k k0) as [-> | Hk]; simpl.
    + now rewrite N.eqb_refl.
    + destruct (N.ltb_spec k k0) as [Hlt | Hge]; simpl.
      * rewrite N.eqb_refl. rewrite get_below; [reflexivity |].
        eapply Forall_impl; [| exact Hb]. intros x Hx. simpl in Hx. lia.
      * apply N.eqb_neq in Hk. rewrite Hk. now apply IH.
Qed.

Lemma ordered_upsert (k : N) (m : t A) :
  ordered m -> ordered (upsert k d f m).
Proof.
  induction m as [| [k0 v0] m IH]; simpl; intros Ho.
  - split; [constructor | exact I].
  - destruct Ho as [Hb Ho].
    destruct (N.eqb_spec k k0) as [-> | Hk]; simpl; [now split |].
    destruct (N.ltb_spec k k0) as [Hlt | Hge]; simpl.
    + split; [| now split]. constructor; [assumption |].
      eapply Forall_impl; [| exact Hb]. intros x Hx. simpl in Hx. lia.
    + split; [| now apply IH].
      apply Forall_forall. intros x Hx. apply In_keys_upsert in Hx.
      destruct Hx as [-> | Hx]; [lia |].
      rewrite Forall_forall in Hb. now apply Hb.
Qed.
End Upsert.

Lemma ordered_fold_upsert {A B} (key : B -> N) (d : B -> A) (f : B -> A -> A)
    (xs : list B) (m : t A) :
  ordered m ->
  ordered (fold_left (fun m x => upsert (key x) (d x) (f x) m) xs m).
Proof.
  revert m. induction xs as [| x xs IH]; intros m Ho; simpl;
    [assumption |].
  now apply IH, ordered_upsert.
Qed.

(** The value found under [k] after a loop of [upsert]s: the updates of
    the elements whose key is [k], applied in order. *)
Lemma get_fold_upsert {A B} (key : B -> N) (d : B -> A) (f : B -> A -> A)
    (xs : list B) (m : t A) (k : N) :
  ordered m ->
  get (fold_left (fun m x => upsert (key x) (d x) (f x) m) xs m) k =
  fold_left
    (fun o x => Some (f x (match o with Some v => v | None => d x end)))
    (filter (fun x => N.eqb (key x) k) xs) (get m k).
Proof.
  revert m. induction xs as [| x xs IH]; intros m Ho; simpl;
    [reflexivity |].
  rewrite IH by now apply ordered_upsert.
  destruct (N.eqb_spec (key x) k) as [<- | Hne]; simpl.
  - now rewrite get_upsert_same.
  - rewrite get_upsert_other by congruence. reflexivity.
Qed.

(** Copying the entries of an ordered object one by one, through [g]. *)
Lemma get_fold_set {A B} (g : A -> B) (es : t A) (acc : t B) (k : N) :
  ordered acc -> ordered es ->
  get (fold_left (fun avg kv => set (fst kv) (g (snd kv)) avg) es acc) k =
  match get es k with Some v => Some (g v) | None => get acc k end.
Proof.
  revert acc. induction es as [| [k0 v0] es IH]; intros acc Ha He;
    cbn [fold_left get].
  - reflexivity.
  - destruct He as [Hb He].
    rewrite IH; [| now apply ordered_upsert | assumption].
    destruct (N.eqb_spec k k0) as [-> | Hne].
    + rewrite (get_below _ Hb). cbn [fst snd]. unfold set.
      now rewrite get_upsert_same.
    + cbn [fst snd]. unfold set. now rewrite get_upsert_other.
Qed.

End OrderedFacts.

(** ** Per-snapshot average maps *)

Module AvgMapFacts.
Import Js JsFacts JsObject JsObjectFacts Dashboard Spec.

Lemma In_keys_totalsOf (arr : list ExcelRow.t) (k : N) :
  In k (keys (totalsOf arr)) <-> In k (map ExcelRow.User_ID arr).
Proof.
  unfold totalsOf.
  rewrite (In_keys_fold_upsert ExcelRow.User_ID
             (fun _ => mkTotalCount 0%Q 0%nat)
             (fun r => accumulate (completionOf r))).
  simpl. tauto.
Qed.

(** The ids with an average in a snapshot are the ids of its rows. *)
Lemma In_keys_avgMap (arr : list ExcelRow.t) (k : N) :
  In k (keys (avgMap arr)) <-> In k (map ExcelRow.User_ID arr).
Proof.
  unfold avgMap, set.
  rewrite (In_keys_fold_upsert fst
             (fun kv : N * TotalCount => roundedAverage (snd kv))
             (fun kv _ => roundedAverage (snd kv))).
  simpl. rewrite <- In_keys_totalsOf. unfold keys. tauto.
Qed.

Lemma accumulate_fold (rs : list ExcelRow.t) (e : TotalCount) :
  fold_left
    (fun o r =>
       Some (accumulate (completionOf r)
               (match o with Some v => v | None => mkTotalCount 0%Q 0%nat end)))
    rs (Some e) =
  Some (mkTotalCount (fold_left Qplus (map completionOf rs) (total e))
                     (count e + List.length rs)).
Proof.
  revert e. induction rs as [| r rs IH]; intros e; simpl.
  - destruct e as [t c]. simpl. now rewrite Nat.add_0_r.
  - rewrite IH. unfold accumulate. simpl. do 2 f_equal. lia.
Qed.

(** The totals kept for a learner are the sum and the number of its rows. *)
Lemma get_totalsOf (arr : list ExcelRow.t) (id : N) :
  get (totalsOf arr) id =
  match rowsOf id arr with
  | [] => None
  | rs => Some (totalCountOf rs)
  end.
Proof.
  unfold totalsOf.
  rewrite (OrderedFacts.get_fold_upsert ExcelRow.User_ID
             (fun _ => mkTotalCount 0%Q 0%nat)
             (fun r => accumulate (completionOf r))) by exact I.
  change (filter (fun x => N.eqb (ExcelRow.User_ID x) id) arr)
    with (rowsOf id arr).
  destruct (rowsOf id arr) as [| r rs]; [reflexivity |].
  cbn [fold_left get empty]. now rewrite accumulate_fold.
Qed.

Lemma ordered_totalsOf (arr : list ExcelRow.t) : ordered (totalsOf arr).
Proof.
  unfold totalsOf.
  apply (OrderedFacts.ordered_fold_upsert ExcelRow.User_ID
           (fun _ => mkTotalCount 0%Q 0%nat)
           (fun r => accumulate (completionOf r))).
  exact I.
Qed.

(** The average map gives each learner of the snapshot the rounded mean of
    the completions of its rows, and nothing to the others. *)
Lemma get_avgMap (arr : list ExcelRow.t) (id : N) :
  get (avgMap arr) id =
  match rowsOf id arr with
  | [] => None
  | rs => Some (averageOfRows rs)
  end.
Proof.
  unfold avgMap.
  rewrite OrderedFacts.get_fold_set; [| exact I | apply ordered_totalsOf].
  rewrite get_totalsOf.
  destruct (rowsOf id arr) as [| r rs]; reflexivity.
Qed.

Lemma averageIn_rows (s : Snapshot.t) (id : N) :
  averageIn s id =
  match rowsOf id (Snapshot.rows s) with
  | [] => None
  | rs => Some (averageOfRows rs)
  end.
Proof. apply get_avgMap. Qed.

Lemma avgMapOfSnapshot_avgMap (s : Snapshot.t) :
  avgMapOfSnapshot s = avgMap (Snapshot.rows s).
Proof. reflexivity. Qed.

Lemma avgMapsAll_avgMaps (snapshots : list Snapshot.t) :
  avgMapsAll snapshots = avgMaps snapshots.
Proof. reflexivity. Qed.

Lemma In_allIds (snapshots : list Snapshot.t) (id : N) :
  In id (allIds snapshots) <->
  exists s, In s snapshots /\ In id (idsOf s).
Proof.
  unfold allIds, avgMaps, idsOf. rewrite In_Set_of, in_flat_map. split.
  - intros [m [Hm Hk]]. apply in_map_iff in Hm. destruct Hm as [s [<- Hs]].
    exists s. split; [assumption | now apply In_keys_avgMap].
  - intros [s [Hs Hk]]. exists (avgMap (Snapshot.rows s)). split.
    + apply in_map_iff. now exists s.
    + now apply In_keys_avgMap.
Qed.

Lemma nth_avgMaps (snapshots : list Snapshot.t) (i : nat) :
  nth i (avgMaps snapshots) empty = avgMap (rowsAt snapshots i).
Proof.
  unfold avgMaps, rowsAt.
  change (@empty Z) with (avgMap (Snapshot.rows noSnapshot)).
  apply (map_nth (fun s => avgMap (Snapshot.rows s))).
Qed.

Lemma In_nth_snapshot (snapshots : list Snapshot.t) (i : nat) :
  (i < List.length snapshots)%nat -> In (nth i snapshots noSnapshot) snapshots.
Proof. apply nth_In. Qed.

End AvgMapFacts.

(** ** The two-snapshot comparison *)

Module ComparisonFacts.
Import Js JsFacts JsObject JsObjectFacts Dashboard Spec AvgMapFacts.

Section Comparison.
Variable snapshots : list Snapshot.t.
Variable ls : list Learner.t.

Lemma find_by_id (id : N) (e : Learner.t) :
  find (fun l => N.eqb (Learner.id l) id) ls = Some e ->
  In e ls /\ Learner.id e = id.
Proof.
  intros H. apply find_some in H. destruct H as [Hin Heq].
  apply N.eqb_eq in Heq. now split.
Qed.

Lemma find_by_id_present (id : N) :
  In id (ids ls) ->
  exists e, find (fun l => N.eqb (Learner.id l) id) ls = Some e.
Proof.
  intros H. destruct (find (fun l => N.eqb (Learner.id l) id) ls) as [e |] eqn:E.
  - now exists e.
  - exfalso. unfold ids in H. apply in_map_iff in H.
    destruct H as [l [Hl Hin]].
    pose proof (find_none _ _ E l Hin) as Hn. simpl in Hn.
    rewrite Hl, N.eqb_refl in Hn. discriminate.
Qed.

Lemma enrichedFor_id (id : N) : Learner.id (enrichedFor snapshots ls id) = id.
Proof.
  unfold enrichedFor.
  destruct (find (fun l => N.eqb (Learner.id l) id) ls) eqn:E; simpl.
  - now apply find_by_id in E.
  - reflexivity.
Qed.

Lemma enrichedFor_recentAvgs (id : N) :
  Learner.recentAvgs (enrichedFor snapshots ls id) =
  Some (recentAvgs snapshots id).
Proof.
  unfold enrichedFor. now destruct (find _ ls).
Qed.

Lemma enrichedFor_weeks (id : N) :
  Learner.week1Avg (enrichedFor snapshots ls id) = Some (v1 snapshots id) /\
  Learner.week2Avg (enrichedFor snapshots ls id) = Some (v2 snapshots id) /\
  Learner.avgCompletion (enrichedFor snapshots ls id) = v2 snapshots id.
Proof.
  unfold enrichedFor. now destruct (find _ ls).
Qed.

(** One round of the loop appends the learner to at most one list. *)
Lemma compareId_step (improvedList supportList : list Learner.t) (id : N) :
  compareId snapshots ls (improvedList, supportList) id =
  (improvedList ++
     (if Z.ltb (v1 snapshots id) (v2 snapshots id)
      then [enrichedFor snapshots ls id] else []),
   supportList ++
     (if Z.eqb (v1 snapshots id) (v2 snapshots id)
      then [enrichedFor snapshots ls id] else [])).
Proof.
  unfold compareId, enrichedFor.
  destruct (Z.ltb_spec (v1 snapshots id) (v2 snapshots id)) as [Hlt | Hge].
  - assert (E : Z.eqb (v1 snapshots id) (v2 snapshots id) = false)
      by (apply Z.eqb_neq; lia).
    rewrite E, app_nil_r.
    now destruct (find (fun l => N.eqb (Learner.id l) id) ls).
  - destruct (Z.eqb (v1 snapshots id) (v2 snapshots id));
      rewrite ?app_nil_r;
      now destruct (find (fun l => N.eqb (Learner.id l) id) ls).
Qed.

Lemma compareId_fold (idl : list N) (improvedList supportList : list Learner.t) :
  fold_left (compareId snapshots ls) idl (improvedList, supportList) =
  (improvedList ++
     map (enrichedFor snapshots ls)
       (filter (fun id => Z.ltb (v1 snapshots id) (v2 snapshots id)) idl),
   supportList ++
     map (enrichedFor snapshots ls)
       (filter (fun id => Z.eqb (v1 snapshots id) (v2 snapshots id)) idl)).
Proof.
  revert improvedList supportList.
  induction idl as [| id idl IH]; intros improvedList supportList;
    cbn [fold_left filter].
  - simpl. now rewrite !app_nil_r.
  - rewrite compareId_step, IH.
    destruct (Z.ltb (v1 snapshots id) (v2 snapshots id));
      destruct (Z.eqb (v1 snapshots id) (v2 snapshots id));
      simpl; rewrite <- ?app_assoc; simpl; rewrite ?app_nil_r; reflexivity.
Qed.

Lemma twoSnapshotComparison_lists :
  (2 <= List.length snapshots)%nat ->
  twoSnapshotComparison snapshots ls =
  (map (enrichedFor snapshots ls)
     (filter (fun id => Z.ltb (v1 snapshots id) (v2 snapshots id))
             (allIds snapshots)),
   map (enrichedFor snapshots ls)
     (filter (fun id => Z.eqb (v1 snapshots id) (v2 snapshots id))
             (allIds snapshots))).
Proof.
  intros H. unfold twoSnapshotComparison.
  apply Nat.leb_le in H. rewrite H. now rewrite compareId_fold.
Qed.

Lemma twoSnapshotComparison_short :
  (List.length snapshots < 2)%nat ->
  twoSnapshotComparison snapshots ls = ([], []).
Proof.
  intros H. unfold twoSnapshotComparison.
  apply Nat.leb_gt in H. now rewrite H.
Qed.

(** Membership in a list of enriched learners selected by a test. *)
Lemma In_ids_selected (p : N -> bool) (idl : list N) (id : N) :
  In id (ids (map (enrichedFor snapshots ls) (filter p idl))) <->
  In id idl /\ p id = true.
Proof.
  unfold ids. rewrite map_map. rewrite in_map_iff. split.
  - intros [x [Hx Hin]]. rewrite enrichedFor_id in Hx. subst x.
    now apply filter_In in Hin.
  - intros H. exists id. split; [apply enrichedFor_id | now apply filter_In].
Qed.

Lemma In_selected (p : N -> bool) (idl : list N) (l : Learner.t) :
  In l (map (enrichedFor snapshots ls) (filter p idl)) ->
  l = enrichedFor snapshots ls (Learner.id l) /\ In (Learner.id l) idl /\
  p (Learner.id l) = true.
Proof.
  intros H. apply in_map_iff in H. destruct H as [x [<- Hin]].
  rewrite enrichedFor_id. apply filter_In in Hin. tauto.
Qed.

End Comparison.

Lemma recentAvgs_length (snapshots : list Snapshot.t) (id : N) :
  List.length (recentAvgs snapshots id) = Nat.min 4 (List.length snapshots).
Proof.
  unfold recentAvgs. rewrite length_map, length_seq. lia.
Qed.

Lemma recentAvgs_nth (snapshots : list Snapshot.t) (id : N) (k : nat) :
  (k < Nat.min 4 (List.length snapshots))%nat ->
  nth_error (recentAvgs snapshots id) k =
  Some (get (avgMap (rowsAt snapshots
                       (Nat.max 0 (List.length snapshots - 4) + k))) id).
Proof.
  intros H. unfold recentAvgs.
  rewrite nth_error_map.
  assert (E : nth_error
                (seq (Nat.max 0 (List.length snapshots - 4))
                   (List.length snapshots -
                    Nat.max 0 (List.length snapshots - 4))) k =
              Some (Nat.max 0 (List.length snapshots - 4) + k)%nat).
  { rewrite nth_error_nth' with (d := 0%nat) by (rewrite length_seq; lia).
    rewrite seq_nth by lia. reflexivity. }
  rewrite E. simpl. now rewrite nth_avgMaps.
Qed.

End ComparisonFacts.

(** ** The finished scan and the support-list exclusion *)

Module FinishedFacts.
Import Js JsFacts JsObject JsObjectFacts Dashboard Spec AvgMapFacts.
Import ComparisonFacts.

Lemma count100_fold (id : N) (ms : list (JsObject.t Z)) (n : nat) :
  fold_left
    (fun count100 m =>
       if Z.leb 100 (get_or m id 0%Z) then S count100 else count100) ms n =
  (n + List.length (filter (fun m => Z.leb 100 (get_or m id 0%Z)) ms))%nat.
Proof.
  revert n. induction ms as [| m ms IH]; intros n; simpl.
  - lia.
  - rewrite IH. destruct (Z.leb 100 (get_or m id 0%Z)); simpl; lia.
Qed.

Lemma filter_map_length {A B} (f : A -> B) (p : B -> bool) (l : list A) :
  List.length (filter p (map f l)) =
  List.length (filter (fun x => p (f x)) l).
Proof.
  induction l as [| x l IH]; simpl; [reflexivity |].
  destruct (p (f x)); simpl; now rewrite IH.
Qed.

(** The loop counter is the number of snapshots at 100 or more. *)
Lemma count100_snapshotsAt100 (snapshots : list Snapshot.t) (id : N) :
  count100 (avgMapsAll snapshots) id = snapshotsAt100 snapshots id.
Proof.
  unfold count100, snapshotsAt100, avgMapsAll.
  rewrite count100_fold. simpl.
  apply (filter_map_length avgMapOfSnapshot
           (fun m => Z.leb 100 (get_or m id 0%Z))).
Qed.

Lemma snapshotsAt100_le (snapshots : list Snapshot.t) (id : N) :
  (snapshotsAt100 snapshots id <= List.length snapshots)%nat.
Proof. unfold snapshotsAt100. apply filter_length_le. Qed.

Section Scan.
Variable maps : list (JsObject.t Z).
Variable ls : list Learner.t.

Lemma finishId_step (finishedStudents consistentCompleters : list Learner.t)
    (id : N) :
  finishId maps ls (finishedStudents, consistentCompleters) id =
  (finishedStudents ++ finishedFor maps ls id,
   consistentCompleters ++ finishedFor maps ls id).
Proof.
  unfold finishId, finishedFor.
  destruct (Nat.leb 2 (count100 maps id)); rewrite ?app_nil_r; [| reflexivity].
  destruct (find (fun l => N.eqb (Learner.id l) id) ls);
    now rewrite ?app_nil_r.
Qed.

Lemma finishId_fold (idl : list N)
    (finishedStudents consistentCompleters : list Learner.t) :
  fold_left (finishId maps ls) idl (finishedStudents, consistentCompleters) =
  (finishedStudents ++ flat_map (finishedFor maps ls) idl,
   consistentCompleters ++ flat_map (finishedFor maps ls) idl).
Proof.
  revert finishedStudents consistentCompleters.
  induction idl as [| id idl IH]; intros fs cs; cbn [fold_left flat_map].
  - now rewrite !app_nil_r.
  - now rewrite finishId_step, IH, <- !app_assoc.
Qed.

Lemma In_finishedFor (id : N) (e : Learner.t) :
  In e (finishedFor maps ls id) <->
  (2 <= count100 maps id)%nat /\ Learner.id e = id /\
  find (fun l => N.eqb (Learner.id l) id) ls = Some e.
Proof.
  unfold finishedFor. destruct (Nat.leb_spec 2 (count100 maps id)) as [H | H].
  - destruct (find (fun l => N.eqb (Learner.id l) id) ls) as [x |] eqn:E;
      simpl.
    + split.
      * intros [<- | []]. apply find_by_id in E. tauto.
      * intros (_ & _ & Heq). left. congruence.
    + split; [tauto | intros (_ & _ & Heq); discriminate].
  - simpl. split; [tauto | intros (Hc & _); lia].
Qed.

End Scan.

(** The two lists built by the scan are one and the same list. *)
Lemma finishedScan_lists (snapshots : list Snapshot.t) (ls : list Learner.t) :
  snapshots <> [] ->
  finishedScan snapshots ls =
  (flat_map (finishedFor (avgMapsAll snapshots) ls) (Set_of (ids ls)),
   flat_map (finishedFor (avgMapsAll snapshots) ls) (Set_of (ids ls))).
Proof.
  intros H. unfold finishedScan.
  destruct snapshots as [| s rest]; [contradiction |].
  cbn [List.length Nat.ltb Nat.leb]. now rewrite finishId_fold.
Qed.

Lemma In_finished (snapshots : list Snapshot.t) (ls : list Learner.t)
    (e : Learner.t) :
  In e (flat_map (finishedFor (avgMapsAll snapshots) ls) (Set_of (ids ls))) <->
  In e ls /\ (2 <= snapshotsAt100 snapshots (Learner.id e))%nat /\
  find (fun l => N.eqb (Learner.id l) (Learner.id e)) ls = Some e.
Proof.
  rewrite in_flat_map. split.
  - intros [id [Hid He]]. apply In_finishedFor in He.
    destruct He as (Hc & Heq & Hf). subst id.
    rewrite count100_snapshotsAt100 in Hc.
    split; [| tauto]. now apply find_by_id in Hf.
  - intros (Hin & Hc & Hf). exists (Learner.id e). split.
    + apply In_Set_of. unfold ids. now apply in_map.
    + apply In_finishedFor. rewrite count100_snapshotsAt100. tauto.
Qed.

Lemma filter_all {A} (p : A -> bool) (l : list A) :
  (forall x, In x l -> p x = true) -> filter p l = l.
Proof.
  induction l as [| x l IH]; intros H; simpl; [reflexivity |].
  rewrite (H x) by now left. f_equal. apply IH. intros y Hy. apply H.
  now right.
Qed.

(** The exclusion is a filter on the ids of the finished learners, whether
    or not there is any. *)
Lemma excludeFinished_filter (snapshots : list Snapshot.t)
    (fs sup : list Learner.t) :
  snapshots <> [] ->
  excludeFinished snapshots fs sup =
  filter (fun s => negb (Set_has (Set_of (ids fs)) (Learner.id s))) sup.
Proof.
  intros H. unfold excludeFinished.
  destruct snapshots as [| s rest]; [contradiction |].
  cbn [List.length Nat.ltb Nat.leb].
  destruct fs as [| f fs]; [| reflexivity].
  simpl. symmetry. now apply filter_all.
Qed.

Lemma sublist_refl {A} (l : list A) : sublist l l.
Proof. induction l; constructor; assumption. Qed.

Lemma sublist_filter {A} (p : A -> bool) (l : list A) : sublist (filter p l) l.
Proof.
  induction l as [| x l IH]; simpl; [constructor |].
  destruct (p x); now constructor.
Qed.

End FinishedFacts.

(** ** The memo as a whole *)

Module AnalyticsFacts.
Import Js JsFacts JsObject JsObjectFacts Dashboard Spec AvgMapFacts.
Import AggregatorFacts ComparisonFacts FinishedFacts.

Lemma length_0_nil {A} (l : list A) :
  Nat.eqb (List.length l) 0 = false <-> l <> [].
Proof.
  destruct l; simpl; split; intros H; congruence.
Qed.

(** The fields of a result, in terms of the stages that compute them. *)
Lemma computeAnalytics_Some (snapshots : list Snapshot.t) (a : Analytics.t) :
  computeAnalytics snapshots = Some a ->
  let ls := learners (rowsAt snapshots (List.length snapshots - 1)) in
  snapshots <> [] /\
  Analytics.learners a = ls /\
  Analytics.improvedList a = fst (twoSnapshotComparison snapshots ls) /\
  Analytics.supportNeeded a = snd (twoSnapshotComparison snapshots ls) /\
  Analytics.finishedStudents a = fst (finishedScan snapshots ls) /\
  Analytics.consistentCompleters a = snd (finishedScan snapshots ls) /\
  Analytics.supportList a =
    excludeFinished snapshots (fst (finishedScan snapshots ls))
      (snd (twoSnapshotComparison snapshots ls)).
Proof.
  unfold computeAnalytics.
  destruct (Nat.eqb (List.length snapshots) 0) eqn:E; [discriminate |].
  apply length_0_nil in E.
  destruct (twoSnapshotComparison snapshots
              (learners (rowsAt snapshots (List.length snapshots - 1))))
    as [imp sup].
  destruct (finishedScan snapshots
              (learners (rowsAt snapshots (List.length snapshots - 1))))
    as [fs cs].
  intros H. injection H as <-. simpl. tauto.
Qed.

Lemma computeAnalytics_nonempty (s : Snapshot.t) (rest : list Snapshot.t) :
  exists a, computeAnalytics (s :: rest) = Some a.
Proof.
  unfold computeAnalytics. cbn [List.length Nat.eqb].
  destruct (twoSnapshotComparison (s :: rest) _) as [imp sup].
  destruct (finishedScan (s :: rest) _) as [fs cs].
  eexists. reflexivity.
Qed.

(** The learners of the last snapshot carry ids of its rows, and those ids
    are among the ids the comparison walks through. *)
Lemma learner_ids_in_allIds (snapshots : list Snapshot.t) (id : N) :
  snapshots <> [] ->
  In id (ids (learners (rowsAt snapshots (List.length snapshots - 1)))) ->
  In id (allIds snapshots) /\
  In id (idsOf (nth (List.length snapshots - 1) snapshots noSnapshot)).
Proof.
  intros Hne H. apply learners_ids_in_rows in H.
  split; [| exact H].
  apply In_allIds. exists (nth (List.length snapshots - 1) snapshots noSnapshot).
  split; [| exact H].
  apply In_nth_snapshot. destruct snapshots; [contradiction | simpl; lia].
Qed.

End AnalyticsFacts.

(** * The claims of the specification *)

Import Js JsFacts JsObject JsObjectFacts Dashboard Spec AvgMapFacts.
Import AggregatorFacts ComparisonFacts FinishedFacts AnalyticsFacts.

Unset Implicit Arguments.

(** ** Auxiliary facts shared by several claims *)

Lemma In_ids_filter (p : Learner.t -> bool) (l : list Learner.t) (x : N) :
  In x (ids (filter p l)) <->
  exists e, In e l /\ p e = true /\ Learner.id e = x.
Proof.
  unfold ids. rewrite in_map_iff. split.
  - intros [e [He Hin]]. apply filter_In in Hin. exists e. tauto.
  - intros [e (Hin & Hp & He)]. exists e. split; [assumption |].
    now apply filter_In.
Qed.

Lemma In_ids (l : list Learner.t) (e : Learner.t) :
  In e l -> In (Learner.id e) (ids l).
Proof. unfold ids. apply in_map. Qed.

(** What a result looks like once there are two snapshots or more. *)
Lemma analytics_lists (snapshots : list Snapshot.t) (a : Analytics.t) :
  computeAnalytics snapshots = Some a ->
  (2 <= List.length snapshots)%nat ->
  Analytics.improvedList a =
    map (enrichedFor snapshots (Analytics.learners a))
      (filter (fun id => Z.ltb (v1 snapshots id) (v2 snapshots id))
              (allIds snapshots)) /\
  Analytics.supportNeeded a =
    map (enrichedFor snapshots (Analytics.learners a))
      (filter (fun id => Z.eqb (v1 snapshots id) (v2 snapshots id))
              (allIds snapshots)).
Proof.
  intros Ha Hn. apply computeAnalytics_Some in Ha.
  destruct Ha as (_ & Hl & Hi & Hs & _). rewrite Hi, Hs, Hl.
  now rewrite twoSnapshotComparison_lists.
Qed.

Lemma analytics_lists_short (snapshots : list Snapshot.t) (a : Analytics.t) :
  computeAnalytics snapshots = Some a ->
  (List.length snapshots < 2)%nat ->
  Analytics.improvedList a = [] /\ Analytics.supportNeeded a = [] /\
  Analytics.supportList a = [].
Proof.
  intros Ha Hn. apply computeAnalytics_Some in Ha.
  destruct Ha as (Hne & Hl & Hi & Hs & _ & _ & Hx).
  rewrite Hi, Hs, Hx, twoSnapshotComparison_short by assumption.
  rewrite excludeFinished_filter by assumption. now simpl.
Qed.

(** The finished list and the post-exclusion support list of a result. *)
Lemma analytics_finished (snapshots : list Snapshot.t) (a : Analytics.t) :
  computeAnalytics snapshots = Some a ->
  Analytics.finishedStudents a =
    flat_map (finishedFor (avgMapsAll snapshots) (Analytics.learners a))
      (Set_of (ids (Analytics.learners a))) /\
  Analytics.consistentCompleters a = Analytics.finishedStudents a /\
  Analytics.supportList a =
    filter (fun s => negb (Set_has (Set_of (ids (Analytics.finishedStudents a)))
                             (Learner.id s)))
      (Analytics.supportNeeded a).
Proof.
  intros Ha. apply computeAnalytics_Some in Ha.
  destruct Ha as (Hne & Hl & _ & Hs & Hf & Hc & Hx).
  rewrite Hf, Hc, Hx, Hs, Hl, finishedScan_lists by assumption. simpl.
  repeat split. now apply excludeFinished_filter.
Qed.

Lemma finished_in_learners (snapshots : list Snapshot.t) (a : Analytics.t)
    (l : Learner.t) :
  computeAnalytics snapshots = Some a ->
  In l (Analytics.finishedStudents a) ->
  In l (Analytics.learners a) /\
  (2 <= snapshotsAt100 snapshots (Learner.id l))%nat.
Proof.
  intros Ha Hl. destruct (analytics_finished snapshots a Ha) as (Hf & _).
  rewrite Hf in Hl. apply In_finished in Hl. tauto.
Qed.

Lemma supportList_ids (snapshots : list Snapshot.t) (a : Analytics.t) (x : N) :
  computeAnalytics snapshots = Some a ->
  (In x (ids (Analytics.supportList a)) <->
   In x (ids (Analytics.supportNeeded a)) /\
   ~ In x (ids (Analytics.finishedStudents a))).
Proof.
  intros Ha. destruct (analytics_finished snapshots a Ha) as (_ & _ & Hx).
  rewrite Hx, In_ids_filter. split.
  - intros [e (Hin & Hp & He)]. subst x. split; [now apply In_ids |].
    apply negb_true_iff in Hp. intros Hf.
    apply (proj2 (In_Set_of _ _)) in Hf.
    apply (proj2 (Set_has_In _ _)) in Hf. congruence.
  - intros [Hin Hnf]. unfold ids in Hin. apply in_map_iff in Hin.
    destruct Hin as [e [He Hin]]. exists e. repeat split; try assumption.
    apply negb_true_iff. destruct (Set_has _ (Learner.id e)) eqn:E;
      [| reflexivity].
    exfalso. apply Set_has_In in E. apply (proj1 (In_Set_of _ _)) in E.
    rewrite He in E. contradiction.
Qed.

(** Which ids the comparison leaves in each of its two lists. *)
Lemma comparison_ids (snapshots : list Snapshot.t) (a : Analytics.t) (id : N) :
  (2 <= List.length snapshots)%nat ->
  computeAnalytics snapshots = Some a ->
  (In id (ids (Analytics.improvedList a)) <->
   In id (allIds snapshots) /\ (v1 snapshots id < v2 snapshots id)%Z) /\
  (In id (ids (Analytics.supportNeeded a)) <->
   In id (allIds snapshots) /\ v1 snapshots id = v2 snapshots id).
Proof.
  intros Hn Ha. destruct (analytics_lists snapshots a Ha Hn) as [Hi Hs].
  rewrite Hi, Hs, !In_ids_selected, Z.ltb_lt, Z.eqb_eq. tauto.
Qed.

(** ** C1: the asymmetric classification *)

(** C1. With two snapshots or more, a learner id walked through by the
    comparison, with previous average [v1] and current average [v2] (0 when
    absent), is in the improved list exactly when [v1 < v2], in the support
    list as it stands before the finished exclusion ([supportNeeded])
    exactly when [v1 = v2], and in neither list, before or after the
    exclusion, when [v1 > v2]. *)
Theorem C1_classification (snapshots : list Snapshot.t) (a : Analytics.t)
    (id : N) :
  (2 <= List.length snapshots)%nat ->
  computeAnalytics snapshots = Some a ->
  In id (allIds snapshots) ->
  (In id (ids (Analytics.improvedList a)) <->
   (v1 snapshots id < v2 snapshots id)%Z) /\
  (In id (ids (Analytics.supportNeeded a)) <->
   v1 snapshots id = v2 snapshots id) /\
  ((v1 snapshots id > v2 snapshots id)%Z ->
   ~ In id (ids (Analytics.improvedList a)) /\
   ~ In id (ids (Analytics.supportNeeded a)) /\
   ~ In id (ids (Analytics.supportList a))).
Proof.
  intros Hn Ha Hid.
  destruct (comparison_ids snapshots a id Hn Ha) as [I S].
  split; [tauto | split; [tauto |]].
  intros Hgt. rewrite (supportList_ids snapshots a _ Ha), I, S. lia.
Qed.

Lemma C1_classification_witness :
  (2 <= List.length snapshotsABC)%nat /\
  computeAnalytics snapshotsABC = Some (resultOf snapshotsABC) /\
  In 1%N (allIds snapshotsABC) /\
  (v1 snapshotsABC 1 > v2 snapshotsABC 1)%Z /\
  ~ In 1%N (ids (Analytics.improvedList (resultOf snapshotsABC))) /\
  ~ In 1%N (ids (Analytics.supportNeeded (resultOf snapshotsABC))) /\
  ~ In 1%N (ids (Analytics.supportList (resultOf snapshotsABC))).
Proof.
  assert (Hn : (2 <= List.length snapshotsABC)%nat) by (simpl; lia).
  assert (Ha : computeAnalytics snapshotsABC = Some (resultOf snapshotsABC))
    by (vm_compute; reflexivity).
  assert (Hid : In 1%N (allIds snapshotsABC)) by (vm_compute; tauto).
  assert (Hgt : (v1 snapshotsABC 1 > v2 snapshotsABC 1)%Z)
    by (vm_compute; reflexivity).
  repeat (split; [assumption |]).
  exact (proj2 (proj2 (C1_classification snapshotsABC _ 1%N Hn Ha Hid)) Hgt).
Defined.

(** ** C2: the ids walked through by the comparison *)

(** C2, as the code has it.  With two snapshots or more, the ids walked
    through by the comparison are those with an average in any snapshot of
    the sequence, and only these reach the improved and support lists.  An
    id with no average in the previous nor in the current snapshot has
    [v1 = v2 = 0]: it is never in the improved list and always in the
    support list, before and after the finished exclusion. *)
Theorem C2_ids_from_every_snapshot (snapshots : list Snapshot.t)
    (a : Analytics.t) (id : N) :
  (2 <= List.length snapshots)%nat ->
  computeAnalytics snapshots = Some a ->
  (In id (allIds snapshots) <->
   exists s, In s snapshots /\ In id (keys (avgMap (Snapshot.rows s)))) /\
  (In id (ids (Analytics.improvedList a)) \/
   In id (ids (Analytics.supportNeeded a)) -> In id (allIds snapshots)) /\
  (In id (allIds snapshots) ->
   ~ In id (keys (a1 snapshots)) -> ~ In id (keys (a2 snapshots)) ->
   ~ In id (ids (Analytics.improvedList a)) /\
   In id (ids (Analytics.supportNeeded a)) /\
   In id (ids (Analytics.supportList a))).
Proof.
  intros Hn Ha.
  destruct (comparison_ids snapshots a id Hn Ha) as [I S].
  split; [| split].
  - rewrite In_allIds. split; intros [s [Hs' Hk]]; exists s;
      (split; [assumption |]); now apply In_keys_avgMap.
  - tauto.
  - intros Hid H1 H2.
    assert (E1 : v1 snapshots id = 0%Z) by now apply get_or_absent.
    assert (E2 : v2 snapshots id = 0%Z) by now apply get_or_absent.
    split; [rewrite I; lia | split; [rewrite S; split; [assumption | lia] |]].
    rewrite (supportList_ids snapshots a _ Ha). split;
      [rewrite S; split; [assumption | lia] |].
    intros Hf. apply H2. unfold ids in Hf. apply in_map_iff in Hf.
    destruct Hf as [l [Hl Hin]].
    apply (finished_in_learners snapshots a _ Ha) in Hin. destruct Hin as [Hin _].
    apply computeAnalytics_Some in Ha. destruct Ha as (_ & Hls & _).
    rewrite Hls in Hin. apply In_ids, learners_ids_in_rows in Hin.
    rewrite Hl in Hin. unfold a2, snap2. now apply In_keys_avgMap.
Qed.

Lemma C2_ids_from_every_snapshot_witness :
  (2 <= List.length snapshotsOAB)%nat /\
  computeAnalytics snapshotsOAB = Some (resultOf snapshotsOAB) /\
  In 7%N (allIds snapshotsOAB) /\
  ~ In 7%N (keys (a1 snapshotsOAB)) /\ ~ In 7%N (keys (a2 snapshotsOAB)) /\
  ~ In 7%N (ids (Analytics.improvedList (resultOf snapshotsOAB))) /\
  In 7%N (ids (Analytics.supportNeeded (resultOf snapshotsOAB))) /\
  In 7%N (ids (Analytics.supportList (resultOf snapshotsOAB))).
Proof.
  assert (Hn : (2 <= List.length snapshotsOAB)%nat) by (simpl; lia).
  assert (Ha : computeAnalytics snapshotsOAB = Some (resultOf snapshotsOAB))
    by (vm_compute; reflexivity).
  assert (Hid : In 7%N (allIds snapshotsOAB)) by (vm_compute; tauto).
  assert (H1 : ~ In 7%N (keys (a1 snapshotsOAB)))
    by (vm_compute; intros [H | [H | []]]; discriminate).
  assert (H2 : ~ In 7%N (keys (a2 snapshotsOAB)))
    by (vm_compute; intros [H | [H | []]]; discriminate).
  repeat (split; [assumption |]).
  exact (proj2 (proj2 (C2_ids_from_every_snapshot snapshotsOAB _ 7%N Hn Ha))
           Hid H1 H2).
Defined.

(** C2, as stated, fails on three snapshots where learner 7 occurs in the
    oldest only: 7 has no average in the previous nor in the current
    snapshot, yet the comparison walks through it and it is placed in the
    support list. *)
Lemma C2_counterexample :
  computeAnalytics snapshotsOAB = Some (resultOf snapshotsOAB) /\
  ~ In 7%N (idsOf snapshotA) /\ ~ In 7%N (idsOf snapshotB) /\
  ~ In 7%N (keys (a1 snapshotsOAB)) /\ ~ In 7%N (keys (a2 snapshotsOAB)) /\
  In 7%N (allIds snapshotsOAB) /\
  In 7%N (ids (Analytics.supportList (resultOf snapshotsOAB))).
Proof.
  split; [vm_compute; reflexivity |].
  repeat (split; [vm_compute; intros [H | [H | []]]; discriminate |]).
  split; vm_compute; tauto.
Qed.

(** ** C3: the window of recent averages *)

(** C3, as the code has it.  Every learner of the improved and support
    lists carries a [recentAvgs] list of [min 4 N] entries, [N] being the
    number of snapshots: entry [k] is the learner's average (or null) in
    snapshot [max 0 (N - 4) + k], oldest first.  Nothing pads the list to
    four entries, and with a single snapshot both lists are empty. *)
Theorem C3_recentAvgs_window (snapshots : list Snapshot.t) (a : Analytics.t)
    (l : Learner.t) :
  computeAnalytics snapshots = Some a ->
  In l (Analytics.improvedList a) \/ In l (Analytics.supportNeeded a) \/
  In l (Analytics.supportList a) ->
  (2 <= List.length snapshots)%nat /\
  exists recent,
    Learner.recentAvgs l = Some recent /\
    List.length recent = Nat.min 4 (List.length snapshots) /\
    forall k, (k < Nat.min 4 (List.length snapshots))%nat ->
      nth_error recent k =
      Some (averageIn
              (nth (Nat.max 0 (List.length snapshots - 4) + k) snapshots
                   noSnapshot)
              (Learner.id l)).
Proof.
  intros Ha Hl.
  assert (Hl' : In l (Analytics.improvedList a) \/
                In l (Analytics.supportNeeded a)).
  { destruct Hl as [H | [H | H]]; [now left | now right | right].
    destruct (analytics_finished snapshots a Ha) as (_ & _ & Hx).
    rewrite Hx in H. now apply filter_In in H. }
  clear Hl.
  assert (Hn : (2 <= List.length snapshots)%nat).
  { destruct (Nat.leb_spec 2 (List.length snapshots)) as [H | H];
      [assumption |].
    destruct (analytics_lists_short snapshots a Ha H) as (Hi & Hs & _).
    rewrite Hi, Hs in Hl'. simpl in Hl'. tauto. }
  split; [assumption |].
  destruct (analytics_lists snapshots a Ha Hn) as [Hi Hs].
  assert (E : l = enrichedFor snapshots (Analytics.learners a) (Learner.id l)).
  { destruct Hl' as [H | H]; [rewrite Hi in H | rewrite Hs in H];
      now apply In_selected in H. }
  exists (recentAvgs snapshots (Learner.id l)). split; [| split].
  - rewrite E at 1. apply enrichedFor_recentAvgs.
  - apply recentAvgs_length.
  - intros k Hk. now rewrite recentAvgs_nth.
Qed.

Lemma C3_recentAvgs_window_witness :
  computeAnalytics snapshotsAB = Some (resultOf snapshotsAB) /\
  In (enrichedFor snapshotsAB (Analytics.learners (resultOf snapshotsAB)) 1)
     (Analytics.improvedList (resultOf snapshotsAB)) /\
  (2 <= List.length snapshotsAB)%nat /\
  exists recent,
    Learner.recentAvgs
      (enrichedFor snapshotsAB (Analytics.learners (resultOf snapshotsAB)) 1)
      = Some recent /\
    List.length recent = Nat.min 4 (List.length snapshotsAB) /\
    forall k, (k < Nat.min 4 (List.length snapshotsAB))%nat ->
      nth_error recent k =
      Some (averageIn
              (nth (Nat.max 0 (List.length snapshotsAB - 4) + k) snapshotsAB
                   noSnapshot)
              (Learner.id
                 (enrichedFor snapshotsAB
                    (Analytics.learners (resultOf snapshotsAB)) 1))).
Proof.
  assert (Ha : computeAnalytics snapshotsAB = Some (resultOf snapshotsAB))
    by (vm_compute; reflexivity).
  assert (Hl : In (enrichedFor snapshotsAB
                     (Analytics.learners (resultOf snapshotsAB)) 1)
                  (Analytics.improvedList (resultOf snapshotsAB)))
    by (vm_compute; left; reflexivity).
  split; [exact Ha | split; [exact Hl |]].
  exact (C3_recentAvgs_window snapshotsAB _ _ Ha (or_introl Hl)).
Defined.

(** C3, as stated, fails on two snapshots: the one improved learner has a
    [recentAvgs] list of two entries, not four. *)
Lemma C3_counterexample :
  computeAnalytics snapshotsAB = Some (resultOf snapshotsAB) /\
  map Learner.recentAvgs (Analytics.improvedList (resultOf snapshotsAB)) =
    [Some [Some 40%Z; Some 60%Z]] /\
  List.length [Some 40%Z; Some 60%Z] <> 4%nat.
Proof.
  split; [vm_compute; reflexivity |].
  split; [vm_compute; reflexivity | discriminate].
Qed.

(** ** C4: finished learners *)

(** C4. A learner id of the last snapshot's learner records is in the
    finished list exactly when at least two snapshots of the whole sequence
    give it an average of 100 or more; the finished list and the
    consistent-completers list are the same list; with a single snapshot
    both are empty. *)
Theorem C4_finished_detection (snapshots : list Snapshot.t) (a : Analytics.t) :
  computeAnalytics snapshots = Some a ->
  (forall id, In id (ids (Analytics.learners a)) ->
     (In id (ids (Analytics.finishedStudents a)) <->
      (2 <= snapshotsAt100 snapshots id)%nat)) /\
  Analytics.finishedStudents a = Analytics.consistentCompleters a /\
  (List.length snapshots = 1%nat ->
   Analytics.finishedStudents a = [] /\ Analytics.consistentCompleters a = []).
Proof.
  intros Ha. destruct (analytics_finished snapshots a Ha) as (Hf & Hc & _).
  split; [| split].
  - intros id Hid. split.
    + intros H. unfold ids in H. apply in_map_iff in H.
      destruct H as [l [<- Hl]].
      now apply (finished_in_learners snapshots a l Ha).
    + intros Hcount. apply find_by_id_present in Hid.
      destruct Hid as [e He]. pose proof (find_by_id _ _ He) as [Hin Heq].
      subst id. apply In_ids. rewrite Hf. apply In_finished. tauto.
  - now rewrite Hc.
  - intros H1. rewrite Hc.
    assert (E : Analytics.finishedStudents a = []).
    { destruct (Analytics.finishedStudents a) as [| l fs] eqn:F;
        [reflexivity | exfalso].
      assert (Hl : In l (Analytics.finishedStudents a))
        by (rewrite F; now left).
      apply (finished_in_learners snapshots a l Ha) in Hl.
      pose proof (snapshotsAt100_le snapshots (Learner.id l)). lia. }
    now rewrite E.
Qed.

Lemma C4_finished_detection_witness :
  computeAnalytics snapshotsAB = Some (resultOf snapshotsAB) /\
  In 2%N (ids (Analytics.learners (resultOf snapshotsAB))) /\
  (2 <= snapshotsAt100 snapshotsAB 2)%nat /\
  In 2%N (ids (Analytics.finishedStudents (resultOf snapshotsAB))).
Proof.
  assert (Ha : computeAnalytics snapshotsAB = Some (resultOf snapshotsAB))
    by (vm_compute; reflexivity).
  assert (Hid : In 2%N (ids (Analytics.learners (resultOf snapshotsAB))))
    by (vm_compute; tauto).
  assert (Hc : (2 <= snapshotsAt100 snapshotsAB 2)%nat)
    by (vm_compute; lia).
  repeat (split; [assumption |]).
  exact (proj2 (proj1 (C4_finished_detection snapshotsAB _ Ha) 2%N Hid) Hc).
Defined.

(** ** C5: finished learners are not in the support list *)

(** C5. No learner of the finished list has its id in the returned support
    list, whatever its previous and current averages. *)
Theorem C5_finished_excluded (snapshots : list Snapshot.t) (a : Analytics.t)
    (l : Learner.t) :
  computeAnalytics snapshots = Some a ->
  In l (Analytics.finishedStudents a) ->
  ~ In (Learner.id l) (ids (Analytics.supportList a)).
Proof.
  intros Ha Hl. rewrite (supportList_ids snapshots a _ Ha).
  intros [_ Hn]. apply Hn. now apply In_ids.
Qed.

Lemma C5_finished_excluded_witness :
  computeAnalytics snapshotsAB = Some (resultOf snapshotsAB) /\
  In (firstOf (Analytics.finishedStudents (resultOf snapshotsAB)))
     (Analytics.finishedStudents (resultOf snapshotsAB)) /\
  Learner.id (firstOf (Analytics.finishedStudents (resultOf snapshotsAB)))
    = 2%N /\
  ~ In (Learner.id (firstOf (Analytics.finishedStudents (resultOf snapshotsAB))))
       (ids (Analytics.supportList (resultOf snapshotsAB))).
Proof.
  assert (Ha : computeAnalytics snapshotsAB = Some (resultOf snapshotsAB))
    by (vm_compute; reflexivity).
  assert (Hl : In (firstOf (Analytics.finishedStudents (resultOf snapshotsAB)))
                  (Analytics.finishedStudents (resultOf snapshotsAB)))
    by (vm_compute; left; reflexivity).
  split; [exact Ha | split; [exact Hl | split; [vm_compute; reflexivity |]]].
  exact (C5_finished_excluded snapshotsAB _ _ Ha Hl).
Defined.

(** ** C6: the empty sequence *)

(** C6. The memo returns null on the empty snapshot sequence and a
    structure on every other one. *)
Theorem C6_null_iff_empty :
  computeAnalytics [] = None /\
  forall (s : Snapshot.t) (rest : list Snapshot.t),
    exists a, computeAnalytics (s :: rest) = Some a.
Proof.
  split; [reflexivity | apply computeAnalytics_nonempty].
Qed.

(** ** C7: the bucket counters of a learner record *)

(** C7. In every learner record built by the row aggregator the three
    counters are the numbers of courses in the three buckets, a course
    being completed from 100 up, in progress from 1 up to 100 excluded, and
    not started below 1 (hence also strictly between 0 and 1); the counters
    add up to the number of courses. *)
Theorem C7_bucket_partition (last : list ExcelRow.t) (l : Learner.t) :
  In l (learners last) ->
  (Learner.completed l + Learner.inProgress l + Learner.notStarted l
   = List.length (Learner.courses l))%nat /\
  Learner.completed l = inBucket Completed (Learner.courses l) /\
  Learner.inProgress l = inBucket InProgress (Learner.courses l) /\
  Learner.notStarted l = inBucket NotStarted (Learner.courses l) /\
  forall c : Q,
    (bucketOf c = Completed <-> (100 <= c)%Q) /\
    (bucketOf c = InProgress <-> (1 <= c)%Q /\ (c < 100)%Q) /\
    (bucketOf c = NotStarted <-> (c < 1)%Q).
Proof.
  intros Hl. apply In_learners in Hl.
  destruct Hl as [lp [-> ((Hc & Hi & Hn & _) & _)]]. simpl.
  rewrite Hc, Hi, Hn. split; [apply inBucket_partition |].
  split; [reflexivity | split; [reflexivity | split; [reflexivity |]]].
  intros c. split; [apply bucketOf_Completed |].
  split; [apply bucketOf_InProgress | apply bucketOf_NotStarted].
Qed.

Lemma C7_bucket_partition_witness :
  In (firstOf (learners rowsEve)) (learners rowsEve) /\
  (Learner.completed (firstOf (learners rowsEve)) +
   Learner.inProgress (firstOf (learners rowsEve)) +
   Learner.notStarted (firstOf (learners rowsEve))
   = List.length (Learner.courses (firstOf (learners rowsEve))))%nat /\
  Learner.notStarted (firstOf (learners rowsEve)) = 1%nat.
Proof.
  assert (Hl : In (firstOf (learners rowsEve)) (learners rowsEve))
    by (vm_compute; left; reflexivity).
  split; [exact Hl |].
  split; [exact (proj1 (C7_bucket_partition _ _ Hl)) | reflexivity].
Defined.

(** ** C8: the rounded average of a learner record *)

Lemma roundsHalfUp_unique (q : Q) (z z' : Z) :
  roundsHalfUp q z -> roundsHalfUp q z' -> z = z'.
Proof.
  assert (Half : forall x y : Z,
            (inject_Z x - (1 # 2) < inject_Z y + (1 # 2))%Q -> (x <= y)%Z).
  { intros x y H. apply Z.lt_succ_r. rewrite Zlt_Qlt.
    unfold Z.succ. rewrite inject_Z_plus.
    apply (Qplus_lt_l _ _ (- (1 # 2))).
    eapply Qlt_le_trans; [exact H |]. apply Qle_lteq. right.
    change (inject_Z 1) with 1%Q. ring. }
  intros [L U] [L' U'].
  apply Z.le_antisymm; apply Half.
  - eapply Qle_lt_trans; [exact L | exact U'].
  - eapply Qle_lt_trans; [exact L' | exact U].
Qed.

Lemma Math_round_roundsHalfUp (q : Q) : roundsHalfUp q (Math_round q).
Proof. split; [apply Math_round_lower | apply Math_round_upper]. Qed.



(** ** C9: the delta column of the export *)

(** The export writes the difference without a sign of its own: it agrees
    with the signed rendering up to a leading [+]. *)
Lemma delta_signedDelta (l : Learner.t) :
  signedDelta l = CsvExport.delta l \/
  signedDelta l = ("+" ++ CsvExport.delta l)%string.
Proof.
  unfold signedDelta, CsvExport.delta.
  destruct (CsvExport.first _) as [f |]; [| now left].
  destruct (CsvExport.last _) as [la |]; [| now left].
  destruct (Z.ltb 0 (la - f)); [now right | now left].
Qed.

(** C9, on the code.  For recent averages 40, null, 60 the first known
    value is 40 and the last is 60; the export writes the delta as [20%],
    where the specification asks for [+20%]. *)
Theorem C9_delta_without_plus :
  CsvExport.first [Some 40%Z; None; Some 60%Z] = Some 40%Z /\
  CsvExport.last [Some 40%Z; None; Some 60%Z] = Some 60%Z /\
  CsvExport.delta (learnerWithRecent [Some 40%Z; None; Some 60%Z])
    = "20%"%string /\
  signedDelta (learnerWithRecent [Some 40%Z; None; Some 60%Z])
    = "+20%"%string.
Proof. repeat split. Qed.

(** ** C10: the support list before and after the exclusion *)

(** C10. [supportNeeded] is the support list as the comparison leaves it,
    [supportList] is what remains of it once the learners of the finished
    list are filtered out, hence a sublist; a finished learner whose
    previous and current averages are equal is in [supportNeeded] and not
    in [supportList]. *)
Theorem C10_supportNeeded_before_exclusion (snapshots : list Snapshot.t)
    (a : Analytics.t) :
  computeAnalytics snapshots = Some a ->
  Analytics.supportNeeded a =
    snd (twoSnapshotComparison snapshots (Analytics.learners a)) /\
  Analytics.supportList a =
    filter (fun s => negb (Set_has (Set_of (ids (Analytics.finishedStudents a)))
                             (Learner.id s)))
      (Analytics.supportNeeded a) /\
  sublist (Analytics.supportList a) (Analytics.supportNeeded a) /\
  forall l, In l (Analytics.finishedStudents a) ->
    v1 snapshots (Learner.id l) = v2 snapshots (Learner.id l) ->
    In (Learner.id l) (ids (Analytics.supportNeeded a)) /\
    ~ In (Learner.id l) (ids (Analytics.supportList a)).
Proof.
  intros Ha. destruct (analytics_finished snapshots a Ha) as (_ & _ & Hx).
  split; [| split; [exact Hx | split]].
  - apply computeAnalytics_Some in Ha. destruct Ha as (_ & Hl & _ & Hs & _).
    now rewrite Hs, Hl.
  - rewrite Hx. apply sublist_filter.
  - intros l Hl Heq.
    destruct (finished_in_learners snapshots a l Ha Hl) as [Hin Hc].
    assert (Hn : (2 <= List.length snapshots)%nat).
    { pose proof (snapshotsAt100_le snapshots (Learner.id l)). lia. }
    assert (Hid : In (Learner.id l) (allIds snapshots)).
    { pose proof (computeAnalytics_Some _ Ha) as (Hne & Hls & _).
      rewrite Hls in Hin. apply In_ids in Hin.
      now apply learner_ids_in_allIds in Hin. }
    split.
    + apply (comparison_ids snapshots a (Learner.id l) Hn Ha). tauto.
    + rewrite (supportList_ids snapshots a _ Ha). intros [_ Hnf].
      apply Hnf. now apply In_ids.
Qed.

Lemma C10_supportNeeded_before_exclusion_witness :
  computeAnalytics snapshotsAB = Some (resultOf snapshotsAB) /\
  ids (Analytics.finishedStudents (resultOf snapshotsAB)) = [2%N] /\
  ids (Analytics.supportNeeded (resultOf snapshotsAB)) = [2%N] /\
  Analytics.supportList (resultOf snapshotsAB) = [] /\
  sublist (Analytics.supportList (resultOf snapshotsAB))
          (Analytics.supportNeeded (resultOf snapshotsAB)).
Proof.
  assert (Ha : computeAnalytics snapshotsAB = Some (resultOf snapshotsAB))
    by (vm_compute; reflexivity).
  split; [exact Ha |].
  repeat (split; [vm_compute; reflexivity |]).
  exact (proj1 (proj2 (proj2
           (C10_supportNeeded_before_exclusion snapshotsAB _ Ha)))).
Defined.

(** * Further properties of the code *)

Import OrderedFacts.

(** ** Ordered objects hold each key once *)

Lemma ordered_keys_sorted {A} (m : JsObject.t A) :
  ordered m -> StronglySorted N.lt (keys m).
Proof.
  induction m as [| [k v] m IH]; simpl; intros H; constructor.
  - apply IH, H.
  - apply H.
Qed.

Lemma sorted_NoDup (ks : list N) : StronglySorted N.lt ks -> NoDup ks.
Proof.
  induction 1 as [| k ks _ IH Hk]; constructor; [| assumption].
  intros Hin. rewrite Forall_forall in Hk. specialize (Hk k Hin). lia.
Qed.

Lemma ordered_In_get {A} (m : JsObject.t A) (k : N) (v : A) :
  ordered m -> In (k, v) m -> get m k = Some v.
Proof.
  induction m as [| [k0 v0] m IH]; simpl; intros Ho Hin; [contradiction |].
  destruct Ho as [Hb Ho]. destruct Hin as [Heq | Hin].
  - injection Heq as -> ->. now rewrite N.eqb_refl.
  - destruct (N.eqb_spec k k0) as [-> | Hne]; [| now apply IH].
    exfalso. rewrite Forall_forall in Hb.
    assert (Hk : In k0 (keys m)).
    { unfold keys. apply in_map_iff. now exists (k0, v). }
    specialize (Hb k0 Hk). lia.
Qed.

Lemma NoDup_Set_add (s : list N) (x : N) : NoDup s -> NoDup (Set_add s x).
Proof.
  intros H. unfold Set_add. destruct (Set_has s x) eqn:E; [assumption |].
  apply NoDup_app; [assumption | repeat constructor; intros [] |].
  intros y Hy [<- | []]. apply Set_has_In in Hy. congruence.
Qed.

Lemma NoDup_Set_of (xs : list N) : NoDup (Set_of xs).
Proof.
  unfold Set_of.
  assert (G : forall s, NoDup s -> NoDup (fold_left Set_add xs s)).
  { induction xs as [| x xs IH]; intros s Hs; simpl; [assumption |].
    now apply IH, NoDup_Set_add. }
  apply G. constructor.
Qed.

Lemma same_members_length (xs ys : list N) :
  NoDup xs -> NoDup ys -> (forall x, In x xs <-> In x ys) ->
  List.length xs = List.length ys.
Proof.
  intros Hx Hy H. apply Permutation_length.
  now apply NoDup_Permutation.
Qed.

(** ** The row aggregator, record by record *)

Lemma ordered_learnerProgress (last : list ExcelRow.t) :
  ordered (learnerProgress last).
Proof.
  unfold learnerProgress.
  change aggregateRow with
    (fun m x => upsert (ExcelRow.User_ID x) (newLearnerProgress x)
                  (addCourse x) m).
  apply ordered_fold_upsert. exact I.
Qed.

Lemma In_keys_learnerProgress (last : list ExcelRow.t) (id : N) :
  In id (keys (learnerProgress last)) <-> In id (map ExcelRow.User_ID last).
Proof.
  unfold learnerProgress.
  change aggregateRow with
    (fun m x => upsert (ExcelRow.User_ID x) (newLearnerProgress x)
                  (addCourse x) m).
  rewrite In_keys_fold_upsert. simpl. tauto.
Qed.

(** The record of a learner after its first row [r] and its later rows. *)
Lemma addCourse_fold (rs : list ExcelRow.t) (lp : LearnerProgress.t) :
  let lp' := fold_left (fun lp x => addCourse x lp) rs lp in
  LearnerProgress.id lp' = LearnerProgress.id lp /\
  LearnerProgress.name lp' = LearnerProgress.name lp /\
  LearnerProgress.email lp' = LearnerProgress.email lp /\
  LearnerProgress.district lp' = LearnerProgress.district lp /\
  LearnerProgress.courses lp' =
    (LearnerProgress.courses lp ++ map courseOfRow rs)%list.
Proof.
  revert lp. induction rs as [| r rs IH]; intros lp; simpl.
  - now rewrite app_nil_r.
  - destruct (IH (addCourse r lp)) as (Hi & Hn & He & Hd & Hc).
    rewrite Hi, Hn, He, Hd, Hc, addCourse_id, addCourse_courses.
    rewrite <- app_assoc. simpl.
    unfold addCourse.
    destruct (Qle_bool 100 (completionOf r));
      [| destruct (Qle_bool 1 (completionOf r) && Qltb (completionOf r) 100)];
      repeat split.
Qed.

Lemma get_learnerProgress (last : list ExcelRow.t) (id : N) :
  get (learnerProgress last) id =
  match rowsOf id last with
  | [] => None
  | r :: rs =>
      Some (fold_left (fun lp x => addCourse x lp) rs
              (addCourse r (newLearnerProgress r)))
  end.
Proof.
  unfold learnerProgress.
  change aggregateRow with
    (fun m x => upsert (ExcelRow.User_ID x) (newLearnerProgress x)
                  (addCourse x) m).
  rewrite get_fold_upsert by exact I.
  change (filter (fun x => N.eqb (ExcelRow.User_ID x) id) last)
    with (rowsOf id last).
  destruct (rowsOf id last) as [| r rs]; [reflexivity |].
  cbn [fold_left get empty].
  generalize (addCourse r (newLearnerProgress r)).
  induction rs as [| x rs IH]; intros lp; simpl; [reflexivity | apply IH].
Qed.

Lemma find_filter_head {A} (p : A -> bool) (l : list A) :
  find p l = match filter p l with [] => None | x :: _ => Some x end.
Proof.
  induction l as [| x l IH]; simpl; [reflexivity |].
  now destruct (p x).
Qed.

Lemma rowsOf_id (id : N) (arr : list ExcelRow.t) (r : ExcelRow.t) :
  In r (rowsOf id arr) -> ExcelRow.User_ID r = id.
Proof.
  unfold rowsOf. intros H. apply filter_In in H. destruct H as [_ H].
  now apply N.eqb_eq in H.
Qed.

(** Every learner record is the record of the rows of one id. *)
Lemma learner_record (last : list ExcelRow.t) (l : Learner.t) :
  In l (learners last) ->
  exists r rs,
    rowsOf (Learner.id l) last = r :: rs /\
    l = toLearner (fold_left (fun lp x => addCourse x lp) rs
                     (addCourse r (newLearnerProgress r))).
Proof.
  unfold learners, values. rewrite map_map. intros H.
  apply in_map_iff in H. destruct H as [[k lp] [<- Hin]].
  pose proof (ordered_In_get _ _ _ (ordered_learnerProgress last) Hin) as G.
  rewrite get_learnerProgress in G.
  destruct (rowsOf k last) as [| r rs] eqn:E; [discriminate |].
  injection G as <-. simpl.
  destruct (addCourse_fold rs (addCourse r (newLearnerProgress r)))
    as (Hi & _).
  simpl in Hi. rewrite Hi, addCourse_id. simpl.
  assert (Hr : ExcelRow.User_ID r = k).
  { apply (rowsOf_id k last). rewrite E. now left. }
  rewrite Hr, E. now exists r, rs.
Qed.

Lemma aggregated_fold (rs : list ExcelRow.t) (lp : LearnerProgress.t) :
  aggregated lp -> aggregated (fold_left (fun lp x => addCourse x lp) rs lp).
Proof.
  revert lp. induction rs as [| r rs IH]; intros lp H; simpl;
    [assumption |].
  now apply IH, aggregated_addCourse.
Qed.

(** The fields of a learner record in terms of the rows of its id. *)
Lemma learner_fields (last : list ExcelRow.t) (l : Learner.t) :
  In l (learners last) ->
  exists r rs,
    rowsOf (Learner.id l) last = r :: rs /\
    Learner.name l =
      (ExcelRow.User_First_Name r ++ " " ++ ExcelRow.User_Last_Name r)%string /\
    Learner.email l = ExcelRow.User_Email r /\
    Learner.district l = ExcelRow.District r /\
    Learner.courses l = map courseOfRow (r :: rs) /\
    Learner.totalCompletion l = Qsum (map completionOf (r :: rs)).
Proof.
  intros H. destruct (learner_record last l H) as (r & rs & E & ->).
  exists r, rs.
  destruct (addCourse_fold rs (addCourse r (newLearnerProgress r)))
    as (_ & Hn & He & Hd & Hc).
  pose proof (aggregated_fold rs (addCourse r (newLearnerProgress r))
                (aggregated_addCourse r (aggregated_new r)))
    as (_ & _ & _ & Ht).
  simpl in *. rewrite E.
  assert (Hc' : LearnerProgress.courses
                  (fold_left (fun lp x => addCourse x lp) rs
                     (addCourse r (newLearnerProgress r))) =
                map courseOfRow (r :: rs)).
  { rewrite Hc, addCourse_courses. reflexivity. }
  split; [reflexivity |].
  split; [rewrite Hn; unfold addCourse;
          destruct (Qle_bool 100 (completionOf r));
          [| destruct (Qle_bool 1 (completionOf r) &&
                       Qltb (completionOf r) 100)]; reflexivity |].
  split; [rewrite He; unfold addCourse;
          destruct (Qle_bool 100 (completionOf r));
          [| destruct (Qle_bool 1 (completionOf r) &&
                       Qltb (completionOf r) 100)]; reflexivity |].
  split; [rewrite Hd; unfold addCourse;
          destruct (Qle_bool 100 (completionOf r));
          [| destruct (Qle_bool 1 (completionOf r) &&
                       Qltb (completionOf r) 100)]; reflexivity |].
  split; [exact Hc' |].
  rewrite Ht, Hc', map_map. reflexivity.
Qed.

Lemma learners_ids_sorted (last : list ExcelRow.t) :
  NoDup (ids (learners last)) /\
  StronglySorted N.lt (ids (learners last)) /\
  forall id, In id (ids (learners last)) <-> In id (map ExcelRow.User_ID last).
Proof.
  assert (K : forall m : JsObject.t LearnerProgress.t,
            Forall (fun kv => LearnerProgress.id (snd kv) = fst kv) m ->
            ids (map toLearner (values m)) = keys m).
  { induction m as [| [k v] m IH]; intros F; [reflexivity |].
    inversion F as [| ? ? Hk Hm]; subst. simpl in *.
    rewrite IH by assumption. now rewrite Hk. }
  assert (F : Forall (fun kv => LearnerProgress.id (snd kv) = fst kv)
                (learnerProgress last)).
  { apply Forall_forall. intros [k lp] Hin. simpl.
    pose proof (ordered_In_get _ _ _ (ordered_learnerProgress last) Hin) as G.
    rewrite get_learnerProgress in G.
    destruct (rowsOf k last) as [| r rs] eqn:E; [discriminate |].
    injection G as <-.
    destruct (addCourse_fold rs (addCourse r (newLearnerProgress r)))
      as (Hi & _).
    simpl in Hi. rewrite Hi, addCourse_id. simpl.
    apply (rowsOf_id k last). rewrite E. now left. }
  unfold learners. rewrite (K _ F).
  pose proof (ordered_keys_sorted _ (ordered_learnerProgress last)) as S.
  split; [now apply sorted_NoDup | split; [exact S |]].
  intros id. apply In_keys_learnerProgress.
Qed.


(** X2. Within a snapshot the first row of a learner fixes its name, email
    and district; every row of the learner, in row order, gives one
    course, and the running total is the sum of their completions. *)
Theorem X2_first_row_wins (last : list ExcelRow.t) (l : Learner.t) :
  In l (learners last) ->
  exists r rs,
    rowsOf (Learner.id l) last = r :: rs /\
    find (hasId (Learner.id l)) last = Some r /\
    Learner.name l =
      (ExcelRow.User_First_Name r ++ " " ++ ExcelRow.User_Last_Name r)%string /\
    Learner.email l = ExcelRow.User_Email r /\
    Learner.district l = ExcelRow.District r /\
    Learner.courses l = map courseOfRow (r :: rs) /\
    Learner.totalCompletion l = Qsum (map completionOf (r :: rs)).
Proof.
  intros H. destruct (learner_fields last l H) as (r & rs & E & Hrest).
  exists r, rs. split; [exact E |]. split; [| exact Hrest].
  rewrite find_filter_head. unfold rowsOf in E. now rewrite E.
Qed.

Lemma X2_first_row_wins_witness :
  In (firstOf (learners Samples.rowsDan)) (learners Samples.rowsDan) /\
  Learner.name (firstOf (learners Samples.rowsDan)) = "Dan Doe"%string /\
  exists r rs,
    rowsOf (Learner.id (firstOf (learners Samples.rowsDan))) Samples.rowsDan
      = r :: rs /\
    find (hasId (Learner.id (firstOf (learners Samples.rowsDan))))
         Samples.rowsDan = Some r /\
    Learner.name (firstOf (learners Samples.rowsDan)) =
      (ExcelRow.User_First_Name r ++ " " ++ ExcelRow.User_Last_Name r)%string /\
    Learner.email (firstOf (learners Samples.rowsDan)) = ExcelRow.User_Email r /\
    Learner.district (firstOf (learners Samples.rowsDan)) = ExcelRow.District r /\
    Learner.courses (firstOf (learners Samples.rowsDan)) =
      map courseOfRow (r :: rs) /\
    Learner.totalCompletion (firstOf (learners Samples.rowsDan)) =
      Qsum (map completionOf (r :: rs)).
Proof.
  assert (Hl : In (firstOf (learners Samples.rowsDan))
                  (learners Samples.rowsDan))
    by (vm_compute; left; reflexivity).
  split; [exact Hl | split; [reflexivity |]].
  exact (X2_first_row_wins Samples.rowsDan _ Hl).
Defined.

(** The average of a learner record, read off the rows of its id. *)
Lemma learner_average (last : list ExcelRow.t) (l : Learner.t) :
  In l (learners last) ->
  Learner.avgCompletion l = averageOfRows (rowsOf (Learner.id l) last) /\
  get (avgMap last) (Learner.id l) = Some (Learner.avgCompletion l).
Proof.
  intros H. destruct (learner_record last l H) as (r & rs & E & Hl).
  destruct (learner_fields last l H) as (r' & rs' & E' & _ & _ & _ & Hc & Ht).
  rewrite E in E'. injection E' as <- <-.
  assert (A : Learner.avgCompletion l = averageOfRows (r :: rs)).
  { rewrite Hl in Hc, Ht |- *.
    change (LearnerProgress.courses
              (fold_left (fun lp x => addCourse x lp) rs
                 (addCourse r (newLearnerProgress r))) =
            map courseOfRow (r :: rs)) in Hc.
    change (LearnerProgress.totalCompletion
              (fold_left (fun lp x => addCourse x lp) rs
                 (addCourse r (newLearnerProgress r))) =
            Qsum (map completionOf (r :: rs))) in Ht.
    unfold toLearner. cbn [Learner.avgCompletion].
    rewrite Hc, Ht, length_map. reflexivity. }
  rewrite get_avgMap, E. now rewrite A.
Qed.

(** X3. The average of a learner record is the rounded mean of the rows
    of its id, and it is the value the per-snapshot average map holds for
    that id: the two computations of the source agree. *)
Theorem X3_record_average_is_map_average (last : list ExcelRow.t)
    (l : Learner.t) :
  In l (learners last) ->
  Learner.avgCompletion l = averageOfRows (rowsOf (Learner.id l) last) /\
  get (avgMap last) (Learner.id l) = Some (Learner.avgCompletion l) /\
  get (avgMapOfSnapshot (Snapshot.mk ""%string last)) (Learner.id l) =
    Some (Learner.avgCompletion l).
Proof.
  intros H. destruct (learner_average last l H) as [A B].
  split; [exact A | split; exact B].
Qed.

Lemma X3_record_average_is_map_average_witness :
  In (firstOf (learners rowsEve)) (learners rowsEve) /\
  Learner.avgCompletion (firstOf (learners rowsEve)) = 50%Z /\
  get (avgMap rowsEve) (Learner.id (firstOf (learners rowsEve))) =
    Some (Learner.avgCompletion (firstOf (learners rowsEve))).
Proof.
  assert (Hl : In (firstOf (learners rowsEve)) (learners rowsEve))
    by (vm_compute; left; reflexivity).
  split; [exact Hl | split; [reflexivity |]].
  exact (proj1 (proj2 (X3_record_average_is_map_average rowsEve _ Hl))).
Defined.

(** ** The remaining fields of a result *)

Lemma computeAnalytics_fields (snapshots : list Snapshot.t) (a : Analytics.t) :
  computeAnalytics snapshots = Some a ->
  Analytics.totalLearners a =
    List.length (Set_of (map ExcelRow.User_ID
                           (rowsAt snapshots (List.length snapshots - 1)))) /\
  Analytics.improvedLearners a = List.length (Analytics.improvedList a) /\
  Analytics.failedStudents a = failedStudents (Analytics.learners a) /\
  Analytics.averageCompletion a = averageCompletion (Analytics.learners a) /\
  Analytics.monthlyData a = monthlyData snapshots /\
  Analytics.learners a =
    learners (rowsAt snapshots (List.length snapshots - 1)).
Proof.
  unfold computeAnalytics.
  destruct (Nat.eqb (List.length snapshots) 0); [discriminate |].
  destruct (twoSnapshotComparison snapshots _) as [imp sup].
  destruct (finishedScan snapshots _) as [fs cs].
  intros H. injection H as <-. simpl. repeat split.
Qed.

Lemma totals_length (arr : list ExcelRow.t) :
  List.length (totalsOf arr) =
  List.length (Set_of (map ExcelRow.User_ID arr)).
Proof.
  rewrite <- (length_map fst (totalsOf arr)).
  apply same_members_length.
  - apply sorted_NoDup, (ordered_keys_sorted _ (ordered_totalsOf arr)).
  - apply NoDup_Set_of.
  - intros x. rewrite In_Set_of. apply In_keys_totalsOf.
Qed.

Lemma last_nth_error {A} (l : list A) (d : A) :
  l <> [] -> nth_error l (List.length l - 1) = Some (nth (List.length l - 1) l d).
Proof.
  intros H. apply nth_error_nth'. destruct l; [contradiction | simpl; lia].
Qed.

Lemma monthlyData_nth (snapshots : list Snapshot.t) (i : nat) (s : Snapshot.t) :
  nth_error snapshots i = Some s ->
  nth_error (monthlyData snapshots) i = Some (monthlyDatum i s).
Proof.
  intros H. unfold monthlyData.
  rewrite nth_error_map.
  assert (E : nth_error (combine (seq 0 (List.length snapshots)) snapshots) i
              = Some (i, s)).
  { assert (Hi : (i < List.length snapshots)%nat)
      by (apply nth_error_Some; congruence).
    rewrite (nth_error_nth' _ (0%nat, s))
      by (rewrite length_combine, length_seq; lia).
    rewrite combine_nth by now rewrite length_seq.
    rewrite seq_nth by lia. simpl.
    now rewrite (nth_error_nth _ _ s H). }
  now rewrite E.
Qed.

(** X4. The total-learners figure of a result is the number of its
    learner records, and it is the learner count of the summary of the
    last report. *)
Theorem X4_totalLearners_counts_records (snapshots : list Snapshot.t)
    (a : Analytics.t) :
  computeAnalytics snapshots = Some a ->
  Analytics.totalLearners a = List.length (Analytics.learners a) /\
  option_map MonthlyData.learners
    (nth_error (Analytics.monthlyData a) (List.length snapshots - 1)) =
  Some (Analytics.totalLearners a).
Proof.
  intros Ha.
  destruct (computeAnalytics_fields snapshots a Ha)
    as (Ht & _ & _ & _ & Hm & Hl).
  pose proof (computeAnalytics_Some _ Ha) as (Hne & _).
  split.
  - rewrite Ht, Hl. rewrite <- (length_map Learner.id).
    apply same_members_length.
    + apply NoDup_Set_of.
    + apply (learners_ids_sorted _).
    + intros x. rewrite In_Set_of. symmetry.
      apply (learners_ids_sorted _).
  - rewrite Hm, Ht.
    rewrite (monthlyData_nth snapshots _ _ (last_nth_error snapshots noSnapshot Hne)).
    simpl. f_equal. rewrite length_map.
    unfold values. rewrite length_map. apply totals_length.
Qed.

Lemma X4_totalLearners_counts_records_witness :
  computeAnalytics snapshotsAB = Some (resultOf snapshotsAB) /\
  Analytics.totalLearners (resultOf snapshotsAB) = 2%nat /\
  Analytics.totalLearners (resultOf snapshotsAB) =
    List.length (Analytics.learners (resultOf snapshotsAB)).
Proof.
  assert (Ha : computeAnalytics snapshotsAB = Some (resultOf snapshotsAB))
    by (vm_compute; reflexivity).
  split; [exact Ha | split; [reflexivity |]].
  exact (proj1 (X4_totalLearners_counts_records snapshotsAB _ Ha)).
Defined.

(** X5. The level of a learner record follows the number of its courses
    at 100 or more: Advanced from three, Intermediate for one or two,
    Beginner for none. *)
Theorem X5_level_by_completed_courses (last : list ExcelRow.t) (l : Learner.t) :
  In l (learners last) ->
  ((3 <= inBucket Completed (Learner.courses l))%nat ->
   Learner.level l = "Advanced"%string) /\
  ((1 <= inBucket Completed (Learner.courses l) < 3)%nat ->
   Learner.level l = "Intermediate"%string) /\
  (inBucket Completed (Learner.courses l) = 0%nat ->
   Learner.level l = "Beginner"%string).
Proof.
  intros H. apply In_learners in H.
  destruct H as [lp [-> ((Hc & _) & _)]].
  unfold toLearner. cbn [Learner.level Learner.courses]. rewrite <- Hc.
  destruct (Nat.leb_spec 3 (LearnerProgress.completed lp)) as [H3 | H3].
  - repeat split; intros; try reflexivity; lia.
  - destruct (Nat.leb_spec 1 (LearnerProgress.completed lp)) as [H1 | H1];
      repeat split; intros; try reflexivity; lia.
Qed.

Lemma X5_level_by_completed_courses_witness :
  In (firstOf (learners rowsEve)) (learners rowsEve) /\
  (1 <= inBucket Completed (Learner.courses (firstOf (learners rowsEve))) < 3)%nat /\
  Learner.level (firstOf (learners rowsEve)) = "Intermediate"%string.
Proof.
  assert (Hl : In (firstOf (learners rowsEve)) (learners rowsEve))
    by (vm_compute; left; reflexivity).
  assert (Hc : (1 <= inBucket Completed
                        (Learner.courses (firstOf (learners rowsEve))) < 3)%nat)
    by (vm_compute; lia).
  split; [exact Hl | split; [exact Hc |]].
  exact (proj1 (proj2 (X5_level_by_completed_courses rowsEve _ Hl)) Hc).
Defined.

(** ** Averages stay within the range of the completions *)

Lemma Qsum_fold (xs : list Q) (a : Q) :
  (fold_left Qplus xs a == a + Qsum xs)%Q.
Proof.
  unfold Qsum. revert a. induction xs as [| x xs IH]; intros a; simpl.
  - ring.
  - rewrite (IH (a + x)%Q), (IH (0 + x)%Q). ring.
Qed.

Lemma Qsum_cons (x : Q) (xs : list Q) : (Qsum (x :: xs) == x + Qsum xs)%Q.
Proof.
  unfold Qsum at 1. simpl. rewrite Qsum_fold. ring.
Qed.

Lemma Qsum_bounds (L H : Q) (xs : list Q) :
  Forall (fun x => (L <= x)%Q /\ (x <= H)%Q) xs ->
  (inject_Z (Z.of_nat (List.length xs)) * L <= Qsum xs)%Q /\
  (Qsum xs <= inject_Z (Z.of_nat (List.length xs)) * H)%Q.
Proof.
  induction 1 as [| x xs [Hl Hh] _ [IHl IHh]].
  - simpl. unfold Qsum. simpl. change (inject_Z 0) with 0%Q. split; lra.
  - rewrite Qsum_cons. cbn [List.length]. rewrite Nat2Z.inj_succ.
    unfold Z.succ. rewrite inject_Z_plus.
    change (inject_Z 1) with 1%Q. split; lra.
Qed.

Lemma inject_Z_le_half (x y : Z) :
  (inject_Z x < inject_Z y + 1)%Q -> (x <= y)%Z.
Proof.
  intros H. apply Z.lt_succ_r. rewrite Zlt_Qlt. unfold Z.succ.
  rewrite inject_Z_plus. exact H.
Qed.

Lemma Math_round_bounds (lo hi : Z) (q : Q) :
  (inject_Z lo <= q)%Q -> (q <= inject_Z hi)%Q ->
  (lo <= Math_round q <= hi)%Z.
Proof.
  intros Hl Hh.
  pose proof (Math_round_lower q) as L.
  pose proof (Math_round_upper q) as U.
  split; apply inject_Z_le_half; lra.
Qed.

Lemma mean_bounds (lo hi : Z) (xs : list Q) :
  xs <> [] ->
  Forall (fun x => (inject_Z lo <= x)%Q /\ (x <= inject_Z hi)%Q) xs ->
  (lo <= Math_round (Qsum xs / inject_Z (Z.of_nat (List.length xs))) <= hi)%Z.
Proof.
  intros Hne F. destruct (Qsum_bounds _ _ _ F) as [Sl Sh].
  assert (Hn : (0 < inject_Z (Z.of_nat (List.length xs)))%Q).
  { rewrite <- (Zlt_Qlt 0). destruct xs; [contradiction | simpl; lia]. }
  apply Math_round_bounds.
  - apply Qle_shift_div_l; [exact Hn | lra].
  - apply Qle_shift_div_r; [exact Hn | lra].
Qed.

Lemma rowsOf_incl (id : N) (arr : list ExcelRow.t) (r : ExcelRow.t) :
  In r (rowsOf id arr) -> In r arr.
Proof. unfold rowsOf. intros H. now apply filter_In in H. Qed.

(** The averages of a snapshot lie between any two integers that bound the
    completions of its rows. *)
Lemma avgMap_bounds (lo hi : Z) (arr : list ExcelRow.t) (id : N) (z : Z) :
  (forall r, In r arr ->
     (inject_Z lo <= completionOf r)%Q /\ (completionOf r <= inject_Z hi)%Q) ->
  get (avgMap arr) id = Some z -> (lo <= z <= hi)%Z.
Proof.
  intros Hb. rewrite get_avgMap.
  destruct (rowsOf id arr) as [| r rs] eqn:E; [discriminate |].
  intros H. injection H as <-. unfold averageOfRows.
  rewrite <- (length_map completionOf (r :: rs)).
  apply mean_bounds; [discriminate |].
  apply Forall_forall. intros x Hx. apply in_map_iff in Hx.
  destruct Hx as [r' [<- Hr']]. apply Hb, (rowsOf_incl id). now rewrite E.
Qed.

Lemma Zsum_fold (xs : list Z) (a : Z) :
  fold_left Z.add xs a = (a + Zsum xs)%Z.
Proof.
  unfold Zsum. revert a. induction xs as [| x xs IH]; intros a; simpl.
  - lia.
  - rewrite (IH (a + x)%Z), (IH x). lia.
Qed.

Lemma Zsum_bounds (lo hi : Z) (xs : list Z) :
  Forall (fun x => (lo <= x <= hi)%Z) xs ->
  (Z.of_nat (List.length xs) * lo <= Zsum xs <=
   Z.of_nat (List.length xs) * hi)%Z.
Proof.
  induction 1 as [| x xs Hx _ IH].
  - unfold Zsum. simpl. lia.
  - unfold Zsum. cbn [fold_left List.length]. rewrite Zsum_fold. nia.
Qed.

(** The rounded mean of integers between [lo] and [hi]. *)
Lemma Zmean_bounds (lo hi : Z) (xs : list Z) :
  xs <> [] -> Forall (fun x => (lo <= x <= hi)%Z) xs ->
  (lo <= Math_round (inject_Z (Zsum xs) /
                     inject_Z (Z.of_nat (List.length xs))) <= hi)%Z.
Proof.
  intros Hne F. destruct (Zsum_bounds _ _ _ F) as [Sl Sh].
  assert (Hn : (0 < inject_Z (Z.of_nat (List.length xs)))%Q).
  { rewrite <- (Zlt_Qlt 0). destruct xs; [contradiction | simpl; lia]. }
  apply Math_round_bounds.
  - apply Qle_shift_div_l; [exact Hn |].
    rewrite <- inject_Z_mult, <- Zle_Qle. lia.
  - apply Qle_shift_div_r; [exact Hn |].
    rewrite <- inject_Z_mult, <- Zle_Qle. lia.
Qed.

Lemma get_or_avgMap_bounds (lo hi : Z) (arr : list ExcelRow.t) (id : N) :
  (lo <= 0 <= hi)%Z ->
  (forall r, In r arr ->
     (inject_Z lo <= completionOf r)%Q /\ (completionOf r <= inject_Z hi)%Q) ->
  (lo <= get_or (avgMap arr) id 0%Z <= hi)%Z.
Proof.
  intros H0 Hb. unfold get_or.
  destruct (get (avgMap arr) id) as [z |] eqn:E; [| exact H0].
  exact (avgMap_bounds lo hi arr id z Hb E).
Qed.

Lemma roundedAverage_bounds (lo hi : Z) (arr : list ExcelRow.t)
    (e : TotalCount) :
  (forall r, In r arr ->
     (inject_Z lo <= completionOf r)%Q /\ (completionOf r <= inject_Z hi)%Q) ->
  In e (values (totalsOf arr)) -> (lo <= roundedAverage e <= hi)%Z.
Proof.
  intros Hb He. unfold values in He. apply in_map_iff in He.
  destruct He as [[k e'] [<- Hin]]. simpl.
  apply (avgMap_bounds lo hi arr k); [exact Hb |].
  rewrite get_avgMap.
  pose proof (ordered_In_get _ _ _ (ordered_totalsOf arr) Hin) as G.
  rewrite get_totalsOf in G.
  destruct (rowsOf k arr) as [| r rs]; [discriminate |].
  injection G as <-. reflexivity.
Qed.

Lemma In_monthlyData (snapshots : list Snapshot.t) (m : MonthlyData.t) :
  In m (monthlyData snapshots) ->
  exists i s, In s snapshots /\ m = monthlyDatum i s.
Proof.
  unfold monthlyData. intros H. apply in_map_iff in H.
  destruct H as [[i s] [<- Hin]]. exists i, s. split; [| reflexivity].
  now apply in_combine_r in Hin.
Qed.

Lemma rowsAt_In (snapshots : list Snapshot.t) (i : nat) (r : ExcelRow.t) :
  In r (rowsAt snapshots i) ->
  exists s, In s snapshots /\ In r (Snapshot.rows s).
Proof.
  unfold rowsAt. intros H.
  destruct (Nat.ltb_spec i (List.length snapshots)) as [Hi | Hi].
  - exists (nth i snapshots noSnapshot). split; [now apply nth_In | exact H].
  - rewrite nth_overflow in H by assumption. contradiction.
Qed.

(** X6. If every completion of every snapshot lies between two integers
    [lo <= 0 <= hi] (0 and 100, say), so do the average of every learner
    record, the population average and the average of every period
    summary. *)
Theorem X6_averages_within_range (lo hi : Z) (snapshots : list Snapshot.t)
    (a : Analytics.t) :
  (lo <= 0 <= hi)%Z ->
  (forall s r, In s snapshots -> In r (Snapshot.rows s) ->
     (inject_Z lo <= completionOf r)%Q /\ (completionOf r <= inject_Z hi)%Q) ->
  computeAnalytics snapshots = Some a ->
  (forall l, In l (Analytics.learners a) ->
     (lo <= Learner.avgCompletion l <= hi)%Z) /\
  (lo <= Analytics.averageCompletion a <= hi)%Z /\
  (forall m, In m (Analytics.monthlyData a) ->
     (lo <= MonthlyData.avg m <= hi)%Z).
Proof.
  intros H0 Hb Ha.
  destruct (computeAnalytics_fields snapshots a Ha)
    as (_ & _ & _ & Hv & Hm & Hl).
  assert (Hrows : forall i r, In r (rowsAt snapshots i) ->
            (inject_Z lo <= completionOf r)%Q /\
            (completionOf r <= inject_Z hi)%Q).
  { intros i r Hr. apply rowsAt_In in Hr. destruct Hr as (s & Hs & Hr).
    now apply (Hb s). }
  assert (L : forall l, In l (Analytics.learners a) ->
            (lo <= Learner.avgCompletion l <= hi)%Z).
  { intros l Hin. rewrite Hl in Hin.
    destruct (learner_average _ l Hin) as [_ G].
    exact (avgMap_bounds lo hi _ _ _ (Hrows _) G). }
  split; [exact L | split].
  - rewrite Hv. unfold averageCompletion.
    destruct (Analytics.learners a) as [| l ls] eqn:E; [exact H0 |].
    change (Nat.ltb 0 (List.length (l :: ls))) with true. cbv iota.
    rewrite <- (length_map Learner.avgCompletion (l :: ls)).
    apply Zmean_bounds; [discriminate |].
    apply Forall_forall. intros z Hz. apply in_map_iff in Hz.
    destruct Hz as [x [<- Hx]]. now apply L.
  - intros m Hin. rewrite Hm in Hin. apply In_monthlyData in Hin.
    destruct Hin as (i & s & Hs & ->). unfold monthlyDatum.
    cbn [MonthlyData.avg].
    change (fold_left
              (fun perLearner r =>
                 upsert (ExcelRow.User_ID r) (mkTotalCount 0%Q 0%nat)
                   (accumulate (completionOf r)) perLearner)
              (Snapshot.rows s) empty)
      with (totalsOf (Snapshot.rows s)).
    destruct (map roundedAverage (values (totalsOf (Snapshot.rows s))))
      as [| z zs] eqn:E; [exact H0 |].
    change (Nat.ltb 0 (List.length (z :: zs))) with true. cbv iota.
    apply Zmean_bounds; [discriminate |].
    rewrite <- E. apply Forall_forall. intros x Hx. apply in_map_iff in Hx.
    destruct Hx as [e [<- He]].
    apply (roundedAverage_bounds lo hi (Snapshot.rows s)); [| exact He].
    intros r Hr. now apply (Hb s).
Qed.

Lemma sample_completions_in_range (s : Snapshot.t) (r : ExcelRow.t) :
  In s snapshotsAB -> In r (Snapshot.rows s) ->
  (inject_Z 0 <= completionOf r)%Q /\ (completionOf r <= inject_Z 100)%Q.
Proof.
  intros Hs Hr. simpl in Hs. destruct Hs as [<- | [<- | []]];
    simpl in Hr; destruct Hr as [<- | [<- | []]];
    split; unfold Qle; simpl; lia.
Defined.

Lemma X6_averages_within_range_witness :
  computeAnalytics snapshotsAB = Some (resultOf snapshotsAB) /\
  (0 <= Analytics.averageCompletion (resultOf snapshotsAB) <= 100)%Z.
Proof.
  assert (Ha : computeAnalytics snapshotsAB = Some (resultOf snapshotsAB))
    by (vm_compute; reflexivity).
  split; [exact Ha |].
  assert (H0 : (0 <= 0 <= 100)%Z) by lia.
  exact (proj1 (proj2 (X6_averages_within_range 0 100 snapshotsAB _ H0
                         sample_completions_in_range Ha))).
Defined.

(** X7. Under the same bounds, the previous and current averages carried
    by every learner of the improved and support lists, its overridden
    average and every known entry of its recent averages lie within the
    bounds. *)
Theorem X7_enriched_averages_within_range (lo hi : Z)
    (snapshots : list Snapshot.t) (a : Analytics.t) (l : Learner.t) :
  (lo <= 0 <= hi)%Z ->
  (forall s r, In s snapshots -> In r (Snapshot.rows s) ->
     (inject_Z lo <= completionOf r)%Q /\ (completionOf r <= inject_Z hi)%Q) ->
  computeAnalytics snapshots = Some a ->
  In l (Analytics.improvedList a) \/ In l (Analytics.supportNeeded a) ->
  (lo <= Learner.avgCompletion l <= hi)%Z /\
  (exists w1 w2,
     Learner.week1Avg l = Some w1 /\ Learner.week2Avg l = Some w2 /\
     (lo <= w1 <= hi)%Z /\ (lo <= w2 <= hi)%Z) /\
  (exists recent,
     Learner.recentAvgs l = Some recent /\
     forall z, In (Some z) recent -> (lo <= z <= hi)%Z).
Proof.
  intros H0 Hb Ha Hl.
  assert (Hrows : forall i r, In r (rowsAt snapshots i) ->
            (inject_Z lo <= completionOf r)%Q /\
            (completionOf r <= inject_Z hi)%Q).
  { intros i r Hr. apply rowsAt_In in Hr. destruct Hr as (s & Hs & Hr).
    now apply (Hb s). }
  assert (Hn : (2 <= List.length snapshots)%nat).
  { destruct (Nat.leb_spec 2 (List.length snapshots)) as [H | H];
      [assumption |].
    destruct (analytics_lists_short snapshots a Ha H) as (Hi & Hs & _).
    rewrite Hi, Hs in Hl. simpl in Hl. tauto. }
  destruct (analytics_lists snapshots a Ha Hn) as [Hi Hs].
  assert (E : l = enrichedFor snapshots (Analytics.learners a) (Learner.id l)).
  { destruct Hl as [H | H]; [rewrite Hi in H | rewrite Hs in H];
      now apply In_selected in H. }
  destruct (enrichedFor_weeks snapshots (Analytics.learners a) (Learner.id l))
    as (W1 & W2 & Wa).
  pose proof (enrichedFor_recentAvgs snapshots (Analytics.learners a)
                (Learner.id l)) as R.
  rewrite <- E in W1, W2, Wa, R.
  assert (B1 : (lo <= v1 snapshots (Learner.id l) <= hi)%Z)
    by (apply get_or_avgMap_bounds; [exact H0 | apply Hrows]).
  assert (B2 : (lo <= v2 snapshots (Learner.id l) <= hi)%Z)
    by (apply get_or_avgMap_bounds; [exact H0 | apply Hrows]).
  split; [now rewrite Wa | split].
  - exists (v1 snapshots (Learner.id l)), (v2 snapshots (Learner.id l)).
    tauto.
  - exists (recentAvgs snapshots (Learner.id l)). split; [exact R |].
    intros z Hz. unfold recentAvgs in Hz. apply in_map_iff in Hz.
    destruct Hz as [i [Hz _]]. rewrite nth_avgMaps in Hz.
    exact (avgMap_bounds lo hi _ _ _ (Hrows i) Hz).
Qed.

Lemma X7_enriched_averages_within_range_witness :
  computeAnalytics snapshotsAB = Some (resultOf snapshotsAB) /\
  In (firstOf (Analytics.improvedList (resultOf snapshotsAB)))
     (Analytics.improvedList (resultOf snapshotsAB)) /\
  (0 <= Learner.avgCompletion
          (firstOf (Analytics.improvedList (resultOf snapshotsAB))) <= 100)%Z.
Proof.
  assert (Ha : computeAnalytics snapshotsAB = Some (resultOf snapshotsAB))
    by (vm_compute; reflexivity).
  assert (Hl : In (firstOf (Analytics.improvedList (resultOf snapshotsAB)))
                  (Analytics.improvedList (resultOf snapshotsAB)))
    by (vm_compute; left; reflexivity).
  split; [exact Ha | split; [exact Hl |]].
  assert (H0 : (0 <= 0 <= 100)%Z) by lia.
  exact (proj1 (X7_enriched_averages_within_range 0 100 snapshotsAB _ _ H0
                  sample_completions_in_range Ha (or_introl Hl))).
Defined.

(** ** The improved and support lists, learner by learner *)

Lemma ids_enriched (snapshots : list Snapshot.t) (ls : list Learner.t)
    (idl : list N) :
  ids (map (enrichedFor snapshots ls) idl) = idl.
Proof.
  unfold ids. rewrite map_map. rewrite <- (map_id idl) at 2.
  apply map_ext. intros id. apply enrichedFor_id.
Qed.

Lemma NoDup_ids_filter (p : Learner.t -> bool) (l : list Learner.t) :
  NoDup (ids l) -> NoDup (ids (filter p l)).
Proof.
  unfold ids. induction l as [| x l IH]; simpl; intros H; [constructor |].
  inversion H as [| ? ? Hx Hl]; subst.
  destruct (p x); simpl; [| now apply IH].
  constructor; [| now apply IH].
  intros Hin. apply Hx. apply in_map_iff in Hin.
  destruct Hin as [y [Hy Hin]]. apply filter_In in Hin.
  apply in_map_iff. exists y. tauto.
Qed.

(** X8. No learner id occurs twice in the improved list, in the support
    list before the exclusion or in the support list after it, and no id
    is in both the improved list and a support list. *)
Theorem X8_lists_disjoint_without_duplicates (snapshots : list Snapshot.t)
    (a : Analytics.t) :
  computeAnalytics snapshots = Some a ->
  NoDup (ids (Analytics.improvedList a)) /\
  NoDup (ids (Analytics.supportNeeded a)) /\
  NoDup (ids (Analytics.supportList a)) /\
  forall id, In id (ids (Analytics.improvedList a)) ->
    ~ In id (ids (Analytics.supportNeeded a)) /\
    ~ In id (ids (Analytics.supportList a)).
Proof.
  intros Ha.
  destruct (analytics_finished snapshots a Ha) as (_ & _ & Hx).
  destruct (Nat.leb_spec 2 (List.length snapshots)) as [Hn | Hn].
  - destruct (analytics_lists snapshots a Ha Hn) as [Hi Hs].
    assert (Ni : NoDup (ids (Analytics.improvedList a))).
    { rewrite Hi, ids_enriched. apply NoDup_filter, NoDup_Set_of. }
    assert (Ns : NoDup (ids (Analytics.supportNeeded a))).
    { rewrite Hs, ids_enriched. apply NoDup_filter, NoDup_Set_of. }
    split; [exact Ni | split; [exact Ns | split]].
    + rewrite Hx. now apply NoDup_ids_filter.
    + intros id Hid.
      destruct (comparison_ids snapshots a id Hn Ha) as [I S].
      rewrite (supportList_ids snapshots a id Ha), S.
      apply I in Hid. lia.
  - destruct (analytics_lists_short snapshots a Ha Hn) as (Hi & Hs & Hl).
    rewrite Hi, Hs, Hl. simpl.
    repeat split; try constructor; contradiction.
Qed.

Lemma X8_lists_disjoint_without_duplicates_witness :
  computeAnalytics snapshotsOAB = Some (resultOf snapshotsOAB) /\
  NoDup (ids (Analytics.supportNeeded (resultOf snapshotsOAB))).
Proof.
  assert (Ha : computeAnalytics snapshotsOAB = Some (resultOf snapshotsOAB))
    by (vm_compute; reflexivity).
  split; [exact Ha |].
  exact (proj1 (proj2 (X8_lists_disjoint_without_duplicates snapshotsOAB _ Ha))).
Defined.

(** The comparison fields of the learners of the two lists. *)
Lemma enriched_weeks (snapshots : list Snapshot.t) (a : Analytics.t)
    (l : Learner.t) :
  computeAnalytics snapshots = Some a ->
  In l (Analytics.improvedList a) \/ In l (Analytics.supportNeeded a) ->
  (2 <= List.length snapshots)%nat /\
  l = enrichedFor snapshots (Analytics.learners a) (Learner.id l) /\
  In (Learner.id l) (allIds snapshots) /\
  Learner.week1Avg l = Some (v1 snapshots (Learner.id l)) /\
  Learner.week2Avg l = Some (v2 snapshots (Learner.id l)) /\
  Learner.avgCompletion l = v2 snapshots (Learner.id l) /\
  (In l (Analytics.improvedList a) ->
   (v1 snapshots (Learner.id l) < v2 snapshots (Learner.id l))%Z) /\
  (In l (Analytics.supportNeeded a) ->
   v1 snapshots (Learner.id l) = v2 snapshots (Learner.id l)).
Proof.
  intros Ha Hl.
  assert (Hn : (2 <= List.length snapshots)%nat).
  { destruct (Nat.leb_spec 2 (List.length snapshots)) as [H | H];
      [assumption |].
    destruct (analytics_lists_short snapshots a Ha H) as (Hi & Hs & _).
    rewrite Hi, Hs in Hl. simpl in Hl. tauto. }
  destruct (analytics_lists snapshots a Ha Hn) as [Hi Hs].
  assert (E : l = enrichedFor snapshots (Analytics.learners a) (Learner.id l) /\
              In (Learner.id l) (allIds snapshots)).
  { destruct Hl as [H | H]; [rewrite Hi in H | rewrite Hs in H];
      apply In_selected in H; tauto. }
  destruct E as [E Hid].
  destruct (enrichedFor_weeks snapshots (Analytics.learners a) (Learner.id l))
    as (W1 & W2 & Wa).
  rewrite <- E in W1, W2, Wa.
  destruct (comparison_ids snapshots a (Learner.id l) Hn Ha) as [I S].
  repeat split; try assumption.
  - intros H. apply In_ids in H. now apply I in H.
  - intros H. apply In_ids in H. now apply S in H.
Qed.

(** X9. On screen, the delta of a learner of the improved list is its
    current average minus its previous one, is positive and is written
    with a leading plus sign; the delta of a learner of the support list
    is 0, written [0%]. *)
Theorem X9_screen_delta (snapshots : list Snapshot.t) (a : Analytics.t)
    (l : Learner.t) :
  computeAnalytics snapshots = Some a ->
  (In l (Analytics.improvedList a) ->
   exists d, ListModal.screenDelta l = Some d /\ (0 < d)%Z /\
     d = (v2 snapshots (Learner.id l) - v1 snapshots (Learner.id l))%Z /\
     ListModal.screenDeltaText l = ("+" ++ String_of_Z d ++ "%")%string) /\
  (In l (Analytics.supportNeeded a) \/ In l (Analytics.supportList a) ->
   ListModal.screenDelta l = Some 0%Z /\
   ListModal.screenDeltaText l = "0%"%string).
Proof.
  intros Ha. split.
  - intros Hl.
    destruct (enriched_weeks snapshots a l Ha (or_introl Hl))
      as (_ & _ & _ & W1 & W2 & _ & Hlt & _).
    specialize (Hlt Hl).
    exists (v2 snapshots (Learner.id l) - v1 snapshots (Learner.id l))%Z.
    unfold ListModal.screenDeltaText, ListModal.screenDelta.
    rewrite W1, W2.
    assert (P : Z.ltb 0 (v2 snapshots (Learner.id l) -
                         v1 snapshots (Learner.id l)) = true)
      by (apply Z.ltb_lt; lia).
    rewrite P. repeat split; [lia].
  - intros Hl.
    assert (Hl' : In l (Analytics.supportNeeded a)).
    { destruct Hl as [H | H]; [exact H |].
      destruct (analytics_finished snapshots a Ha) as (_ & _ & Hx).
      rewrite Hx in H. now apply filter_In in H. }
    destruct (enriched_weeks snapshots a l Ha (or_intror Hl'))
      as (_ & _ & _ & W1 & W2 & _ & _ & Heq).
    specialize (Heq Hl').
    unfold ListModal.screenDeltaText, ListModal.screenDelta.
    rewrite W1, W2, Heq, Z.sub_diag. split; reflexivity.
Qed.

Lemma X9_screen_delta_witness :
  computeAnalytics snapshotsAB = Some (resultOf snapshotsAB) /\
  In (firstOf (Analytics.improvedList (resultOf snapshotsAB)))
     (Analytics.improvedList (resultOf snapshotsAB)) /\
  ListModal.screenDeltaText
    (firstOf (Analytics.improvedList (resultOf snapshotsAB))) = "+20%"%string /\
  exists d,
    ListModal.screenDelta
      (firstOf (Analytics.improvedList (resultOf snapshotsAB))) = Some d /\
    (0 < d)%Z /\
    d = (v2 snapshotsAB
           (Learner.id (firstOf (Analytics.improvedList (resultOf snapshotsAB)))) -
         v1 snapshotsAB
           (Learner.id (firstOf (Analytics.improvedList (resultOf snapshotsAB)))))%Z /\
    ListModal.screenDeltaText
      (firstOf (Analytics.improvedList (resultOf snapshotsAB))) =
      ("+" ++ String_of_Z d ++ "%")%string.
Proof.
  assert (Ha : computeAnalytics snapshotsAB = Some (resultOf snapshotsAB))
    by (vm_compute; reflexivity).
  assert (Hl : In (firstOf (Analytics.improvedList (resultOf snapshotsAB)))
                  (Analytics.improvedList (resultOf snapshotsAB)))
    by (vm_compute; left; reflexivity).
  split; [exact Ha | split; [exact Hl | split; [reflexivity |]]].
  exact (proj1 (X9_screen_delta snapshotsAB _ _ Ha) Hl).
Defined.

Lemma find_by_id_absent (ls : list Learner.t) (id : N) :
  ~ In id (ids ls) -> find (fun l => N.eqb (Learner.id l) id) ls = None.
Proof.
  intros H. destruct (find _ ls) as [e |] eqn:E; [| reflexivity].
  exfalso. apply H. apply find_by_id in E. destruct E as [Hin <-].
  now apply In_ids.
Qed.

(** X10. A learner of the improved or support list that has a record in
    the last snapshot is that record with the comparison fields added:
    identity, contact, courses, counters and level are the record's, and
    the overriding of the average by the current average leaves the
    average as it was. *)
Theorem X10_enriched_keeps_record (snapshots : list Snapshot.t)
    (a : Analytics.t) (l : Learner.t) :
  computeAnalytics snapshots = Some a ->
  In l (Analytics.improvedList a) \/ In l (Analytics.supportNeeded a) ->
  In (Learner.id l) (ids (Analytics.learners a)) ->
  exists e,
    In e (Analytics.learners a) /\
    l = enriched e (v1 snapshots (Learner.id l)) (v2 snapshots (Learner.id l))
          (recentAvgs snapshots (Learner.id l)) /\
    Learner.id l = Learner.id e /\ Learner.name l = Learner.name e /\
    Learner.courses l = Learner.courses e /\
    Learner.level l = Learner.level e /\
    Learner.avgCompletion l = Learner.avgCompletion e.
Proof.
  intros Ha Hl Hid.
  destruct (enriched_weeks snapshots a l Ha Hl)
    as (Hn & E & _ & _ & _ & Wa & _).
  pose proof Hid as Hfind. apply find_by_id_present in Hfind.
  destruct Hfind as [e He].
  pose proof He as Hfound. apply find_by_id in Hfound.
  destruct Hfound as [Hin Heq].
  exists e. split; [exact Hin |].
  assert (E' : l = enriched e (v1 snapshots (Learner.id l))
                     (v2 snapshots (Learner.id l))
                     (recentAvgs snapshots (Learner.id l))).
  { rewrite E at 1. unfold enrichedFor. now rewrite He. }
  split; [exact E' |].
  assert (Hv : v2 snapshots (Learner.id l) = Learner.avgCompletion e).
  { destruct (computeAnalytics_fields snapshots a Ha) as (_ & _ & _ & _ & _ & Hls).
    rewrite Hls in Hin. destruct (learner_average _ e Hin) as [_ G].
    unfold v2, a2, snap2, get_or. rewrite <- Heq, G. reflexivity. }
  rewrite Wa, Hv, E'. simpl. repeat split.
Qed.

Lemma X10_enriched_keeps_record_witness :
  computeAnalytics snapshotsAB = Some (resultOf snapshotsAB) /\
  In (firstOf (Analytics.improvedList (resultOf snapshotsAB)))
     (Analytics.improvedList (resultOf snapshotsAB)) /\
  In (Learner.id (firstOf (Analytics.improvedList (resultOf snapshotsAB))))
     (ids (Analytics.learners (resultOf snapshotsAB))) /\
  exists e,
    In e (Analytics.learners (resultOf snapshotsAB)) /\
    Learner.avgCompletion
      (firstOf (Analytics.improvedList (resultOf snapshotsAB))) =
    Learner.avgCompletion e.
Proof.
  assert (Ha : computeAnalytics snapshotsAB = Some (resultOf snapshotsAB))
    by (vm_compute; reflexivity).
  assert (Hl : In (firstOf (Analytics.improvedList (resultOf snapshotsAB)))
                  (Analytics.improvedList (resultOf snapshotsAB)))
    by (vm_compute; left; reflexivity).
  assert (Hid : In (Learner.id
                      (firstOf (Analytics.improvedList (resultOf snapshotsAB))))
                   (ids (Analytics.learners (resultOf snapshotsAB))))
    by (vm_compute; left; reflexivity).
  split; [exact Ha | split; [exact Hl | split; [exact Hid |]]].
  destruct (X10_enriched_keeps_record snapshotsAB _ _ Ha (or_introl Hl) Hid)
    as (e & Hin & _ & _ & _ & _ & _ & Havg).
  exists e. split; [exact Hin | exact Havg].
Defined.

(** ** Rows looked up across the snapshots *)

Lemma findRowNewestFirst_Some (newestFirst : list Snapshot.t) (id : N)
    (r : ExcelRow.t) :
  findRowNewestFirst newestFirst id = Some r ->
  ExcelRow.User_ID r = id /\
  exists s, In s newestFirst /\ In r (Snapshot.rows s).
Proof.
  induction newestFirst as [| s older IH]; simpl; [discriminate |].
  destruct (find (hasId id) (Snapshot.rows s)) as [x |] eqn:E.
  - intros H. injection H as ->. apply find_some in E.
    destruct E as [Hin Hid]. apply N.eqb_eq in Hid.
    split; [exact Hid |]. exists s. split; [now left | exact Hin].
  - intros H. destruct (IH H) as [Hid (s' & Hs' & Hr)].
    split; [exact Hid |]. exists s'. split; [now right | exact Hr].
Qed.

Lemma find_hasId_None (id : N) (rows : list ExcelRow.t) :
  find (hasId id) rows = None <-> ~ In id (map ExcelRow.User_ID rows).
Proof.
  split.
  - intros H Hin. apply in_map_iff in Hin. destruct Hin as [r [Hr Hin]].
    pose proof (find_none _ _ H r Hin) as Hn. unfold hasId in Hn.
    rewrite Hr, N.eqb_refl in Hn. discriminate.
  - intros H. destruct (find (hasId id) rows) as [r |] eqn:E;
      [| reflexivity].
    exfalso. apply H. apply find_some in E. destruct E as [Hin Hid].
    apply N.eqb_eq in Hid. apply in_map_iff. now exists r.
Qed.

Lemma findRowNewestFirst_None (newestFirst : list Snapshot.t) (id : N) :
  findRowNewestFirst newestFirst id = None <->
  forall s, In s newestFirst -> ~ In id (idsOf s).
Proof.
  induction newestFirst as [| s older IH]; simpl.
  - split; [intros _ s [] | reflexivity].
  - destruct (find (hasId id) (Snapshot.rows s)) as [x |] eqn:E.
    + split; [discriminate |]. intros H. exfalso.
      apply (H s (or_introl eq_refl)). unfold idsOf.
      apply find_some in E. destruct E as [Hin Hid].
      apply N.eqb_eq in Hid. apply in_map_iff. now exists x.
    + apply find_hasId_None in E. rewrite IH. split.
      * intros H s' [<- | Hs']; [exact E | now apply H].
      * intros H s' Hs'. apply H. now right.
Qed.

Lemma findRowNewestFirst_skip (newer : list Snapshot.t) (rest : list Snapshot.t)
    (id : N) :
  (forall s, In s newer -> ~ In id (idsOf s)) ->
  findRowNewestFirst (newer ++ rest) id = findRowNewestFirst rest id.
Proof.
  induction newer as [| s newer IH]; intros H; simpl; [reflexivity |].
  assert (E : find (hasId id) (Snapshot.rows s) = None).
  { apply find_hasId_None. apply (H s). now left. }
  rewrite E. apply IH. intros s' Hs'. apply H. now right.
Qed.

(** X11. The row found across the snapshots for an id is the first row
    with that id in the newest snapshot that has one; there is none
    exactly when no snapshot has a row with that id. *)
Theorem X11_findRow_newest_snapshot (older newer : list Snapshot.t)
    (s : Snapshot.t) (id : N) :
  (forall s', In s' newer -> ~ In id (idsOf s')) ->
  In id (idsOf s) ->
  (exists r, findRowAcrossSnapshots (older ++ s :: newer) id = Some r /\
             find (hasId id) (Snapshot.rows s) = Some r /\
             ExcelRow.User_ID r = id) /\
  (forall snapshots,
     findRowAcrossSnapshots snapshots id = None <->
     forall s', In s' snapshots -> ~ In id (idsOf s')).
Proof.
  intros Hnew Hs. split.
  - unfold findRowAcrossSnapshots.
    rewrite rev_app_distr. simpl. rewrite <- app_assoc. simpl.
    rewrite findRowNewestFirst_skip
      by (intros s' Hs'; apply Hnew; now apply in_rev).
    simpl. destruct (find (hasId id) (Snapshot.rows s)) as [r |] eqn:E.
    + exists r. repeat split. apply find_some in E.
      destruct E as [_ E]. now apply N.eqb_eq in E.
    + apply find_hasId_None in E. contradiction.
  - intros snapshots. unfold findRowAcrossSnapshots.
    rewrite findRowNewestFirst_None. split; intros H s' Hs'; apply H.
    + now apply -> in_rev.
    + now apply <- in_rev in Hs'.
Qed.

Lemma X11_findRow_newest_snapshot_witness :
  In 1%N (idsOf snapshotA) /\
  exists r,
    findRowAcrossSnapshots ([snapshotOld] ++ snapshotA :: [Samples.snapshotGone])
      1%N = Some r /\
    find (hasId 1%N) (Snapshot.rows snapshotA) = Some r /\
    ExcelRow.User_ID r = 1%N.
Proof.
  assert (Hs : In 1%N (idsOf snapshotA)) by (vm_compute; tauto).
  assert (Hn : forall s', In s' [Samples.snapshotGone] -> ~ In 1%N (idsOf s')).
  { intros s' [<- | []]. vm_compute. intros [H | []]. discriminate. }
  split; [exact Hs |].
  exact (proj1 (X11_findRow_newest_snapshot [snapshotOld]
                  [Samples.snapshotGone] snapshotA 1%N Hn Hs)).
Defined.

(** ** Learners absent from the last snapshot *)

Lemma filter_hasId_nil (id : N) (rows : list ExcelRow.t) :
  ~ In id (map ExcelRow.User_ID rows) -> filter (hasId id) rows = [].
Proof.
  intros H. induction rows as [| r rows IH]; [reflexivity |].
  simpl in *. destruct (hasId id r) eqn:E.
  - exfalso. apply H. left. now apply N.eqb_eq in E.
  - apply IH. tauto.
Qed.

Lemma Qle_bool_100_1 (c : Q) : Qle_bool 100 c = true -> Qle_bool 1 c = true.
Proof.
  intros H. apply Qle_bool_iff in H. apply Qle_bool_iff. lra.
Qed.

(** The three filters of the fallback learner split its courses. *)
Lemma fallback_counts (courses : list Course.t) :
  (List.length (filter (fun c => Qle_bool 100 (Course.completion c)) courses) +
   List.length (filter (fun c => Qle_bool 1 (Course.completion c) &&
                                 Qltb (Course.completion c) 100) courses) +
   List.length (filter (fun c => Qltb (Course.completion c) 1) courses)
   = List.length courses)%nat.
Proof.
  induction courses as [| c cs IH]; [reflexivity |].
  simpl. unfold Qltb.
  destruct (Qle_bool 100 (Course.completion c)) eqn:E1.
  - rewrite (Qle_bool_100_1 _ E1). simpl. unfold Qltb in IH. lia.
  - destruct (Qle_bool 1 (Course.completion c)); simpl;
      unfold Qltb in IH; lia.
Qed.

(** X12. A learner of the improved or support list without a record in
    the last snapshot has current average 0 and an empty level; its
    courses are its rows of the previous snapshot, its three counters add
    up to their number, and its name, email and district come from a row
    carrying its id (the id is never shown in place of the name). *)
Theorem X12_learner_absent_from_last (snapshots : list Snapshot.t)
    (a : Analytics.t) (l : Learner.t) :
  computeAnalytics snapshots = Some a ->
  In l (Analytics.improvedList a) \/ In l (Analytics.supportNeeded a) ->
  ~ In (Learner.id l) (ids (Analytics.learners a)) ->
  Learner.avgCompletion l = 0%Z /\
  Learner.week2Avg l = Some 0%Z /\
  Learner.level l = ""%string /\
  Learner.courses l =
    map courseOfRow (rowsOf (Learner.id l) (snap1 snapshots)) /\
  (Learner.completed l + Learner.inProgress l + Learner.notStarted l
   = List.length (Learner.courses l))%nat /\
  exists r,
    findRowAcrossSnapshots snapshots (Learner.id l) = Some r /\
    ExcelRow.User_ID r = Learner.id l /\
    Learner.name l =
      (ExcelRow.User_First_Name r ++ " " ++ ExcelRow.User_Last_Name r)%string /\
    Learner.email l = ExcelRow.User_Email r /\
    Learner.district l = ExcelRow.District r.
Proof.
  intros Ha Hl Hid.
  destruct (enriched_weeks snapshots a l Ha Hl)
    as (Hn & E & Hall & _ & W2 & Wa & _).
  destruct (computeAnalytics_fields snapshots a Ha)
    as (_ & _ & _ & _ & _ & Hls).
  assert (Hrows : ~ In (Learner.id l)
                      (map ExcelRow.User_ID (snap2 snapshots))).
  { intros H. apply Hid. rewrite Hls.
    now apply (learners_ids_sorted _). }
  assert (Hv : v2 snapshots (Learner.id l) = 0%Z).
  { apply get_or_absent. unfold a2. now rewrite In_keys_avgMap. }
  assert (Hr : exists r, findRowAcrossSnapshots snapshots (Learner.id l)
                         = Some r).
  { destruct (findRowAcrossSnapshots snapshots (Learner.id l)) as [r |] eqn:F;
      [now exists r | exfalso].
    unfold findRowAcrossSnapshots in F.
    apply In_allIds in Hall. destruct Hall as (s & Hs & Hin).
    apply (proj1 (findRowNewestFirst_None _ _) F s); [| exact Hin].
    now apply -> in_rev. }
  destruct Hr as [r Hr].
  assert (E' : l = base snapshots (Learner.id l) (v1 snapshots (Learner.id l))
                     0%Z (recentAvgs snapshots (Learner.id l))).
  { rewrite E at 1. unfold enrichedFor.
    now rewrite (find_by_id_absent _ _ Hid), Hv. }
  rewrite Wa, W2, Hv.
  split; [reflexivity | split; [reflexivity |]].
  rewrite E'. unfold base. cbn [Learner.level Learner.courses
    Learner.completed Learner.inProgress Learner.notStarted Learner.name
    Learner.email Learner.district Learner.id].
  rewrite (filter_hasId_nil _ _ Hrows), Hr.
  split; [reflexivity | split; [reflexivity | split]].
  - apply fallback_counts.
  - exists r. split; [reflexivity |].
    unfold findRowAcrossSnapshots in Hr.
    apply findRowNewestFirst_Some in Hr. destruct Hr as [Hu _].
    repeat split. exact Hu.
Qed.

Lemma X12_learner_absent_from_last_witness :
  computeAnalytics Samples.snapshotsIG = Some (resultOf Samples.snapshotsIG) /\
  In Samples.learnerIvy (Analytics.supportNeeded (resultOf Samples.snapshotsIG)) /\
  ~ In (Learner.id Samples.learnerIvy)
       (ids (Analytics.learners (resultOf Samples.snapshotsIG))) /\
  Learner.name Samples.learnerIvy = "Ivy Doe"%string /\
  Learner.avgCompletion Samples.learnerIvy = 0%Z.
Proof.
  assert (Ha : computeAnalytics Samples.snapshotsIG =
               Some (resultOf Samples.snapshotsIG))
    by (vm_compute; reflexivity).
  assert (Hl : In Samples.learnerIvy
                  (Analytics.supportNeeded (resultOf Samples.snapshotsIG)))
    by (vm_compute; right; left; reflexivity).
  assert (Hid : ~ In (Learner.id Samples.learnerIvy)
                     (ids (Analytics.learners (resultOf Samples.snapshotsIG))))
    by (vm_compute; intros [H | []]; discriminate).
  split; [exact Ha | split; [exact Hl | split; [exact Hid |]]].
  split; [reflexivity |].
  exact (proj1 (X12_learner_absent_from_last Samples.snapshotsIG _ _ Ha
                  (or_intror Hl) Hid)).
Defined.

(** ** The finished and failed lists as filters of the learner records *)

Lemma Set_of_fold_NoDup (xs s : list N) :
  NoDup (s ++ xs) -> fold_left Set_add xs s = s ++ xs.
Proof.
  revert s. induction xs as [| x xs IH]; intros s H; simpl.
  - now rewrite app_nil_r.
  - assert (Hx : Set_has s x = false).
    { destruct (Set_has s x) eqn:E; [| reflexivity].
      apply Set_has_In in E. apply NoDup_remove_2 in H.
      exfalso. apply H. apply in_or_app. now left. }
    unfold Set_add at 2. rewrite Hx.
    rewrite IH; rewrite <- app_assoc; simpl; [reflexivity | exact H].
Qed.

Lemma Set_of_NoDup (xs : list N) : NoDup xs -> Set_of xs = xs.
Proof. intros H. unfold Set_of. now rewrite Set_of_fold_NoDup. Qed.

Lemma find_self (ls : list Learner.t) (l : Learner.t) :
  NoDup (ids ls) -> In l ls ->
  find (fun x => N.eqb (Learner.id x) (Learner.id l)) ls = Some l.
Proof.
  unfold ids. induction ls as [| x ls IH]; simpl; intros Hnd Hin;
    [contradiction |].
  inversion Hnd as [| ? ? Hx Hls]; subst.
  destruct Hin as [-> | Hin].
  - now rewrite N.eqb_refl.
  - destruct (N.eqb_spec (Learner.id x) (Learner.id l)) as [Heq | Hne].
    + exfalso. apply Hx. rewrite Heq. now apply in_map.
    + now apply IH.
Qed.

Lemma finished_filter (maps : list (JsObject.t Z)) (ls ls0 : list Learner.t) :
  NoDup (ids ls) -> incl ls0 ls ->
  flat_map (finishedFor maps ls) (ids ls0) =
  filter (fun l => Nat.leb 2 (count100 maps (Learner.id l))) ls0.
Proof.
  intros Hnd. induction ls0 as [| l ls0 IH]; intros Hincl; [reflexivity |].
  cbn [ids map flat_map filter].
  change (map Learner.id ls0) with (ids ls0).
  rewrite IH by (intros x Hx; apply Hincl; now right).
  unfold finishedFor at 1.
  rewrite (find_self ls l Hnd) by (apply Hincl; now left).
  now destruct (Nat.leb 2 (count100 maps (Learner.id l))).
Qed.

(** X13. The finished list is the list of learner records filtered, in
    order, by the test that at least two snapshots give the learner an
    average of 100 or more; so it is a sublist of the records, free of
    duplicate ids, and the consistent completers are the same list. *)
Theorem X13_finished_is_filter (snapshots : list Snapshot.t) (a : Analytics.t) :
  computeAnalytics snapshots = Some a ->
  Analytics.finishedStudents a =
    filter (fun l => Nat.leb 2 (snapshotsAt100 snapshots (Learner.id l)))
           (Analytics.learners a) /\
  Analytics.consistentCompleters a = Analytics.finishedStudents a /\
  sublist (Analytics.finishedStudents a) (Analytics.learners a) /\
  NoDup (ids (Analytics.finishedStudents a)).
Proof.
  intros Ha.
  destruct (analytics_finished snapshots a Ha) as (Hf & Hc & _).
  destruct (computeAnalytics_fields snapshots a Ha)
    as (_ & _ & _ & _ & _ & Hls).
  assert (Hnd : NoDup (ids (Analytics.learners a))).
  { rewrite Hls. apply (learners_ids_sorted _). }
  assert (E : Analytics.finishedStudents a =
              filter (fun l => Nat.leb 2 (snapshotsAt100 snapshots (Learner.id l)))
                     (Analytics.learners a)).
  { rewrite Hf, (Set_of_NoDup _ Hnd).
    rewrite (finished_filter _ _ _ Hnd (incl_refl _)).
    apply filter_ext. intros l. now rewrite count100_snapshotsAt100. }
  split; [exact E | split; [exact Hc |]].
  rewrite E. split; [apply sublist_filter | now apply NoDup_ids_filter].
Qed.

Lemma X13_finished_is_filter_witness :
  computeAnalytics snapshotsAB = Some (resultOf snapshotsAB) /\
  ids (Analytics.finishedStudents (resultOf snapshotsAB)) = [2%N] /\
  Analytics.finishedStudents (resultOf snapshotsAB) =
    filter (fun l => Nat.leb 2 (snapshotsAt100 snapshotsAB (Learner.id l)))
           (Analytics.learners (resultOf snapshotsAB)).
Proof.
  assert (Ha : computeAnalytics snapshotsAB = Some (resultOf snapshotsAB))
    by (vm_compute; reflexivity).
  split; [exact Ha | split; [reflexivity |]].
  exact (proj1 (X13_finished_is_filter snapshotsAB _ Ha)).
Defined.

Lemma inBucket_positive (b : Bucket) (courses : list Course.t) :
  (0 < inBucket b courses)%nat ->
  exists c, In c courses /\ bucketOf (Course.completion c) = b.
Proof.
  unfold inBucket. intros H.
  destruct (filter _ courses) as [| c cs] eqn:E; [simpl in H; lia |].
  assert (Hc : In c (filter
                       (fun c => Bucket_eqb (bucketOf (Course.completion c)) b)
                       courses)) by (rewrite E; now left).
  apply filter_In in Hc. destruct Hc as [Hin Hb]. exists c.
  split; [exact Hin |].
  destruct (bucketOf (Course.completion c)), b; simpl in Hb;
    congruence.
Qed.

(** X14. The failed list is a sublist of the learner records; each of its
    learners has an average below 25 and at least one course in progress,
    that is with a completion from 1 up to 100 excluded.  A record with
    no such course is never in the list, whatever its average. *)
Theorem X14_failed_students (snapshots : list Snapshot.t) (a : Analytics.t) :
  computeAnalytics snapshots = Some a ->
  sublist (Analytics.failedStudents a) (Analytics.learners a) /\
  (forall l, In l (Analytics.failedStudents a) ->
     (Learner.avgCompletion l < 25)%Z /\
     exists c, In c (Learner.courses l) /\
               (1 <= Course.completion c)%Q /\ (Course.completion c < 100)%Q) /\
  (forall l, In l (Analytics.learners a) ->
     inBucket InProgress (Learner.courses l) = 0%nat ->
     ~ In l (Analytics.failedStudents a)).
Proof.
  intros Ha.
  destruct (computeAnalytics_fields snapshots a Ha)
    as (_ & _ & Hf & _ & _ & Hls).
  assert (Hc : forall l, In l (Analytics.learners a) ->
            Learner.inProgress l = inBucket InProgress (Learner.courses l)).
  { intros l Hl. rewrite Hls in Hl. apply In_learners in Hl.
    destruct Hl as [lp [-> ((_ & Hi & _) & _)]]. exact Hi. }
  rewrite Hf. unfold failedStudents. split; [apply sublist_filter | split].
  - intros l Hl. apply filter_In in Hl. destruct Hl as [Hin Hp].
    apply andb_true_iff in Hp. destruct Hp as [Hlt Hpos].
    apply Z.ltb_lt in Hlt. apply Nat.ltb_lt in Hpos.
    split; [exact Hlt |]. rewrite (Hc l Hin) in Hpos.
    apply inBucket_positive in Hpos. destruct Hpos as [c [Hcin Hb]].
    exists c. split; [exact Hcin |]. now apply bucketOf_InProgress.
  - intros l Hin H0 Hl. apply filter_In in Hl. destruct Hl as [_ Hp].
    apply andb_true_iff in Hp. destruct Hp as [_ Hpos].
    apply Nat.ltb_lt in Hpos. rewrite (Hc l Hin), H0 in Hpos. lia.
Qed.

Lemma X14_failed_students_witness :
  computeAnalytics Samples.snapshotsFay = Some (resultOf Samples.snapshotsFay) /\
  In (firstOf (Analytics.failedStudents (resultOf Samples.snapshotsFay)))
     (Analytics.failedStudents (resultOf Samples.snapshotsFay)) /\
  (Learner.avgCompletion
     (firstOf (Analytics.failedStudents (resultOf Samples.snapshotsFay))) < 25)%Z /\
  exists c,
    In c (Learner.courses
            (firstOf (Analytics.failedStudents (resultOf Samples.snapshotsFay)))) /\
    (1 <= Course.completion c)%Q /\ (Course.completion c < 100)%Q.
Proof.
  assert (Ha : computeAnalytics Samples.snapshotsFay =
               Some (resultOf Samples.snapshotsFay))
    by (vm_compute; reflexivity).
  assert (Hl : In (firstOf (Analytics.failedStudents
                              (resultOf Samples.snapshotsFay)))
                  (Analytics.failedStudents (resultOf Samples.snapshotsFay)))
    by (vm_compute; left; reflexivity).
  split; [exact Ha | split; [exact Hl |]].
  exact (proj1 (proj2 (X14_failed_students _ _ Ha)) _ Hl).
Defined.

(** ** The period summaries *)

Lemma ordered_ext {A} (m1 m2 : JsObject.t A) :
  ordered m1 -> ordered m2 -> (forall k, get m1 k = get m2 k) -> m1 = m2.
Proof.
  revert m2. induction m1 as [| [k1 v1] m1 IH]; intros [| [k2 v2] m2] O1 O2 H.
  - reflexivity.
  - specialize (H k2). simpl in H. rewrite N.eqb_refl in H. discriminate.
  - specialize (H k1). simpl in H. rewrite N.eqb_refl in H. discriminate.
  - destruct O1 as [B1 O1]. destruct O2 as [B2 O2].
    assert (Hk : k1 = k2).
    { destruct (N.lt_trichotomy k1 k2) as [Hlt | [Heq | Hgt]];
        [exfalso | exact Heq | exfalso].
      - specialize (H k1). simpl in H. rewrite N.eqb_refl in H.
        assert (E : N.eqb k1 k2 = false) by (apply N.eqb_neq; lia).
        rewrite E, get_below in H; [discriminate |].
        eapply Forall_impl; [| exact B2]. intros x Hx. simpl in Hx. lia.
      - specialize (H k2). simpl in H. rewrite N.eqb_refl in H.
        assert (E : N.eqb k2 k1 = false) by (apply N.eqb_neq; lia).
        rewrite E, get_below in H; [discriminate |].
        eapply Forall_impl; [| exact B1]. intros x Hx. simpl in Hx. lia. }
    subst k2.
    assert (Hv : v1 = v2).
    { specialize (H k1). simpl in H. rewrite N.eqb_refl in H. congruence. }
    subst v2. f_equal. apply IH; [exact O1 | exact O2 |].
    intros k. destruct (N.eqb_spec k k1) as [-> | Hne].
    + now rewrite (get_below _ B1), (get_below _ B2).
    + specialize (H k). simpl in H. apply N.eqb_neq in Hne.
      now rewrite Hne in H.
Qed.

Lemma ordered_fold_set {A B} (g : A -> B) (es : JsObject.t A)
    (acc : JsObject.t B) :
  ordered acc ->
  ordered (fold_left (fun avg kv => set (fst kv) (g (snd kv)) avg) es acc).
Proof.
  revert acc. induction es as [| e es IH]; intros acc H; simpl;
    [assumption |].
  apply IH. unfold set. now apply ordered_upsert.
Qed.

Lemma ordered_map_values {A B} (g : A -> B) (m : JsObject.t A) :
  ordered m -> ordered (map (fun kv => (fst kv, g (snd kv))) m).
Proof.
  induction m as [| [k v] m IH]; simpl; [tauto |].
  intros [Hb Ho]. split; [| now apply IH].
  unfold keys in *. rewrite map_map. simpl. exact Hb.
Qed.

Lemma get_map_values {A B} (g : A -> B) (m : JsObject.t A) (k : N) :
  get (map (fun kv => (fst kv, g (snd kv))) m) k =
  match get m k with Some v => Some (g v) | None => None end.
Proof.
  induction m as [| [k0 v0] m IH]; simpl; [reflexivity |].
  now destruct (N.eqb k k0).
Qed.

(** The average map has one entry per entry of the totals, in the same
    order. *)
Lemma avgMap_entries (arr : list ExcelRow.t) :
  avgMap arr =
  map (fun kv => (fst kv, roundedAverage (snd kv))) (totalsOf arr).
Proof.
  apply ordered_ext.
  - unfold avgMap. now apply ordered_fold_set.
  - apply ordered_map_values, ordered_totalsOf.
  - intros k. unfold avgMap.
    rewrite get_fold_set; [| exact I | apply ordered_totalsOf].
    rewrite get_map_values. reflexivity.
Qed.

Lemma values_avgMap (arr : list ExcelRow.t) :
  values (avgMap arr) = map roundedAverage (values (totalsOf arr)).
Proof.
  rewrite avgMap_entries. unfold values. now rewrite !map_map.
Qed.

Lemma countAvg_fold (avgs : list Z) (counts : Counts) :
  fold_left countAvg avgs counts =
  mkCounts
    (c_completed counts + List.length (filter (Z.leb 100) avgs))
    (c_inProgress counts +
     List.length (filter (fun z => Z.leb 1 z && Z.ltb z 100) avgs))
    (c_notStarted counts + List.length (filter (fun z => Z.ltb z 1) avgs)).
Proof.
  revert counts. induction avgs as [| z zs IH]; intros [c i n]; simpl.
  - now rewrite !Nat.add_0_r.
  - rewrite IH. unfold countAvg. simpl.
    destruct (Z.leb_spec 100 z); destruct (Z.leb_spec 1 z);
      destruct (Z.ltb_spec z 100); destruct (Z.ltb_spec z 1);
      simpl; try lia; f_equal; lia.
Qed.

Lemma three_way_count (avgs : list Z) :
  (List.length (filter (Z.leb 100) avgs) +
   List.length (filter (fun z => Z.leb 1 z && Z.ltb z 100) avgs) +
   List.length (filter (fun z => Z.ltb z 1) avgs) = List.length avgs)%nat.
Proof.
  induction avgs as [| z zs IH]; simpl; [reflexivity |].
  destruct (Z.leb_spec 100 z); destruct (Z.leb_spec 1 z);
    destruct (Z.ltb_spec z 100); destruct (Z.ltb_spec z 1);
    simpl; lia.
Qed.

(** The summary of one snapshot, in terms of its average map. *)
Lemma monthlyDatum_fields (idx : nat) (s : Snapshot.t) :
  let avgs := values (avgMap (Snapshot.rows s)) in
  MonthlyData.month (monthlyDatum idx s) =
    (if String.eqb (Snapshot.name s) ""
     then "Week " ++ String_of_nat (idx + 1) else Snapshot.name s)%string /\
  MonthlyData.learners (monthlyDatum idx s) = List.length avgs /\
  MonthlyData.completed (monthlyDatum idx s) =
    List.length (filter (Z.leb 100) avgs) /\
  MonthlyData.inProgress (monthlyDatum idx s) =
    List.length (filter (fun z => Z.leb 1 z && Z.ltb z 100) avgs) /\
  MonthlyData.notStarted (monthlyDatum idx s) =
    List.length (filter (fun z => Z.ltb z 1) avgs) /\
  MonthlyData.avg (monthlyDatum idx s) =
    (if Nat.ltb 0 (List.length avgs)
     then Math_round (inject_Z (Zsum avgs) /
                      inject_Z (Z.of_nat (List.length avgs)))
     else 0%Z).
Proof.
  intros avgs. unfold avgs. rewrite values_avgMap.
  unfold monthlyDatum.
  change (fold_left
            (fun perLearner r =>
               upsert (ExcelRow.User_ID r) (mkTotalCount 0%Q 0%nat)
                 (accumulate (completionOf r)) perLearner)
            (Snapshot.rows s) empty)
    with (totalsOf (Snapshot.rows s)).
  cbn [MonthlyData.month MonthlyData.learners MonthlyData.completed
       MonthlyData.inProgress MonthlyData.notStarted MonthlyData.avg].
  rewrite countAvg_fold. simpl. repeat split.
Qed.

(** X15. There is one period summary per snapshot, in snapshot order.  The
    summary of snapshot [i] is labelled with the snapshot's name, or
    [Week i+1] when the name is empty, and counts the distinct learner ids
    of the snapshot. *)
Theorem X15_one_summary_per_snapshot (snapshots : list Snapshot.t)
    (a : Analytics.t) :
  computeAnalytics snapshots = Some a ->
  List.length (Analytics.monthlyData a) = List.length snapshots /\
  forall i s, nth_error snapshots i = Some s ->
    exists m,
      nth_error (Analytics.monthlyData a) i = Some m /\
      MonthlyData.month m =
        (if String.eqb (Snapshot.name s) ""
         then "Week " ++ String_of_nat (i + 1) else Snapshot.name s)%string /\
      MonthlyData.learners m = List.length (Set_of (idsOf s)).
Proof.
  intros Ha.
  destruct (computeAnalytics_fields snapshots a Ha)
    as (_ & _ & _ & _ & Hm & _).
  rewrite Hm. split.
  - unfold monthlyData. rewrite length_map, length_combine, length_seq. lia.
  - intros i s Hs. exists (monthlyDatum i s).
    split; [now apply monthlyData_nth |].
    destruct (monthlyDatum_fields i s) as (Hl & Hn & _).
    split; [exact Hl |]. rewrite Hn, values_avgMap, length_map.
    unfold values. rewrite length_map. apply totals_length.
Qed.

Lemma X15_one_summary_per_snapshot_witness :
  computeAnalytics [snapshotA; Samples.snapshotNoName] =
    Some (resultOf [snapshotA; Samples.snapshotNoName]) /\
  map MonthlyData.month
    (Analytics.monthlyData (resultOf [snapshotA; Samples.snapshotNoName])) =
    ["A"; "Week 2"]%string /\
  List.length
    (Analytics.monthlyData (resultOf [snapshotA; Samples.snapshotNoName])) =
  List.length [snapshotA; Samples.snapshotNoName].
Proof.
  assert (Ha : computeAnalytics [snapshotA; Samples.snapshotNoName] =
               Some (resultOf [snapshotA; Samples.snapshotNoName]))
    by (vm_compute; reflexivity).
  split; [exact Ha | split; [reflexivity |]].
  exact (proj1 (X15_one_summary_per_snapshot _ _ Ha)).
Defined.

(** X16. A period summary sorts the learners of its snapshot by their
    per-snapshot average, the one of the average map: completed from 100,
    in progress from 1 to 99, not started below 1.  The three counts add
    up to the learner count, and the period average is the rounded mean of
    those averages, 0 for a snapshot without rows. *)
Theorem X16_summary_buckets (snapshots : list Snapshot.t) (m : MonthlyData.t) :
  In m (monthlyData snapshots) ->
  exists i s,
    In s snapshots /\ m = monthlyDatum i s /\
    MonthlyData.learners m =
      List.length (values (avgMap (Snapshot.rows s))) /\
    MonthlyData.completed m =
      List.length (filter (Z.leb 100) (values (avgMap (Snapshot.rows s)))) /\
    MonthlyData.inProgress m =
      List.length (filter (fun z => Z.leb 1 z && Z.ltb z 100)
                          (values (avgMap (Snapshot.rows s)))) /\
    MonthlyData.notStarted m =
      List.length (filter (fun z => Z.ltb z 1)
                          (values (avgMap (Snapshot.rows s)))) /\
    (MonthlyData.completed m + MonthlyData.inProgress m +
     MonthlyData.notStarted m = MonthlyData.learners m)%nat /\
    roundsHalfUp
      (if Nat.ltb 0 (MonthlyData.learners m)
       then inject_Z (Zsum (values (avgMap (Snapshot.rows s)))) /
            inject_Z (Z.of_nat (MonthlyData.learners m))
       else 0%Q)
      (MonthlyData.avg m) /\
    (Snapshot.rows s = [] -> MonthlyData.avg m = 0%Z).
Proof.
  intros H. apply In_monthlyData in H. destruct H as (i & s & Hs & ->).
  exists i, s. split; [exact Hs | split; [reflexivity |]].
  destruct (monthlyDatum_fields i s) as (_ & Hn & Hc & Hi & Hx & Hv).
  rewrite Hn, Hc, Hi, Hx, Hv.
  repeat (split; [reflexivity |]).
  split; [apply three_way_count | split].
  - destruct (Nat.ltb 0 (List.length (values (avgMap (Snapshot.rows s))))).
    + apply Math_round_roundsHalfUp.
    + split; unfold Qle, Qlt; simpl; lia.
  - intros Hr. rewrite Hr. reflexivity.
Qed.

Lemma X16_summary_buckets_witness :
  In (monthlyDatum 0 snapshotA) (monthlyData snapshotsAB) /\
  exists i s,
    In s snapshotsAB /\ monthlyDatum 0 snapshotA = monthlyDatum i s /\
    (MonthlyData.completed (monthlyDatum 0 snapshotA) +
     MonthlyData.inProgress (monthlyDatum 0 snapshotA) +
     MonthlyData.notStarted (monthlyDatum 0 snapshotA) =
     MonthlyData.learners (monthlyDatum 0 snapshotA))%nat.
Proof.
  assert (Hm : In (monthlyDatum 0 snapshotA) (monthlyData snapshotsAB))
    by (vm_compute; left; reflexivity).
  split; [exact Hm |].
  destruct (X16_summary_buckets snapshotsAB _ Hm)
    as (i & s & Hs & E & _ & _ & _ & _ & Hsum & _).
  exists i, s. split; [exact Hs | split; [exact E | exact Hsum]].
Defined.

(** ** The range of reports shown by the charts *)

Lemma clampIndex_range (x : Z) (len : nat) :
  len <> 0%nat ->
  (0 <= Charts.clampIndex x len <= Z.of_nat len - 1)%Z.
Proof. unfold Charts.clampIndex. lia. Qed.

Lemma slice_within {A} (l : list A) (start end_ : Z) :
  (0 <= start <= end_)%Z -> (end_ <= Z.of_nat (List.length l))%Z ->
  Charts.slice start end_ l =
  firstn (Z.to_nat (end_ - start)) (skipn (Z.to_nat start) l).
Proof.
  intros H1 H2. unfold Charts.slice, Charts.relativeIndex.
  destruct (Z.ltb_spec start 0); [lia |].
  destruct (Z.ltb_spec end_ 0); [lia |].
  now rewrite !Z.min_l by lia.
Qed.

(** X17. In single-report mode the charts show exactly one period
    summary, whatever number the selector holds: the summary at that
    index when it is in range, the last one when it is too large, the
    first one when it is negative. *)
Theorem X17_single_report_shown (snapshots : list Snapshot.t)
    (a : Analytics.t) (monthFrom monthTo singleMonth : Z) :
  computeAnalytics snapshots = Some a ->
  exists m,
    Charts.visible Charts.single monthFrom monthTo singleMonth
      (Analytics.monthlyData a) = Some [m] /\
    nth_error (Analytics.monthlyData a)
      (Z.to_nat (Charts.clampIndex singleMonth (List.length snapshots)))
      = Some m /\
    ((0 <= singleMonth < Z.of_nat (List.length snapshots))%Z ->
     Charts.clampIndex singleMonth (List.length snapshots) = singleMonth) /\
    ((Z.of_nat (List.length snapshots) <= singleMonth)%Z ->
     Charts.clampIndex singleMonth (List.length snapshots) =
       (Z.of_nat (List.length snapshots) - 1)%Z) /\
    ((singleMonth < 0)%Z ->
     Charts.clampIndex singleMonth (List.length snapshots) = 0%Z) /\
    Charts.chartsWithRange (Some a) Charts.single monthFrom monthTo singleMonth
      = Some (Charts.mkChartData
                [MonthlyData.month m] [MonthlyData.avg m]
                [MonthlyData.completed m] [MonthlyData.inProgress m]
                [MonthlyData.notStarted m]).
Proof.
  intros Ha.
  destruct (computeAnalytics_fields snapshots a Ha)
    as (_ & _ & _ & _ & Hm & _).
  pose proof (computeAnalytics_Some _ Ha) as (Hne & _).
  assert (Hlen : List.length (Analytics.monthlyData a) = List.length snapshots).
  { rewrite Hm. unfold monthlyData.
    rewrite length_map, length_combine, length_seq. lia. }
  assert (Hn : List.length snapshots <> 0%nat)
    by (destruct snapshots; [contradiction | discriminate]).
  pose proof (clampIndex_range singleMonth _ Hn) as Hc.
  destruct (nth_error (Analytics.monthlyData a)
              (Z.to_nat (Charts.clampIndex singleMonth (List.length snapshots))))
    as [m |] eqn:E.
  - exists m. unfold Charts.chartsWithRange, Charts.visible. rewrite Hlen, E.
    split; [reflexivity | split; [reflexivity |]].
    unfold Charts.clampIndex. repeat split; lia.
  - exfalso. apply nth_error_None in E. lia.
Qed.

Lemma X17_single_report_shown_witness :
  computeAnalytics snapshotsAB = Some (resultOf snapshotsAB) /\
  option_map (map MonthlyData.month)
    (Charts.visible Charts.single 0 0 7
       (Analytics.monthlyData (resultOf snapshotsAB))) = Some ["B"%string] /\
  exists m,
    Charts.visible Charts.single 0 0 7
      (Analytics.monthlyData (resultOf snapshotsAB)) = Some [m].
Proof.
  assert (Ha : computeAnalytics snapshotsAB = Some (resultOf snapshotsAB))
    by (vm_compute; reflexivity).
  split; [exact Ha | split; [reflexivity |]].
  destruct (X17_single_report_shown snapshotsAB _ 0 0 7 Ha) as (m & Hm & _).
  exists m. exact Hm.
Defined.

(** X18. In range mode the charts show the summaries between the two
    selected indices, both clamped into range and taken in either order:
    a contiguous, non-empty run of [|a - b| + 1] summaries.  The range
    from the first to the last report is the whole series. *)
Theorem X18_range_shown (monthlyData : list MonthlyData.t)
    (monthFrom monthTo singleMonth : Z) :
  monthlyData <> [] ->
  let a := Charts.clampIndex monthFrom (List.length monthlyData) in
  let b := Charts.clampIndex monthTo (List.length monthlyData) in
  exists shown,
    Charts.visible Charts.range monthFrom monthTo singleMonth monthlyData
      = Some shown /\
    shown = firstn (Z.to_nat (Z.abs (a - b) + 1))
                   (skipn (Z.to_nat (Z.min a b)) monthlyData) /\
    Z.of_nat (List.length shown) = (Z.abs (a - b) + 1)%Z /\
    Charts.visible Charts.range monthTo monthFrom singleMonth monthlyData
      = Some shown /\
    Charts.visible Charts.range 0
      (Z.of_nat (List.length monthlyData) - 1) singleMonth monthlyData
      = Charts.visible Charts.all monthFrom monthTo singleMonth monthlyData.
Proof.
  intros Hne a b.
  assert (Hn : List.length monthlyData <> 0%nat)
    by (destruct monthlyData; [contradiction | discriminate]).
  pose proof (clampIndex_range monthFrom _ Hn) as Ha.
  pose proof (clampIndex_range monthTo _ Hn) as Hb.
  fold a in Ha. fold b in Hb.
  assert (S : Charts.slice (Z.min a b) (Z.max a b + 1) monthlyData =
              firstn (Z.to_nat (Z.abs (a - b) + 1))
                     (skipn (Z.to_nat (Z.min a b)) monthlyData)).
  { rewrite slice_within by lia. f_equal. lia. }
  exists (firstn (Z.to_nat (Z.abs (a - b) + 1))
                 (skipn (Z.to_nat (Z.min a b)) monthlyData)).
  split; [| split; [reflexivity | split; [| split]]].
  - unfold Charts.visible. fold a b. now rewrite S.
  - rewrite length_firstn, length_skipn. lia.
  - unfold Charts.visible. fold a b.
    rewrite (Z.min_comm b a), (Z.max_comm b a). now rewrite S.
  - unfold Charts.visible.
    assert (E0 : Charts.clampIndex 0 (List.length monthlyData) = 0%Z)
      by (unfold Charts.clampIndex; lia).
    assert (E1 : Charts.clampIndex (Z.of_nat (List.length monthlyData) - 1)
                   (List.length monthlyData) =
                 (Z.of_nat (List.length monthlyData) - 1)%Z)
      by (unfold Charts.clampIndex; lia).
    rewrite E0, E1. rewrite slice_within by lia.
    replace (Z.min 0 (Z.of_nat (List.length monthlyData) - 1)) with 0%Z by lia.
    replace (Z.max 0 (Z.of_nat (List.length monthlyData) - 1) + 1 - 0)%Z
      with (Z.of_nat (List.length monthlyData)) by lia.
    rewrite Nat2Z.id. simpl. now rewrite firstn_all.
Qed.

Lemma X18_range_shown_witness :
  monthlyData snapshotsABC <> [] /\
  option_map (map MonthlyData.month)
    (Charts.visible Charts.range 5 1 0 (monthlyData snapshotsABC))
    = Some ["B"; "C"]%string /\
  exists shown,
    Charts.visible Charts.range 5 1 0 (monthlyData snapshotsABC) = Some shown /\
    Charts.visible Charts.range 1 5 0 (monthlyData snapshotsABC) = Some shown.
Proof.
  assert (Hne : monthlyData snapshotsABC <> []) by (vm_compute; discriminate).
  split; [exact Hne | split; [reflexivity |]].
  destruct (X18_range_shown (monthlyData snapshotsABC) 5 1 0 Hne)
    as (shown & H1 & _ & _ & H2 & _).
  exists shown. split; [exact H1 | exact H2].
Defined.

(** ** The columns of the CSV export *)

Lemma map_seq_nth_error {A B} (l : list A) (h : A -> B) (d : nat -> B)
    (k : nat) :
  map (fun i => match nth_error l (i - k) with
                | Some x => h x
                | None => d i
                end) (seq k (List.length l)) = map h l.
Proof.
  revert k. induction l as [| x l IH]; intros k; simpl; [reflexivity |].
  rewrite Nat.sub_diag. simpl. f_equal.
  rewrite <- (IH (S k)). apply map_ext_in. intros i Hi. apply in_seq in Hi.
  replace (i - k)%nat with (S (i - S k)) by lia. reflexivity.
Qed.

(** X19. The export always has four recent columns.  They are named after
    the last four snapshots, oldest first; with fewer than four snapshots
    they are named after all of them, and the missing ones are named
    [Report k] with [k] counting on from the number of snapshots. *)
Theorem X19_recent_column_names (snapshots : list Snapshot.t) :
  List.length (ListModal.recentNames snapshots) = 4%nat /\
  ListModal.recentNames snapshots =
    (map Snapshot.name (skipn (List.length snapshots - 4) snapshots) ++
     map (fun k => ("Report " ++ String_of_nat (k + 1))%string)
         (seq (List.length snapshots) (4 - List.length snapshots)))%list.
Proof.
  split; [unfold ListModal.recentNames; now rewrite length_map |].
  unfold ListModal.recentNames.
  set (n := List.length snapshots).
  set (start := Nat.max 0 (n - 4)).
  assert (Hstart : start = (n - 4)%nat) by (unfold start; lia).
  replace 4%nat with (Nat.min 4 n + (4 - n))%nat at 1 by lia.
  rewrite seq_app, map_app. f_equal.
  - assert (Hlen : List.length (skipn (n - 4) snapshots) = Nat.min 4 n)
      by (rewrite length_skipn; unfold n; lia).
    rewrite <- Hlen.
    rewrite <- (map_seq_nth_error (skipn (n - 4) snapshots) Snapshot.name
                  (fun i => ("Report " ++ String_of_nat (start + i + 1))%string)
                  0).
    apply map_ext. intros i. rewrite Nat.sub_0_r, nth_error_skipn.
    now rewrite Hstart.
  - destruct (Nat.leb_spec 4 n) as [H4 | H4].
    + replace (4 - n)%nat with 0%nat by lia. reflexivity.
    + replace (0 + Nat.min 4 n)%nat with n by lia.
      apply map_ext_in. intros i Hi. apply in_seq in Hi.
      assert (E : nth_error snapshots (start + i) = None)
        by (apply nth_error_None; fold n; lia).
      rewrite E. replace (start + i + 1)%nat with (i + 1)%nat by lia.
      reflexivity.
Qed.

Lemma In_insertByAvg (l x : Learner.t) (sorted : list Learner.t) :
  In x (ListModal.insertByAvg l sorted) <-> x = l \/ In x sorted.
Proof.
  induction sorted as [| y sorted IH]; simpl.
  - intuition.
  - destruct (Z.ltb (Learner.avgCompletion y) (Learner.avgCompletion l));
      simpl; [intuition |].
    rewrite IH. intuition.
Qed.

Lemma In_sortByAvgDesc (ls : list Learner.t) (x : Learner.t) :
  In x (ListModal.sortByAvgDesc ls) <-> In x ls.
Proof.
  unfold ListModal.sortByAvgDesc.
  assert (G : forall acc, In x (fold_left
                (fun sorted l => ListModal.insertByAvg l sorted) ls acc) <->
              In x acc \/ In x ls).
  { induction ls as [| l ls IH]; intros acc; simpl; [intuition |].
    rewrite IH, In_insertByAvg. intuition. }
  rewrite G. simpl. tauto.
Qed.

Lemma record_not_enriched (last : list ExcelRow.t) (l : Learner.t) :
  In l (learners last) -> Learner.recentAvgs l = None.
Proof.
  unfold learners. intros H. apply in_map_iff in H.
  destruct H as [lp [<- _]]. reflexivity.
Qed.

(** X20. Exported from the total, average or failed list, a learner gets
    an empty value in each of the four rounds of the loop over the recent
    names and an empty delta: these lists hold plain learner records,
    which carry no recent averages. *)
Theorem X20_plain_lists_export_no_history (snapshots : list Snapshot.t)
    (a : Analytics.t) (listModalType : ListModal.ListModalType)
    (selectedIds : list N) (l : Learner.t) :
  computeAnalytics snapshots = Some a ->
  listModalType = ListModal.total \/ listModalType = ListModal.average \/
  listModalType = ListModal.failed ->
  In l (ListModal.exportList (Some a) listModalType selectedIds) ->
  ListModal.recentCells snapshots l = [""; ""; ""; ""]%string /\
  CsvExport.delta l = ""%string.
Proof.
  intros Ha Ht Hl.
  destruct (computeAnalytics_fields snapshots a Ha)
    as (_ & _ & Hf & _ & _ & Hls).
  assert (Hin : In l (Analytics.learners a)).
  { unfold ListModal.exportList in Hl.
    assert (Hl' : In l (match listModalType with
                        | ListModal.improved => Analytics.improvedList a
                        | ListModal.support => Analytics.supportList a
                        | ListModal.total => Analytics.learners a
                        | ListModal.average =>
                            ListModal.sortByAvgDesc (Analytics.learners a)
                        | ListModal.failed => Analytics.failedStudents a
                        | _ => []
                        end)).
    { destruct (Nat.ltb 0 (List.length selectedIds)); [| exact Hl].
      now apply filter_In in Hl. }
    destruct Ht as [-> | [-> | ->]].
    - exact Hl'.
    - now apply In_sortByAvgDesc.
    - rewrite Hf in Hl'. unfold failedStudents in Hl'.
      now apply filter_In in Hl'. }
  rewrite Hls in Hin. apply record_not_enriched in Hin.
  unfold ListModal.recentCells, CsvExport.recentCell, CsvExport.delta.
  rewrite Hin. split; reflexivity.
Qed.

Lemma X20_plain_lists_export_no_history_witness :
  computeAnalytics snapshotsAB = Some (resultOf snapshotsAB) /\
  In (firstOf (Analytics.learners (resultOf snapshotsAB)))
     (ListModal.exportList (Some (resultOf snapshotsAB)) ListModal.total []) /\
  CsvExport.delta (firstOf (Analytics.learners (resultOf snapshotsAB)))
    = ""%string.
Proof.
  assert (Ha : computeAnalytics snapshotsAB = Some (resultOf snapshotsAB))
    by (vm_compute; reflexivity).
  assert (Hl : In (firstOf (Analytics.learners (resultOf snapshotsAB)))
                  (ListModal.exportList (Some (resultOf snapshotsAB))
                     ListModal.total []))
    by (vm_compute; left; reflexivity).
  split; [exact Ha | split; [exact Hl |]].
  exact (proj2 (X20_plain_lists_export_no_history snapshotsAB _
                  ListModal.total [] _ Ha (or_introl eq_refl) Hl)).
Defined.

Lemma enriched_recentAvgs (snapshots : list Snapshot.t) (a : Analytics.t)
    (l : Learner.t) :
  computeAnalytics snapshots = Some a ->
  In l (Analytics.improvedList a) \/ In l (Analytics.supportNeeded a) \/
  In l (Analytics.supportList a) ->
  Learner.recentAvgs l = Some (recentAvgs snapshots (Learner.id l)).
Proof.
  intros Ha Hl.
  assert (Hl' : In l (Analytics.improvedList a) \/
                In l (Analytics.supportNeeded a)).
  { destruct Hl as [H | [H | H]]; [now left | now right | right].
    destruct (analytics_finished snapshots a Ha) as (_ & _ & Hx).
    rewrite Hx in H. now apply filter_In in H. }
  destruct (enriched_weeks snapshots a l Ha Hl') as (_ & E & _).
  rewrite E at 1. apply enrichedFor_recentAvgs.
Qed.

(** X21. In the export of the improved or support list, the value written
    for a learner in round [i] of the loop over the recent names, under
    the name of round [i], is its average, followed by a percent sign, in
    the very snapshot that name is taken from; it is empty when the
    learner has no row in that snapshot or when the name stands for a
    report that does not exist. *)
Theorem X21_recent_cells_match_columns (snapshots : list Snapshot.t)
    (a : Analytics.t) (l : Learner.t) (i : nat) :
  computeAnalytics snapshots = Some a ->
  In l (Analytics.improvedList a) \/ In l (Analytics.supportNeeded a) \/
  In l (Analytics.supportList a) ->
  (i < 4)%nat ->
  match nth_error snapshots (Nat.max 0 (List.length snapshots - 4) + i) with
  | Some s =>
      nth_error (ListModal.recentNames snapshots) i = Some (Snapshot.name s) /\
      nth_error (ListModal.recentCells snapshots l) i =
        Some (match averageIn s (Learner.id l) with
              | Some z => (String_of_Z z ++ "%")%string
              | None => ""%string
              end)
  | None =>
      nth_error (ListModal.recentCells snapshots l) i = Some ""%string
  end.
Proof.
  intros Ha Hl Hi.
  pose proof (enriched_recentAvgs snapshots a l Ha Hl) as R.
  assert (Hc : nth_error (ListModal.recentCells snapshots l) i =
               Some (CsvExport.recentCell l i)).
  { unfold ListModal.recentCells.
    replace (List.length (ListModal.recentNames snapshots)) with 4%nat
      by (unfold ListModal.recentNames; now rewrite length_map).
    rewrite nth_error_map.
    rewrite (nth_error_nth' _ 0%nat) by (rewrite length_seq; exact Hi).
    now rewrite seq_nth by exact Hi. }
  assert (Hn : nth_error (ListModal.recentNames snapshots) i =
               Some (match nth_error snapshots
                             (Nat.max 0 (List.length snapshots - 4) + i) with
                     | Some s => Snapshot.name s
                     | None =>
                         ("Report " ++
                          String_of_nat
                            (Nat.max 0 (List.length snapshots - 4) + i + 1))%string
                     end)).
  { unfold ListModal.recentNames. rewrite nth_error_map.
    rewrite (nth_error_nth' _ 0%nat) by (rewrite length_seq; exact Hi).
    now rewrite seq_nth by exact Hi. }
  rewrite Hc. unfold CsvExport.recentCell. rewrite R.
  destruct (nth_error snapshots (Nat.max 0 (List.length snapshots - 4) + i))
    as [s |] eqn:E.
  - rewrite Hn. split; [reflexivity |].
    assert (Hlt : (Nat.max 0 (List.length snapshots - 4) + i
                   < List.length snapshots)%nat)
      by (apply nth_error_Some; congruence).
    rewrite recentAvgs_nth by lia.
    unfold averageIn, rowsAt. now rewrite (nth_error_nth _ _ noSnapshot E).
  - apply nth_error_None in E.
    assert (Hnone : nth_error (recentAvgs snapshots (Learner.id l)) i = None).
    { apply nth_error_None. rewrite recentAvgs_length. lia. }
    now rewrite Hnone.
Qed.

Lemma X21_recent_cells_match_columns_witness :
  computeAnalytics snapshotsAB = Some (resultOf snapshotsAB) /\
  In (firstOf (Analytics.improvedList (resultOf snapshotsAB)))
     (Analytics.improvedList (resultOf snapshotsAB)) /\
  ListModal.recentNames snapshotsAB = ["A"; "B"; "Report 3"; "Report 4"]%string /\
  ListModal.recentCells snapshotsAB
    (firstOf (Analytics.improvedList (resultOf snapshotsAB)))
    = ["40%"; "60%"; ""; ""]%string /\
  nth_error (ListModal.recentCells snapshotsAB
               (firstOf (Analytics.improvedList (resultOf snapshotsAB)))) 2
    = Some ""%string.
Proof.
  assert (Ha : computeAnalytics snapshotsAB = Some (resultOf snapshotsAB))
    by (vm_compute; reflexivity).
  assert (Hl : In (firstOf (Analytics.improvedList (resultOf snapshotsAB)))
                  (Analytics.improvedList (resultOf snapshotsAB)))
    by (vm_compute; left; reflexivity).
  split; [exact Ha | split; [exact Hl |]].
  split; [reflexivity | split; [reflexivity |]].
  assert (H2 : (2 < 4)%nat) by lia.
  exact (X21_recent_cells_match_columns snapshotsAB _ _ 2 Ha (or_introl Hl) H2).
Defined.

(** ** The delta column, value by value *)

Lemma first_None (recent : list (option Z)) :
  CsvExport.first recent = None <-> Forall (fun x => x = None) recent.
Proof.
  induction recent as [| [v |] recent IH]; simpl.
  - split; [constructor | reflexivity].
  - split; [discriminate | intros H; inversion H; discriminate].
  - rewrite IH. split; [now constructor | intros H; now inversion H].
Qed.

Lemma first_after_nulls (pre post : list (option Z)) (v : Z) :
  Forall (fun x => x = None) pre ->
  CsvExport.first (pre ++ Some v :: post) = Some v.
Proof.
  induction 1 as [| x pre Hx _ IH]; simpl; [reflexivity |].
  now rewrite Hx.
Qed.

Lemma append_percent_nonempty (s : string) : (s ++ "%")%string <> ""%string.
Proof. destruct s; discriminate. Qed.

(** X22. The delta cell of the export is empty exactly when the learner
    has no known recent average.  Otherwise it is the last known recent
    average minus the first known one, whatever unknown entries lie
    before, between or after them, followed by a percent sign and with
    no sign of its own unless negative. *)
Theorem X22_delta_last_minus_first (l : Learner.t) (recent : list (option Z)) :
  Learner.recentAvgs l = Some recent ->
  (CsvExport.delta l = ""%string <-> Forall (fun x => x = None) recent) /\
  (forall pre post pre' post' first last,
     recent = (pre ++ Some first :: post)%list ->
     Forall (fun x => x = None) pre ->
     recent = (pre' ++ Some last :: post')%list ->
     Forall (fun x => x = None) post' ->
     CsvExport.delta l = (String_of_Z (last - first) ++ "%")%string).
Proof.
  intros R. unfold CsvExport.delta. rewrite R. split.
  - split.
    + intros H.
      destruct (CsvExport.first recent) as [f |] eqn:F;
        [| now apply first_None].
      destruct (CsvExport.last recent) as [la |] eqn:L.
      * exfalso. exact (append_percent_nonempty _ H).
      * unfold CsvExport.last in L. apply first_None in L.
        apply Forall_rev in L. now rewrite rev_involutive in L.
    + intros H. apply first_None in H. now rewrite H.
  - intros pre post pre' post' f la E1 H1 E2 H2.
    assert (F : CsvExport.first recent = Some f)
      by (rewrite E1; now apply first_after_nulls).
    assert (L : CsvExport.last recent = Some la).
    { unfold CsvExport.last. rewrite E2, rev_app_distr. simpl.
      rewrite <- app_assoc. simpl. apply first_after_nulls.
      now apply Forall_rev. }
    now rewrite F, L.
Qed.

Lemma X22_delta_last_minus_first_witness :
  Learner.recentAvgs Samples.learnerGapped =
    Some [None; Some 40%Z; None; Some 60%Z; None] /\
  CsvExport.delta Samples.learnerGapped = "20%"%string /\
  (CsvExport.delta Samples.learnerGapped = ""%string <->
   Forall (fun x => x = None) [None; Some 40%Z; None; Some 60%Z; None]).
Proof.
  assert (R : Learner.recentAvgs Samples.learnerGapped =
              Some [None; Some 40%Z; None; Some 60%Z; None])
    by reflexivity.
  split; [exact R | split; [reflexivity |]].
  exact (proj1 (X22_delta_last_minus_first Samples.learnerGapped _ R)).
Defined.

(** ** The quoting of the exported fields *)

Lemma string_app_assoc (a b c : string) :
  ((a ++ b) ++ c)%string = (a ++ (b ++ c))%string.
Proof. induction a as [| x a IH]; simpl; [reflexivity | now rewrite IH]. Qed.

Lemma readQuoted_doubled (s rest : string) :
  match rest with
  | EmptyString => True
  | String c _ => c <> ListModal.dquote
  end ->
  CsvReader.readQuoted
    (ListModal.doubleQuotes s ++ String ListModal.dquote rest)%string
  = Some (s, rest).
Proof.
  intros Hrest. induction s as [| c s IH].
  - cbn [ListModal.doubleQuotes append CsvReader.readQuoted].
    rewrite Ascii.eqb_refl. destruct rest as [| c' rest']; [reflexivity |].
    apply Ascii.eqb_neq in Hrest. now rewrite Hrest.
  - cbn [ListModal.doubleQuotes].
    destruct (Ascii.eqb_spec c ListModal.dquote) as [-> | Hne].
    + cbn [append CsvReader.readQuoted]. rewrite !Ascii.eqb_refl.
      now rewrite IH.
    + cbn [append CsvReader.readQuoted].
      apply Ascii.eqb_neq in Hne. now rewrite Hne, IH.
Qed.

Lemma csvLine_cons (f g : string) (fs : list string) :
  ListModal.csvLine (f :: g :: fs) =
  String ListModal.dquote
    (ListModal.doubleQuotes f ++
     String ListModal.dquote (String ","%char (ListModal.csvLine (g :: fs))))%string.
Proof.
  unfold ListModal.csvLine. cbn [map String.concat].
  unfold ListModal.csvField at 1. cbn [append].
  now rewrite string_app_assoc.
Qed.

(** X23. Quoting loses nothing: a line of the export, read back field by
    field with doubled quotes taken as one quote, gives the fields that
    were written, whatever commas, quotes or line breaks they hold. *)
Theorem X23_csv_line_round_trip (fields : list string) :
  fields <> [] ->
  CsvReader.readLine (List.length fields) (ListModal.csvLine fields)
  = Some fields.
Proof.
  induction fields as [| f fs IH]; intros Hne; [contradiction |].
  destruct fs as [| g fs].
  - unfold ListModal.csvLine, ListModal.csvField.
    cbn [map String.concat List.length CsvReader.readLine].
    rewrite Ascii.eqb_refl.
    now rewrite (readQuoted_doubled f EmptyString I).
  - rewrite csvLine_cons.
    change (List.length (f :: g :: fs)) with (S (List.length (g :: fs))).
    specialize (IH ltac:(discriminate)).
    remember (List.length (g :: fs)) as n eqn:Hn.
    cbn [CsvReader.readLine].
    rewrite Ascii.eqb_refl.
    rewrite (readQuoted_doubled f
               (String ","%char (ListModal.csvLine (g :: fs))))
      by discriminate.
    rewrite Ascii.eqb_refl. now rewrite IH.
Qed.

Lemma X23_csv_line_round_trip_witness :
  ["Doe, Alice"; String "s" (String ListModal.dquote "x"); ""]%string <> [] /\
  CsvReader.readLine 3
    (ListModal.csvLine
       ["Doe, Alice"; String "s" (String ListModal.dquote "x"); ""]%string)
  = Some ["Doe, Alice"; String "s" (String ListModal.dquote "x"); ""]%string.
Proof.
  assert (Hne : ["Doe, Alice"; String "s" (String ListModal.dquote "x"); ""]%string
                <> []) by discriminate.
  split; [exact Hne |].
  exact (X23_csv_line_round_trip _ Hne).
Defined.

(** ** The list handed to the export *)

Lemma insertByAvg_perm (l : Learner.t) (sorted : list Learner.t) :
  Permutation (l :: sorted) (ListModal.insertByAvg l sorted).
Proof.
  induction sorted as [| x sorted IH]; simpl; [reflexivity |].
  destruct (Z.ltb (Learner.avgCompletion x) (Learner.avgCompletion l));
    [reflexivity |].
  rewrite perm_swap. now constructor.
Qed.

Lemma sortByAvgDesc_perm (ls : list Learner.t) :
  Permutation ls (ListModal.sortByAvgDesc ls).
Proof.
  unfold ListModal.sortByAvgDesc.
  assert (G : forall acc,
            Permutation (acc ++ ls)
              (fold_left (fun sorted l => ListModal.insertByAvg l sorted) ls acc)).
  { induction ls as [| l ls IH]; intros acc; simpl.
    - now rewrite app_nil_r.
    - rewrite <- IH. rewrite <- insertByAvg_perm.
      simpl. apply Permutation_sym, Permutation_middle. }
  exact (G []).
Qed.

Lemma insertByAvg_sorted (l : Learner.t) (sorted : list Learner.t) :
  StronglySorted
    (fun x y => (Learner.avgCompletion y <= Learner.avgCompletion x)%Z) sorted ->
  StronglySorted
    (fun x y => (Learner.avgCompletion y <= Learner.avgCompletion x)%Z)
    (ListModal.insertByAvg l sorted).
Proof.
  induction 1 as [| x sorted Hs IH Hx]; simpl.
  - repeat constructor.
  - destruct (Z.ltb_spec (Learner.avgCompletion x) (Learner.avgCompletion l))
      as [Hlt | Hge].
    + constructor; [now constructor |].
      constructor; [lia |].
      eapply Forall_impl; [| exact Hx]. intros y Hy. simpl in Hy. lia.
    + constructor; [exact IH |].
      apply Forall_forall. intros y Hy. apply In_insertByAvg in Hy.
      destruct Hy as [-> | Hy]; [exact Hge |].
      rewrite Forall_forall in Hx. now apply Hx.
Qed.

Lemma sortByAvgDesc_sorted (ls : list Learner.t) :
  StronglySorted
    (fun x y => (Learner.avgCompletion y <= Learner.avgCompletion x)%Z)
    (ListModal.sortByAvgDesc ls).
Proof.
  unfold ListModal.sortByAvgDesc.
  assert (G : forall acc,
            StronglySorted
              (fun x y => (Learner.avgCompletion y <= Learner.avgCompletion x)%Z)
              acc ->
            StronglySorted
              (fun x y => (Learner.avgCompletion y <= Learner.avgCompletion x)%Z)
              (fold_left (fun sorted l => ListModal.insertByAvg l sorted) ls acc)).
  { induction ls as [| l ls IH]; intros acc Hacc; simpl; [exact Hacc |].
    now apply IH, insertByAvg_sorted. }
  apply G. constructor.
Qed.

Lemma includes_In (selectedIds : list N) (id : N) :
  ListModal.includes selectedIds id = true <-> In id selectedIds.
Proof.
  unfold ListModal.includes. rewrite existsb_exists. split.
  - intros [x [Hx Heq]]. apply N.eqb_eq in Heq. now subst.
  - intros H. exists id. split; [exact H | apply N.eqb_refl].
Qed.

(** X24. With some learners ticked, the export holds only ticked
    learners.  With none ticked, the average list is exported as the
    learner records rearranged by decreasing average.  The finished list,
    though shown in the table, is never exported: its export is empty, as
    is any export without analytics. *)
Theorem X24_export_list (a : Analytics.t) (selectedIds : list N) :
  (forall listModalType l,
     selectedIds <> [] ->
     In l (ListModal.exportList (Some a) listModalType selectedIds) ->
     In (Learner.id l) selectedIds) /\
  Permutation (Analytics.learners a)
    (ListModal.exportList (Some a) ListModal.average []) /\
  StronglySorted
    (fun x y => (Learner.avgCompletion y <= Learner.avgCompletion x)%Z)
    (ListModal.exportList (Some a) ListModal.average []) /\
  ListModal.exportList (Some a) ListModal.finished selectedIds = [] /\
  (forall listModalType,
     ListModal.exportList None listModalType selectedIds = []).
Proof.
  split; [| split; [| split; [| split]]].
  - intros t l Hsel Hl. unfold ListModal.exportList in Hl.
    destruct selectedIds as [| x xs]; [contradiction |].
    cbn [List.length Nat.ltb Nat.leb] in Hl.
    apply filter_In in Hl. destruct Hl as [_ Hl]. now apply includes_In.
  - apply sortByAvgDesc_perm.
  - apply sortByAvgDesc_sorted.
  - unfold ListModal.exportList.
    now destruct (Nat.ltb 0 (List.length selectedIds)).
  - reflexivity.
Qed.

Lemma X24_export_list_witness :
  [2%N] <> [] /\
  In (firstOf (ListModal.exportList (Some (resultOf snapshotsAB))
                 ListModal.total [2%N]))
     (ListModal.exportList (Some (resultOf snapshotsAB)) ListModal.total [2%N]) /\
  In (Learner.id
        (firstOf (ListModal.exportList (Some (resultOf snapshotsAB))
                    ListModal.total [2%N])))
     [2%N].
Proof.
  assert (Hne : [2%N] <> []) by discriminate.
  assert (Hl : In (firstOf (ListModal.exportList (Some (resultOf snapshotsAB))
                              ListModal.total [2%N]))
                  (ListModal.exportList (Some (resultOf snapshotsAB))
                     ListModal.total [2%N]))
    by (vm_compute; left; reflexivity).
  split; [exact Hne | split; [exact Hl |]].
  exact (proj1 (X24_export_list (resultOf snapshotsAB) [2%N])
           ListModal.total _ Hne Hl).
Defined.

(** ** Deleting and importing reports *)

Lemma delete_none (l : list Snapshot.t) (k idx : nat) :
  (idx < k)%nat ->
  map snd (filter (fun p => negb (Nat.eqb (fst p) idx))
             (combine (seq k (List.length l)) l)) = l.
Proof.
  revert k. induction l as [| x l IH]; intros k H; simpl; [reflexivity |].
  assert (E : Nat.eqb k idx = false) by (apply Nat.eqb_neq; lia).
  rewrite E. simpl. f_equal. apply IH. lia.
Qed.

Lemma delete_at (l : list Snapshot.t) (k idx : nat) :
  map snd (filter (fun p => negb (Nat.eqb (fst p) (k + idx)))
             (combine (seq k (List.length l)) l)) =
  firstn idx l ++ skipn (S idx) l.
Proof.
  revert k idx. induction l as [| x l IH]; intros k idx; simpl.
  - now destruct idx.
  - destruct idx as [| idx].
    + rewrite Nat.add_0_r, Nat.eqb_refl. simpl.
      apply delete_none. lia.
    + assert (E : Nat.eqb k (k + S idx) = false) by (apply Nat.eqb_neq; lia).
      rewrite E. simpl. f_equal.
      replace (k + S idx)%nat with (S k + idx)%nat by lia. apply IH.
Qed.

(** X25. Deleting report [idx] removes that report and no other, keeping
    the order of the rest; an index past the end deletes nothing.
    Deleting the report just appended gives back the sequence as it was,
    and deleting the only report leaves no analytics. *)
Theorem X25_delete_report (idx : nat) (prev : list Snapshot.t)
    (s : Snapshot.t) :
  Reports.deleteReport idx prev = (firstn idx prev ++ skipn (S idx) prev)%list /\
  ((idx < List.length prev)%nat ->
   List.length (Reports.deleteReport idx prev) = (List.length prev - 1)%nat) /\
  ((List.length prev <= idx)%nat -> Reports.deleteReport idx prev = prev) /\
  Reports.deleteReport (List.length prev) (prev ++ [s]) = prev /\
  computeAnalytics (Reports.deleteReport 0 [s]) = None.
Proof.
  assert (E : forall i l, Reports.deleteReport i l =
                          (firstn i l ++ skipn (S i) l)%list).
  { intros i l. unfold Reports.deleteReport. apply (delete_at l 0 i). }
  split; [apply E | split; [| split; [| split]]].
  - intros H. rewrite E, length_app, length_firstn, length_skipn. lia.
  - intros H. rewrite E, firstn_all2 by exact H.
    rewrite skipn_all2 by lia. apply app_nil_r.
  - rewrite E. rewrite firstn_app, Nat.sub_diag, firstn_all.
    rewrite (skipn_all2 (prev ++ [s]))
      by (rewrite length_app; simpl; lia).
    cbn [firstn]. now rewrite !app_nil_r.
  - reflexivity.
Qed.

Lemma X25_delete_report_witness :
  (1 < List.length snapshotsOAB)%nat /\
  Reports.deleteReport 1 snapshotsOAB = [snapshotOld; snapshotB] /\
  List.length (Reports.deleteReport 1 snapshotsOAB) =
    (List.length snapshotsOAB - 1)%nat.
Proof.
  assert (H : (1 < List.length snapshotsOAB)%nat) by (simpl; lia).
  split; [exact H | split; [reflexivity |]].
  exact (proj1 (proj2 (X25_delete_report 1 snapshotsOAB snapshotA)) H).
Defined.

Lemma stripExtension_no_dot (s : string) :
  Reports.hasDot s = false -> Reports.stripExtension s = s.
Proof.
  induction s as [| c s IH]; simpl; [reflexivity |].
  intros H. apply orb_false_iff in H. destruct H as [Hc Hs].
  rewrite Hc. simpl. now rewrite IH.
Qed.

Lemma hasDot_app (a b : string) :
  Reports.hasDot (a ++ b) = Reports.hasDot a || Reports.hasDot b.
Proof.
  induction a as [| c a IH]; simpl; [reflexivity |].
  now rewrite IH, orb_assoc.
Qed.

(** X26. The name of an imported report is the file name without its
    extension: a last dot followed by one character or more is cut off
    with what follows it.  A name without a dot, or ending in a dot, is
    kept whole, and a name that is only an extension gives an empty
    report name. *)
Theorem X26_report_name_strips_extension (base ext : string) :
  ext <> ""%string -> Reports.hasDot ext = false ->
  Reports.stripExtension (base ++ String "."%char ext) = base /\
  (Reports.hasDot base = false -> Reports.stripExtension base = base) /\
  Reports.stripExtension (base ++ ".")%string = (base ++ ".")%string /\
  Reports.stripExtension (String "."%char ext) = ""%string.
Proof.
  intros Hne Hdot.
  assert (Hext : String.eqb ext "" = false) by now apply String.eqb_neq.
  assert (A : forall b, Reports.stripExtension (b ++ String "."%char ext) = b).
  { induction b as [| c b IH]; simpl.
    - now rewrite Hdot, Hext.
    - rewrite IH. rewrite hasDot_app. simpl.
      rewrite orb_true_r, andb_false_r. reflexivity. }
  assert (B : forall b, Reports.stripExtension (b ++ ".") = (b ++ ".")%string).
  { induction b as [| c b IH]; simpl; [reflexivity |].
    rewrite IH. rewrite hasDot_app. simpl.
    rewrite orb_true_r, andb_false_r. reflexivity. }
  split; [apply A | split; [apply stripExtension_no_dot | split]].
  - apply B.
  - exact (A ""%string).
Qed.

Lemma X26_report_name_strips_extension_witness :
  "xlsx"%string <> ""%string /\ Reports.hasDot "xlsx" = false /\
  Reports.stripExtension "report.v2.xlsx" = "report.v2"%string.
Proof.
  assert (Hne : "xlsx"%string <> ""%string) by discriminate.
  assert (Hd : Reports.hasDot "xlsx" = false) by reflexivity.
  split; [exact Hne | split; [exact Hd |]].
  exact (proj1 (X26_report_name_strips_extension "report.v2" "xlsx" Hne Hd)).
Defined.

Lemma pushFile_fold (fileList : list Reports.File) (snapshots : list Snapshot.t) :
  exists added,
    fold_left Reports.pushFile fileList snapshots = (snapshots ++ added)%list /\
    map Snapshot.rows added = map Reports.jsonData fileList.
Proof.
  revert snapshots. induction fileList as [| f fs IH]; intros snapshots; simpl.
  - exists []. now rewrite app_nil_r.
  - destruct (IH (Reports.pushFile snapshots f)) as (added & E & R).
    exists (Snapshot.mk (Reports.baseName f snapshots) (Reports.jsonData f)
              :: added).
    unfold Reports.pushFile in E. rewrite <- app_assoc in E. simpl in E.
    split; [exact E | simpl; now rewrite R].
Qed.

Lemma flat_map_length_rows (added : list Snapshot.t) (fileList : list Reports.File) :
  map Snapshot.rows added = map Reports.jsonData fileList ->
  flat_map Snapshot.rows added = flat_map Reports.jsonData fileList.
Proof.
  intros H. rewrite !flat_map_concat_map. now rewrite H.
Qed.

(** X27. An import appends one report per file, in file order, each with
    the rows of its file, and leaves the reports already there untouched.
    The summary counts the files, the rows they bring and the rows of all
    reports together; an empty selection changes nothing, and after an
    import there are analytics. *)
Theorem X27_import_appends (snapshots : list Snapshot.t)
    (fileList : list Reports.File) :
  fileList <> [] ->
  exists imported added,
    Reports.handleFileImport snapshots fileList = Some imported /\
    Reports.newSnapshots imported = (snapshots ++ added)%list /\
    map Snapshot.rows added = map Reports.jsonData fileList /\
    Reports.files (Reports.importSummary imported) = List.length fileList /\
    Reports.rowsAdded (Reports.importSummary imported) =
      List.length (flat_map Reports.jsonData fileList) /\
    Reports.totalRows (Reports.importSummary imported) =
      (List.length (flat_map Snapshot.rows snapshots) +
       Reports.rowsAdded (Reports.importSummary imported))%nat /\
    Reports.handleFileImport snapshots [] = None /\
    computeAnalytics (Reports.newSnapshots imported) <> None.
Proof.
  intros Hne. destruct (pushFile_fold fileList snapshots) as (added & E & R).
  unfold Reports.handleFileImport.
  destruct fileList as [| f fs]; [contradiction |].
  cbn [List.length Nat.eqb].
  eexists. exists added. split; [reflexivity |].
  cbn [Reports.newSnapshots Reports.importSummary Reports.files
       Reports.rowsAdded Reports.totalRows].
  split; [exact E | split; [exact R | split; [reflexivity |]]].
  split; [reflexivity | split; [| split; [reflexivity |]]].
  - rewrite E, flat_map_app, length_app.
    now rewrite (flat_map_length_rows _ _ R).
  - rewrite E.
    assert (Hadd : added <> []) by (destruct added; discriminate).
    destruct (snapshots ++ added)%list as [| s ss] eqn:Happ.
    + apply app_eq_nil in Happ. tauto.
    + destruct (computeAnalytics_nonempty s ss) as [a Ha]. congruence.
Qed.

Lemma X27_import_appends_witness :
  [Reports.mkFile "week3.csv" rowsEve] <> [] /\
  option_map (fun i => map Snapshot.name (Reports.newSnapshots i))
    (Reports.handleFileImport snapshotsAB [Reports.mkFile "week3.csv" rowsEve])
    = Some ["A"; "B"; "week3"]%string /\
  exists imported added,
    Reports.handleFileImport snapshotsAB [Reports.mkFile "week3.csv" rowsEve]
      = Some imported /\
    Reports.newSnapshots imported = (snapshotsAB ++ added)%list.
Proof.
  assert (Hne : [Reports.mkFile "week3.csv" rowsEve] <> []) by discriminate.
  split; [exact Hne | split; [reflexivity |]].
  destruct (X27_import_appends snapshotsAB _ Hne)
    as (imported & added & H1 & H2 & _).
  exists imported, added. split; [exact H1 | exact H2].
Defined.
